(** * OnlyKey host client (onlykey/client.py): report framing, chunked
      senders, response polling, challenge buttons, connection retries.

    The client is Python 3 code (it relies on [bytes([n])], [bytes.hex()]
    and [input()]), so values are modelled with Python 3's rules: indexing
    a [bytes] object yields an [int], [ord] accepts only a one-character
    [str] or a one-byte [bytes], [bytes([n])] raises [ValueError] outside
    [range(256)], and the name bound by [except ... as e] is unbound again
    when the handler is left. *)

From Stdlib Require Import ZArith NArith Lia.
From Stdlib.Strings Require Import Byte.
From stdpp Require Import base list gmap strings.

Set Default Proof Using "Type".

(** ** Python values that reach the client *)

Abbreviation bytes := (list byte).

(** A [str] is its sequence of code points. *)
Abbreviation pystr := (list N).

Definition byte_to_Z (b : byte) : Z := Z.of_N (Byte.to_N b).

(** The exception classes the client can raise, directly or through a
    builtin.  [PyException msg] is [Exception(msg)]. *)
Inductive exn : Type :=
  | TypeError
  | ValueError
  | KeyError (key : Z)
  | IndexError
  | NameError
  | UnboundLocalError
  | HIDException
  | AttributeError
  | AssertionError
  | UnicodeEncodeError
  | UnicodeDecodeError
  | OnlyKeyUnavailableException
  | PyException (msg : string).

(** [type(e).__name__] *)
Definition class_name (e : exn) : string :=
  match e with
  | TypeError => "TypeError"
  | ValueError => "ValueError"
  | KeyError _ => "KeyError"
  | IndexError => "IndexError"
  | NameError => "NameError"
  | HIDException => "HIDException"
  | UnboundLocalError => "UnboundLocalError"
  | AttributeError => "AttributeError"
  | AssertionError => "AssertionError"
  | UnicodeEncodeError => "UnicodeEncodeError"
  | UnicodeDecodeError => "UnicodeDecodeError"
  | OnlyKeyUnavailableException => "OnlyKeyUnavailableException"
  | PyException _ => "Exception"
  end.

(** How a call ends: it returns, it raises, or it never comes back (a
    [while] loop whose condition stays true for ever). *)
Inductive outcome (A : Type) : Type :=
  | Return (a : A)
  | Raise (e : exn)
  | Hang.
Arguments Return {A} a.
Arguments Raise {A} e.
Arguments Hang {A}.

Definition obind {A B} (o : outcome A) (k : A -> outcome B) : outcome B :=
  match o with
  | Return a => k a
  | Raise e => Raise e
  | Hang => Hang
  end.

#[global] Instance outcome_ret : MRet outcome := @Return.
#[global] Instance outcome_bind : MBind outcome := fun A B k o => obind o k.

(** The objects the client handles: [None], [bytes], [str], a [list] of
    [int], an [int], a [bytearray], or an object of another kind, one
    that has a truth value but no length, no items and no code point, and
    is not bytes-like. *)
Inductive pyval : Type :=
  | VNone
  | VBytes (b : bytes)
  | VStr (s : pystr)
  | VList (l : list Z)
  | VInt (n : Z)
  | VOther (truth : bool)
  | VByteArray (b : bytes).

(** [bool(v)] *)
Definition truthy (v : pyval) : bool :=
  match v with
  | VNone => false
  | VBytes b => negb (Nat.eqb (length b) 0)
  | VStr s => negb (Nat.eqb (length s) 0)
  | VList l => negb (Nat.eqb (length l) 0)
  | VInt n => negb (Z.eqb n 0)
  | VOther t => t
  | VByteArray b => negb (Nat.eqb (length b) 0)
  end.

(** [bytes([n])] for one element: [ValueError] unless [0 <= n < 256]. *)
Definition byte_of_int (n : Z) : outcome byte :=
  if (0 <=? n)%Z && (n <? 256)%Z then
    match Byte.of_N (Z.to_N n) with
    | Some b => Return b
    | None => Raise ValueError
    end
  else Raise ValueError.

(** [bytes(l)] for a list of [int] *)
Fixpoint bytes_of_ints (l : list Z) : outcome bytes :=
  match l with
  | [] => Return []
  | n :: l' =>
      obind (byte_of_int n) (fun b =>
      obind (bytes_of_ints l') (fun bs => Return (b :: bs)))
  end.

(** [s.encode("utf-8")], one code point at a time.  Surrogates cannot be
    encoded; a [str] holds no code point from [0x110000] on. *)
Definition byte_of_N (n : N) : byte :=
  default Byte.x00 (Byte.of_N (n mod 256)).

Definition utf8_encode_char (c : N) : outcome bytes :=
  if (c <? 128)%N then Return [byte_of_N c]
  else if (c <? 2048)%N then
    Return [byte_of_N (192 + c / 64); byte_of_N (128 + c mod 64)]
  else if (c <? 65536)%N then
    if (55296 <=? c)%N && (c <=? 57343)%N then Raise UnicodeEncodeError
    else Return [byte_of_N (224 + c / 4096);
                 byte_of_N (128 + (c / 64) mod 64);
                 byte_of_N (128 + c mod 64)]
  else if (c <? 1114112)%N then
    Return [byte_of_N (240 + c / 262144);
            byte_of_N (128 + (c / 4096) mod 64);
            byte_of_N (128 + (c / 64) mod 64);
            byte_of_N (128 + c mod 64)]
  else Raise UnicodeEncodeError.

Fixpoint utf8_encode (s : pystr) : outcome bytes :=
  match s with
  | [] => Return []
  | c :: s' =>
      obind (utf8_encode_char c) (fun b =>
      obind (utf8_encode s') (fun bs => Return (b ++ bs)))
  end.

(** [b.decode("ascii")] *)
Fixpoint ascii_decode (b : bytes) : outcome pystr :=
  match b with
  | [] => Return []
  | x :: b' =>
      if (Byte.to_N x <? 128)%N
      then obind (ascii_decode b') (fun s => Return (Byte.to_N x :: s))
      else Raise UnicodeDecodeError
  end.

(** [b.hex()]: two lower-case hexadecimal digits per byte. *)
Definition hex_digit (n : N) : N :=
  if (n <? 10)%N then (48 + n)%N else (87 + n)%N.

Fixpoint bytes_hex (b : bytes) : pystr :=
  match b with
  | [] => []
  | x :: b' =>
      hex_digit (Byte.to_N x / 16) :: hex_digit (Byte.to_N x mod 16) :: bytes_hex b'
  end.

(** ** Module constants *)

Definition DEVICE_IDS : list (Z * Z) :=
  [(0x16C0, 0x0486); (0x1d50, 0x60fc)]%Z.

(** [os.name == 'nt'] selects the 65-byte reports with a leading report
    id; [nt] is that test. *)
Definition MAX_INPUT_REPORT_SIZE (nt : bool) : nat := if nt then 65 else 64.

Definition MESSAGE_HEADER (nt : bool) : list Z :=
  if nt then [0; 255; 255; 255; 255]%Z else [255; 255; 255; 255]%Z.

Definition MAX_LARGE_PAYLOAD_SIZE : nat := 58.

Definition SLOTS_NAME : gmap Z string :=
  list_to_map
    [(1, "1a"); (2, "2a"); (3, "3a"); (4, "4a"); (5, "5a"); (6, "6a");
     (7, "1b"); (8, "2b"); (9, "3b"); (10, "4b"); (11, "5b"); (12, "6b");
     (25, "RSA Key 1"); (26, "RSA Key 2"); (27, "RSA Key 3"); (28, "RSA Key 4");
     (29, "ECC Key 1"); (30, "ECC Key 2"); (31, "ECC Key 3"); (32, "ECC Key 4");
     (33, "ECC Key 5"); (34, "ECC Key 6"); (35, "ECC Key 7"); (36, "ECC Key 8");
     (37, "ECC Key 9"); (38, "ECC Key 10"); (39, "ECC Key 11"); (40, "ECC Key 12");
     (41, "ECC Key 13"); (42, "ECC Key 14"); (43, "ECC Key 15"); (44, "ECC Key 16");
     (45, "ECC Key 17"); (46, "ECC Key 18"); (47, "ECC Key 19"); (48, "ECC Key 20");
     (49, "ECC Key 21"); (50, "ECC Key 22"); (51, "ECC Key 23"); (52, "ECC Key 24");
     (53, "ECC Key 25"); (54, "ECC Key 26"); (55, "ECC Key 27"); (56, "ECC Key 28");
     (57, "ECC Key 29"); (58, "ECC Key 30"); (59, "ECC Key 31"); (60, "ECC Key 32")]%Z.

Inductive Message : Type :=
  | OKSETPIN | OKSETSDPIN | OKSETPDPIN | OKSETTIME | OKGETLABELS | OKSETSLOT
  | OKWIPESLOT | OKSETU2FPRIV | OKWIPEU2FPRIV | OKSETU2FCERT | OKWIPEU2FCERT
  | OKGETPUBKEY | OKSIGNCHALLENGE | OKWIPEPRIV | OKSETPRIV | OKDECRYPT
  | OKRESTORE.

Definition Message_value (m : Message) : Z :=
  match m with
  | OKSETPIN => 225 | OKSETSDPIN => 226 | OKSETPDPIN => 227 | OKSETTIME => 228
  | OKGETLABELS => 229 | OKSETSLOT => 230 | OKWIPESLOT => 231
  | OKSETU2FPRIV => 232 | OKWIPEU2FPRIV => 233 | OKSETU2FCERT => 234
  | OKWIPEU2FCERT => 235 | OKGETPUBKEY => 236 | OKSIGNCHALLENGE => 237
  | OKWIPEPRIV => 238 | OKSETPRIV => 239 | OKDECRYPT => 240 | OKRESTORE => 241
  end%Z.

Inductive MessageField : Type :=
  | LABEL | URL | DELAY1 | NEXTKEY4 | USERNAME | NEXTKEY1 | NEXTKEY2 | DELAY2
  | PASSWORD | NEXTKEY3 | DELAY3 | NEXTKEY5 | TFATYPE | TOTPKEY | YUBIAUTH
  | IDLETIMEOUT | WIPEMODE | KEYTYPESPEED | KEYLAYOUT | LEDBRIGHTNESS
  | SECPROFILEMODE | PGPCHALENGEMODE | SSHCHALENGEMODE | BACKUPMODE.

Definition MessageField_value (f : MessageField) : Z :=
  match f with
  | LABEL => 1 | URL => 15 | DELAY1 => 17 | NEXTKEY4 => 18 | USERNAME => 2
  | NEXTKEY1 => 16 | NEXTKEY2 => 3 | DELAY2 => 4 | PASSWORD => 5
  | NEXTKEY3 => 6 | DELAY3 => 7 | NEXTKEY5 => 19 | TFATYPE => 8 | TOTPKEY => 9
  | YUBIAUTH => 10 | IDLETIMEOUT => 11 | WIPEMODE => 12 | KEYTYPESPEED => 13
  | KEYLAYOUT => 14 | LEDBRIGHTNESS => 24 | SECPROFILEMODE => 23
  | PGPCHALENGEMODE => 22 | SSHCHALENGEMODE => 21 | BACKUPMODE => 20
  end%Z.

(** ** Slot *)

Record Slot : Type := mkSlot {
  number : Z;
  label : pystr;
  name : string
}.

(** [Slot.__init__]: [SLOTS_NAME[num]] raises [KeyError] on a key the
    dict does not hold. *)
Definition Slot_init (num : Z) (label : pystr) : outcome Slot :=
  match SLOTS_NAME !! num with
  | Some nm => Return (mkSlot num label nm)
  | None => Raise (KeyError num)
  end.

(** ** The HID transport and the session

    The transport is outside the client; the model keeps what the client
    can observe of it.  [enumerate_at k] is the answer of the [k]-th call
    of [hid.enumerate] ([None]: the call raises), [can_open] tells whether
    [hid.Device] succeeds on a device, [pending] holds the results of the
    next calls of [read] in order (an empty result is a read that timed
    out, and once the list is used up every read times out). *)

Record hid_device_info : Type := mkInfo {
  vendor_id : Z;
  product_id : Z;
  serial_number : string;
  interface_number : Z;
  usage_page : Z;
  path : string
}.

(** What the client did, in order.  Durations are in milliseconds;
    [print] and [log] calls are left out. *)
Inductive event : Type :=
  | EvEnumerate
  | EvOpen (p : string)
  | EvWrite (data : bytes)
  | EvRead (n : nat) (timeout_ms : Z) (data : bytes)
  | EvSleep (ms : Z)
  | EvInput.

Record world : Type := mkWorld {
  enumerate_at : nat -> option (list hid_device_info);
  can_open : hid_device_info -> bool;
  enum_calls : nat;
  _hid : option string;          (* self._hid, when the attribute is set *)
  slotnum : option Z;            (* the module global, when it is bound *)
  pending : list bytes;
  trace : list event
}.

Definition log_event (e : event) (w : world) : world :=
  mkWorld (enumerate_at w) (can_open w) (enum_calls w) (_hid w) (slotnum w)
          (pending w) (trace w ++ [e]).

Definition set_pending (q : list bytes) (w : world) : world :=
  mkWorld (enumerate_at w) (can_open w) (enum_calls w) (_hid w) (slotnum w)
          q (trace w).

Definition set_hid (h : string) (w : world) : world :=
  mkWorld (enumerate_at w) (can_open w) (enum_calls w) (Some h) (slotnum w)
          (pending w) (trace w).

Definition set_slotnum (s : Z) (w : world) : world :=
  mkWorld (enumerate_at w) (can_open w) (enum_calls w) (_hid w) (Some s)
          (pending w) (trace w).

Definition count_enumerate (w : world) : world :=
  mkWorld (enumerate_at w) (can_open w) (S (enum_calls w)) (_hid w) (slotnum w)
          (pending w) (trace w).

(** A method body: it runs in a world and ends with an outcome. *)
Definition io (A : Type) : Type := world -> outcome A * world.

Definition ret {A} (a : A) : io A := fun w => (Return a, w).

Definition raise {A} (e : exn) : io A := fun w => (Raise e, w).

Definition lift {A} (o : outcome A) : io A := fun w => (o, w).

Definition bind {A B} (m : io A) (k : A -> io B) : io B :=
  fun w =>
    match m w with
    | (Return a, w') => k a w'
    | (Raise e, w') => (Raise e, w')
    | (Hang, w') => (Hang, w')
    end.

#[global] Instance io_ret : MRet io := @ret.
#[global] Instance io_bind : MBind io := fun A B k m => bind m k.
#[global] Instance io_throw : MThrow exn io := @raise.

(** [for x in l: body(x)] *)
Fixpoint for_each {A} (l : list A) (body : A -> io unit) : io unit :=
  match l with
  | [] => ret tt
  | x :: l' => body x ;; for_each l' body
  end.

(** [self._hid.write(data)] *)
Definition hid_write (data : bytes) : io unit :=
  fun w =>
    match _hid w with
    | None => (Raise AttributeError, w)
    | Some _ => (Return tt, log_event (EvWrite data) w)
    end.

(** [self._hid.read(n, timeout=timeout_ms)]: at most [n] bytes of the next
    report, or nothing when the read times out. *)
Definition hid_read (n : nat) (timeout_ms : Z) : io bytes :=
  fun w =>
    match _hid w with
    | None => (Raise AttributeError, w)
    | Some _ =>
        match pending w with
        | [] => (Return [], log_event (EvRead n timeout_ms []) w)
        | r :: q =>
            (Return (take n r),
             log_event (EvRead n timeout_ms (take n r)) (set_pending q w))
        end
    end.

(** [time.sleep(ms / 1000)] *)
Definition sleep (ms : Z) : io unit :=
  fun w => (Return tt, log_event (EvSleep ms) w).

(** [input()]: blocks until the operator presses ENTER. *)
Definition input : io unit :=
  fun w => (Return tt, log_event EvInput w).

(** ** Sequences: [len], slices, [range] *)

Definition py_len (v : pyval) : outcome nat :=
  match v with
  | VBytes b => Return (length b)
  | VStr s => Return (length s)
  | VList l => Return (length l)
  | VByteArray b => Return (length b)
  | _ => Raise TypeError
  end.

(** [l[lo:hi]] for [0 <= lo <= hi]; the slice stops at the end of [l]. *)
Definition slice {A} (l : list A) (lo hi : nat) : list A :=
  take (hi - lo) (drop lo l).

Definition py_slice (v : pyval) (lo hi : nat) : pyval :=
  match v with
  | VBytes b => VBytes (slice b lo hi)
  | VStr s => VStr (slice s lo hi)
  | VList l => VList (slice l lo hi)
  | VByteArray b => VByteArray (slice b lo hi)
  | _ => v
  end.

(** [range(start, stop, step)] for a positive [step]: [start], then
    [start + step], ... while below [stop]; there are at most
    [stop - start] of them. *)
Fixpoint range_from (fuel start stop step : nat) : list nat :=
  match fuel with
  | O => []
  | S fuel' =>
      if start <? stop
      then start :: range_from fuel' (start + step) stop step
      else []
  end.

Definition py_range (start stop step : nat) : list nat :=
  range_from (stop - start) start stop step.

Section Client.

(** [os.name == 'nt'] *)
Variable nt : bool.

(** The padding loop of [send_message]:
    [while len(raw_bytes) < MAX_INPUT_REPORT_SIZE: raw_bytes += bytes([0])].
    Each round adds one byte, so [MAX_INPUT_REPORT_SIZE] rounds are
    enough. *)
Fixpoint pad_loop (rounds : nat) (raw_bytes : bytes) : bytes :=
  match rounds with
  | O => raw_bytes
  | S rounds' =>
      if length raw_bytes <? MAX_INPUT_REPORT_SIZE nt
      then pad_loop rounds' (raw_bytes ++ [Byte.x00])
      else raw_bytes
  end.

Definition zero_pad (raw_bytes : bytes) : bytes :=
  pad_loop (MAX_INPUT_REPORT_SIZE nt) raw_bytes.

(** The bytes of a payload that passed [if payload:]. *)
Definition payload_bytes (payload : pyval) : outcome bytes :=
  match payload with
  | VBytes b => Return b
  | VStr s => utf8_encode s
  | VList l => bytes_of_ints l
  | VInt n => bytes_of_ints [n]
  | _ => Raise (PyException "`payload` must be either `str` or `list`, got `{}`")
  end.

(** [OnlyKey.send_message].  [slot_id] is [None] or an [int] at every
    call. *)
Definition send_message (payload : pyval) (msg : option Message)
    (slot_id : option Z) (message_field : option MessageField) : io unit :=
  raw_bytes ← lift (bytes_of_ints (MESSAGE_HEADER nt)) ;
  raw_bytes ← match msg with
               | Some m =>
                   b ← lift (bytes_of_ints [Message_value m]) ;
                   ret (raw_bytes ++ b)
               | None => ret raw_bytes
               end ;
  raw_bytes ← match slot_id with
               | Some s =>
                   if negb (Z.eqb s 0)
                   then b ← lift (bytes_of_ints [s]) ; ret (raw_bytes ++ b)
                   else ret raw_bytes
               | None => ret raw_bytes
               end ;
  raw_bytes ← match message_field with
               | Some f =>
                   b ← lift (bytes_of_ints [MessageField_value f]) ;
                   ret (raw_bytes ++ b)
               | None => ret raw_bytes
               end ;
  raw_bytes ← (if truthy payload
                then b ← lift (payload_bytes payload) ; ret (raw_bytes ++ b)
                else ret raw_bytes) ;
  hid_write (zero_pad raw_bytes).

(** "Split the payload in multiple chunks": the list [chunks] of
    [send_large_message] and of [send_large_message2], for a payload of
    length [n]. *)
Definition large_message_chunks (payload : pyval) (n : nat) : list pyval :=
  map (fun x => py_slice payload x (x + MAX_LARGE_PAYLOAD_SIZE))
      (py_range 0 n 58).

Definition large_message2_chunks (payload : pyval) (n : nat) : list pyval :=
  map (fun x => py_slice payload x (x + MAX_LARGE_PAYLOAD_SIZE - 1))
      (py_range 0 n 57).

(** [OnlyKey.send_large_message]; its [slot_id] argument is never used. *)
Definition send_large_message (payload : pyval) (msg : option Message)
    : io unit :=
  match msg with
  | None => raise (PyException "Missing msg")
  | Some _ =>
      n ← lift (py_len payload) ;
      let chunks := large_message_chunks payload n in
      for_each chunks (fun chunk =>
        current_payload ← lift (bytes_of_ints [255%Z]) ;
        len ← lift (py_len chunk) ;
        current_payload ← (if len <? 58
                            then lift (bytes_of_ints [Z.of_nat len])
                            else ret current_payload) ;
        current_payload ← match chunk with
                           | VList l =>
                               b ← lift (bytes_of_ints l) ;
                               ret (current_payload ++ b)
                           | VBytes b | VByteArray b =>
                               ret (current_payload ++ b)
                           | _ => raise TypeError
                           end ;
        send_message (VBytes current_payload) msg None None)
  end.

(** [OnlyKey.send_large_message2] *)
Definition send_large_message2 (payload : pyval) (msg : option Message)
    (slot_id : Z) : io unit :=
  match msg with
  | None => raise (PyException "Missing msg")
  | Some _ =>
      n ← lift (py_len payload) ;
      let chunks := large_message2_chunks payload n in
      for_each chunks (fun chunk =>
        let current_payload := [slot_id; 255%Z] in
        len ← lift (py_len chunk) ;
        let current_payload :=
          if len <? 57 then [slot_id; Z.of_nat len] else current_payload in
        current_payload ← lift (bytes_of_ints current_payload) ;
        current_payload ← match chunk with
                           | VList l =>
                               b ← lift (bytes_of_ints l) ;
                               ret (current_payload ++ b)
                           | VBytes b | VByteArray b =>
                               ret (current_payload ++ b)
                           | _ => raise TypeError
                           end ;
        send_message (VBytes current_payload) msg None None)
  end.

(** [OnlyKey.read_bytes]: the raw [bytes], or their hexadecimal text when
    [to_str] is set. *)
Definition read_bytes (n : nat) (to_str : bool) (timeout_ms : Z) : io pyval :=
  out ← hid_read n timeout_ms ;
  if to_str then ret (VStr (bytes_hex out)) else ret (VBytes out).

(** [OnlyKey.read_chunk] *)
Definition read_chunk (timeout_ms : Z) : io pyval :=
  read_bytes (MAX_INPUT_REPORT_SIZE nt) false timeout_ms.

(** [OnlyKey.read_string]; [bytes] and [bytearray] have [decode], a
    [str] has not. *)
Definition read_string (timeout_ms : Z) : io pystr :=
  c ← read_chunk timeout_ms ;
  match c with
  | VBytes b | VByteArray b => lift (ascii_decode b)
  | _ => raise AttributeError
  end.

(** [v == s] for a [str] literal [s] *)
Definition py_eq_str (v : pyval) (s : pystr) : bool :=
  match v with
  | VStr s' => bool_decide (s' = s)
  | _ => false
  end.

(** [a + b] *)
Definition py_add (a b : pyval) : outcome pyval :=
  match a, b with
  | VStr x, VStr y => Return (VStr (x ++ y))
  | VBytes x, VBytes y => Return (VBytes (x ++ y))
  | VList x, VList y => Return (VList (x ++ y))
  | VInt x, VInt y => Return (VInt (x + y))
  | VBytes x, VByteArray y => Return (VBytes (x ++ y))
  | VByteArray x, VBytes y => Return (VByteArray (x ++ y))
  | VByteArray x, VByteArray y => Return (VByteArray (x ++ y))
  | _, _ => Raise TypeError
  end.

(** [binascii.hexlify(v)] takes a bytes-like object. *)
Definition binascii_hexlify (v : pyval) : outcome pyval :=
  match v with
  | VBytes b | VByteArray b => Return (VBytes (map byte_of_N (bytes_hex b)))
  | _ => Raise TypeError
  end.

(** [d[i]] on [bytes]: an [int]. *)
Definition bytes_getitem (d : bytes) (i : nat) : outcome pyval :=
  match d !! i with
  | Some b => Return (VInt (byte_to_Z b))
  | None => Raise IndexError
  end.

(** [ord(c)]: the code of a [str] of one character, or the byte of a
    [bytes] or [bytearray] of length one; [TypeError] on anything else. *)
Definition ord (c : pyval) : outcome Z :=
  match c with
  | VStr [x] => Return (Z.of_N x)
  | VBytes [b] | VByteArray [b] => Return (byte_to_Z b)
  | _ => Raise TypeError
  end.

(** [get_button], the helper nested in [sign] and again, word for word,
    in [decrypt]. *)
Definition get_button (byte : pyval) : outcome Z :=
  ibyte ← ord byte ;
  if (ibyte <? 6)%Z then Return 1%Z else Return (ibyte mod 5 + 1)%Z.

(** [hashlib.sha256(data).digest()], from the standard library. *)
Variable sha256 : bytes -> bytes.

(** "Compute the challenge pin": the block shared by [sign] and
    [decrypt], from [h = hashlib.sha256()] to the binding of
    [b1, b2, b3]. *)
Definition challenge_pin (data : bytes) : outcome (Z * Z * Z) :=
  let d := sha256 data in
  if negb (length d =? 32) then Raise AssertionError
  else
    d0 ← bytes_getitem d 0 ; b1 ← get_button d0 ;
    d15 ← bytes_getitem d 15 ; b2 ← get_button d15 ;
    d31 ← bytes_getitem d 31 ; b3 ← get_button d31 ;
    Return (b1, b2, b3).

(** The global [slotnum], as [sign] and [decrypt] read it. *)
Definition get_slotnum : io Z :=
  fun w =>
    match slotnum w with
    | Some s => (Return s, w)
    | None => (Raise NameError, w)
    end.

(** [OnlyKey.slot] *)
Definition slot (s : Z) : io unit :=
  fun w => (Return tt, set_slotnum s w).

(** [x = ''; while x == '': time.sleep(0.5); x = self.read_bytes(64, to_str=True)].
    A round that reads nothing is followed by another one.  Once [pending]
    is used up every read is empty, so the loop that has not ended after
    one round more than [pending] holds never ends. *)
Fixpoint poll_nonempty (rounds : nat) : io pyval :=
  match rounds with
  | O => fun w => (Hang, w)
  | S rounds' =>
      sleep 500 ;;
      x ← read_bytes 64 true 100 ;
      if py_eq_str x [] then poll_nonempty rounds' else ret x
  end.

Definition read_first_part : io pyval :=
  fun w => poll_nonempty (S (length (pending w))) w.

(** [for _ in range(10): x = self.read_bytes(64, to_str=True); if len(x) == 64: break],
    with [x] as it stands after the loop; [last] is the value of the
    previous round. *)
Fixpoint retry_read (rounds : nat) (last : pyval) : io pyval :=
  match rounds with
  | O => ret last
  | S rounds' =>
      x ← read_bytes 64 true 100 ;
      len ← lift (py_len x) ;
      if len =? 64 then ret x else retry_read rounds' x
  end.

Definition read_next_part : io pyval := retry_read 10 VNone.

(** [sign], from "Trying to read the signature from OnlyKey" to the
    binding of [ok_signed]. *)
Definition sign_response : io pyval :=
  ok_sign1 ← read_first_part ;
  ok_sign2 ← read_next_part ;
  ok_sign3 ← read_next_part ;
  ok_sign4 ← read_next_part ;
  ok_sign5 ← read_next_part ;
  ok_sign6 ← read_next_part ;
  ok_sign7 ← read_next_part ;
  ok_sign8 ← read_next_part ;
  if negb (truthy ok_sign2)
  then raise (PyException "failed to read signature from OnlyKey")
  else
    s ← lift (py_add ok_sign1 ok_sign2) ;
    s ← lift (py_add s ok_sign3) ;
    s ← lift (py_add s ok_sign4) ;
    s ← lift (py_add s ok_sign5) ;
    s ← lift (py_add s ok_sign6) ;
    s ← lift (py_add s ok_sign7) ;
    lift (py_add s ok_sign8).

(** [OnlyKey.sign].  The loop [while not empty] after [empty = 'a'] is
    never entered. *)
Definition sign (SignatureHash : bytes) : io pyval :=
  _ ← lift (binascii_hexlify (VBytes SignatureHash)) ;
  sleep 2000 ;;
  _ ← read_string 100 ;
  sleep 1000 ;;
  _ ← lift (challenge_pin SignatureHash) ;
  slot_id ← get_slotnum ;
  send_large_message2 (VBytes SignatureHash) (Some OKSIGNCHALLENGE) slot_id ;;
  input ;;
  ok_signed ← sign_response ;
  _ ← lift (binascii_hexlify ok_signed) ;
  ret ok_signed.

(** [decrypt], from "Trying to read the decrypted data from OnlyKey" on. *)
Definition decrypt_response : io pyval := read_first_part.

(** [OnlyKey.decrypt] *)
Definition decrypt (ct : bytes) : io pyval :=
  sleep 2000 ;;
  _ ← read_string 100 ;
  sleep 1000 ;;
  _ ← lift (challenge_pin ct) ;
  slot_id ← get_slotnum ;
  send_large_message2 (VBytes ct) (Some OKDECRYPT) slot_id ;;
  input ;;
  decrypt_response.

End Client.

(** ** Connecting *)

(** [hid.enumerate(0, 0)] *)
Definition hid_enumerate : io (list hid_device_info) :=
  fun w =>
    let w' := count_enumerate (log_event EvEnumerate w) in
    match enumerate_at w (enum_calls w) with
    | Some ds => (Return ds, w')
    | None => (Raise HIDException, w')
    end.

(** [self._hid = hid.Device(vendor_id, product_id, path=path)] *)
Definition hid_Device (d : hid_device_info) : io unit :=
  fun w =>
    if can_open w d
    then (Return tt, set_hid (path d) (log_event (EvOpen (path d)) w))
    else (Raise HIDException, log_event (EvOpen (path d)) w).

(** [try: body / except: handler] *)
Definition try_except {A} (body : io A) (handler : exn -> io A) : io A :=
  fun w =>
    match body w with
    | (Raise e, w') => handler e w'
    | r => r
    end.

(** The test [_connect] applies to each enumerated device. *)
Definition is_onlykey_interface (d : hid_device_info) : bool :=
  bool_decide ((vendor_id d, product_id d) ∈ DEVICE_IDS) &&
  (if String.eqb (serial_number d) "1000000000"
   then (usage_page d =? 0xffab)%Z || (interface_number d =? 2)%Z
   else (usage_page d =? 0xf1d0)%Z || (interface_number d =? 1)%Z).

(** [OnlyKey._connect] *)
Definition _connect : io unit :=
  try_except
    (ds ← hid_enumerate ;
     for_each ds (fun d =>
       if is_onlykey_interface d then hid_Device d else ret tt))
    (fun _ => raise OnlyKeyUnavailableException).

(** The loop of [OnlyKey.__init__], [tries] being the rounds left.  The
    name [e] bound by [except Exception as e] is unbound when the handler
    is left, so the [raise e] after the loop raises [UnboundLocalError]. *)
Fixpoint connect_loop (tries : nat) : io unit :=
  match tries with
  | O => raise UnboundLocalError
  | S tries' =>
      try_except _connect (fun _ => sleep 1500 ;; connect_loop tries')
  end.

(** [OnlyKey.__init__] *)
Definition OnlyKey_init (connect : bool) : io unit :=
  if connect then connect_loop 5 else ret tt.

(** ** Wire layout and other notions the statements use *)

(** [bytes(MESSAGE_HEADER)] *)
Definition header_bytes (nt : bool) : bytes :=
  if nt then [Byte.x00; Byte.xff; Byte.xff; Byte.xff; Byte.xff]
  else [Byte.xff; Byte.xff; Byte.xff; Byte.xff].

Definition int_byte (n : Z) : byte := byte_of_N (Z.to_N n).

Definition nat_byte (n : nat) : byte := byte_of_N (N.of_nat n).

(** The bytes [send_message] appends for each optional argument. *)
Definition msg_bytes (msg : option Message) : bytes :=
  match msg with
  | Some m => [int_byte (Message_value m)]
  | None => []
  end.

Definition slot_id_bytes (slot_id : option Z) : bytes :=
  match slot_id with
  | Some s => if (s =? 0)%Z then [] else [int_byte s]
  | None => []
  end.

Definition field_bytes (message_field : option MessageField) : bytes :=
  match message_field with
  | Some f => [int_byte (MessageField_value f)]
  | None => []
  end.

(** The payload bytes, none for a falsy payload. *)
Definition encoded_payload (payload : pyval) : outcome bytes :=
  if truthy payload then payload_bytes payload else Return [].

(** [slot_id] fits [bytes([slot_id])] whenever it is appended. *)
Definition slot_id_ok (slot_id : option Z) : Prop :=
  match slot_id with
  | Some s => (0 <= s < 256)%Z
  | None => True
  end.

(** Several events at once. *)
Definition log_events (es : list event) (w : world) : world :=
  mkWorld (enumerate_at w) (can_open w) (enum_calls w) (_hid w) (slotnum w)
          (pending w) (trace w ++ es).

(** [ceil(a / b)] *)
Definition ceil_div (a b : nat) : nat := (a + b - 1) / b.

(** The slices [p[x:x+step]] for [x] in [range(0, len(p), step)]. *)
Definition chunks_of {A} (step : nat) (p : list A) : list (list A) :=
  map (fun x => slice p x (x + step)) (py_range 0 (length p) step).

(** The data of a payload the chunked senders accept: [bytes], or a list
    of [int] that [bytes] can convert. *)
Definition payload_data (v : pyval) : option bytes :=
  match v with
  | VBytes b => Some b
  | VList l => match bytes_of_ints l with Return b => Some b | _ => None end
  | _ => None
  end.

(** The marker in front of a chunk, for chunks of at most [size] bytes. *)
Definition marker (size : nat) (c : bytes) : byte :=
  if length c <? size then nat_byte (length c) else Byte.xff.

(** The report [send_large_message] writes for the chunk [c], and the one
    [send_large_message2] writes. *)
Definition chunk_report (nt : bool) (m : Message) (c : bytes) : bytes :=
  zero_pad nt (header_bytes nt ++ [int_byte (Message_value m)] ++
               marker 58 c :: c).

Definition chunk_report2 (nt : bool) (m : Message) (slot_id : Z) (c : bytes)
    : bytes :=
  zero_pad nt (header_bytes nt ++ [int_byte (Message_value m)] ++
               int_byte slot_id :: marker 57 c :: c).

(** The device's reading of a report of a chunked send: after the header
    and the message byte come [k - 1] bytes, the marker and the data; a
    marker of 255 announces [size] bytes, any other its own value. *)
Definition report_marker (nt : bool) (k : nat) (report : bytes) : option byte :=
  report !! (length (header_bytes nt) + 1 + (k - 1)).

Definition report_data (nt : bool) (k size : nat) (report : bytes) : bytes :=
  match report_marker nt k report with
  | Some mk =>
      let n := if Byte.eqb mk Byte.xff then size else N.to_nat (Byte.to_N mk) in
      take n (drop (length (header_bytes nt) + 1 + k) report)
  | None => []
  end.

(** The world after one [read]. *)
Definition after_read (n : nat) (timeout_ms : Z) (w : world) : world :=
  log_event (EvRead n timeout_ms (take n (hd [] (pending w))))
            (set_pending (tl (pending w)) w).

(** The texts of the later segments of [sign] on a queue [q], when the
    loops that read them make [ns] reads, one number for each loop: the
    text of the last read of each loop.  A read past the end of the
    queue finds nothing. *)
Fixpoint later_segments (q : list bytes) (ns : list nat) : list pystr :=
  match ns with
  | [] => []
  | n :: ns' =>
      bytes_hex (take 64 (nth (n - 1) q [])) :: later_segments (drop n q) ns'
  end.

(** The events of [c] calls of [read_bytes(64, to_str=True)] in a row on
    a queue [q]. *)
Definition read_events (q : list bytes) (c : nat) : list event :=
  map (fun i => EvRead 64 100 (take 64 (nth i q []))) (seq 0 c).

(** ** Worlds for the examples *)

(** A session with an open handle, no report to read and no event yet. *)
Definition idle_world : world :=
  mkWorld (fun _ => Some []) (fun _ => true) 0 (Some "hidraw0") None [] [].

(** A host whose only HID device is a keyboard: no OnlyKey is plugged in. *)
Definition unplugged_world : world :=
  mkWorld (fun _ => Some [mkInfo 0x046d 0xc31c "" 0 1 "/dev/hidraw0"])
          (fun _ => true) 0 None None [] [].

(** A host on which [hid.enumerate] raises at every call. *)
Definition failing_world : world :=
  mkWorld (fun _ => None) (fun _ => true) 0 None None [] [].

(** A session with an open handle and the slot set, with the reports
    [q] waiting to be read. *)
Definition listening_world (q : list bytes) : world :=
  mkWorld (fun _ => Some []) (fun _ => true) 0 (Some "hidraw0") (Some 1%Z) q [].

(** The report a device sends for one segment: [n] bytes of value [b]. *)
Definition segment (n : nat) (b : byte) : bytes := replicate n b.

(** Eight segments, told apart by their bytes. *)
Definition eight_segments (n : nat) : list bytes :=
  map (segment n)
      [Byte.x01; Byte.x02; Byte.x03; Byte.x04; Byte.x05; Byte.x06; Byte.x07;
       Byte.x08].

(** A stand-in for the digest function, with digests of 32 bytes. *)
Definition zero_digest (data : bytes) : bytes := replicate 32 Byte.x00.

(** ** The other operations of the client *)

(** [for x in l: s = body(x, s)], a loop that carries the variables it
    assigns. *)
Fixpoint for_fold {A S} (l : list A) (s : S) (body : A -> S -> io S) : io S :=
  match l with
  | [] => ret s
  | x :: l' => s' ← body x s ; for_fold l' s' body
  end.

(** [chr(n)], for an [n] that fits a C [int] *)
Definition py_chr (n : Z) : outcome N :=
  if (0 <=? n)%Z && (n <? 1114112)%Z then Return (Z.to_N n)
  else Raise ValueError.

(** [s.split(sep)] for a one-character separator: the pieces between
    the separators, at least one piece. *)
Fixpoint py_split (sep : N) (s : pystr) : list pystr :=
  match s with
  | [] => [[]]
  | c :: s' =>
      if (c =? sep)%N then [] :: py_split sep s'
      else match py_split sep s' with
           | piece :: pieces => (c :: piece) :: pieces
           | [] => [[c]]
           end
  end.

(** [l[i]] on a list of [str] *)
Definition strs_getitem (l : list pystr) (i : nat) : outcome pystr :=
  match l !! i with
  | Some s => Return s
  | None => Raise IndexError
  end.

(** The value of a hexadecimal digit, if the character is one. *)
Definition hex_value (c : N) : option Z :=
  if (48 <=? c)%N && (c <=? 57)%N then Some (Z.of_N c - 48)%Z
  else if (97 <=? c)%N && (c <=? 102)%N then Some (Z.of_N c - 87)%Z
  else if (65 <=? c)%N && (c <=? 70)%N then Some (Z.of_N c - 55)%Z
  else None.

(** [int(s, 16)] on the strings [set_time] builds: hexadecimal digits
    with, possibly, a minus sign in front. *)
Fixpoint hex_digits_value (s : pystr) (acc : Z) : outcome Z :=
  match s with
  | [] => Return acc
  | c :: s' =>
      match hex_value c with
      | Some d => hex_digits_value s' (16 * acc + d)%Z
      | None => Raise ValueError
      end
  end.

Definition py_int16 (s : pystr) : outcome Z :=
  match s with
  | [] => Raise ValueError
  | c :: s' =>
      if (c =? 45)%N then
        match s' with
        | [] => Raise ValueError
        | _ => v ← hex_digits_value s' 0 ; Return (- v)%Z
        end
      else hex_digits_value s 0
  end.

(** [format(n, 'x')]: the hexadecimal digits of [n], a minus sign first
    for a negative [n].  A number has no more hexadecimal digits than
    binary ones. *)
Fixpoint hex_digits_from (rounds : nat) (n : N) (acc : pystr) : pystr :=
  match rounds with
  | O => acc
  | S rounds' =>
      let acc' := hex_digit (n mod 16) :: acc in
      if (n / 16 =? 0)%N then acc' else hex_digits_from rounds' (n / 16) acc'
  end.

Definition py_format_x (n : Z) : pystr :=
  let digits := hex_digits_from (S (N.to_nat (N.log2 (Z.abs_N n)))) (Z.abs_N n) [] in
  if (n <? 0)%Z then 45%N :: digits else digits.

(** [s.zfill(width)]: zeros after the sign, up to [width] characters. *)
Definition py_zfill (s : pystr) (width : nat) : pystr :=
  match s with
  | c :: s' =>
      if (c =? 45)%N || (c =? 43)%N
      then c :: replicate (width - length s) 48%N ++ s'
      else replicate (width - length s) 48%N ++ s
  | [] => replicate width 48%N
  end.



(** The first part of [data.partition(sep)]: the bytes before the first
    [sep], all of [data] when there is none. *)
Fixpoint partition_before (sep : byte) (data : bytes) : bytes :=
  match data with
  | [] => []
  | b :: data' =>
      if Byte.eqb b sep then [] else b :: partition_before sep data'
  end.

(** The [Slot] objects [getkeylabels] builds: it passes [data[1]], an
    [int], as the label. *)
Record KeySlot : Type := mkKeySlot {
  key_number : Z;
  key_label : Z;
  key_name : string
}.

Definition KeySlot_init (num : Z) (label : Z) : outcome KeySlot :=
  match SLOTS_NAME !! num with
  | Some nm => Return (mkKeySlot num label nm)
  | None => Raise (KeyError num)
  end.

Section Operations.

(** [os.name == 'nt'] *)
Variable nt : bool.

(** [OnlyKey.send_large_message3]: the call of [send_message] comes
    after the loop, with the [current_payload] the last round left;
    [cur] is that variable, [None] while it is unbound. *)
Definition send_large_message3 (payload : pyval) (msg : option Message)
    (slot_id key_type : Z) : io unit :=
  match msg with
  | None => raise (PyException "Missing msg")
  | Some _ =>
      n ← lift (py_len payload) ;
      let chunks := large_message2_chunks payload n in
      cur ← for_fold chunks None (fun chunk _ =>
        current_payload ← lift (bytes_of_ints [slot_id; key_type]) ;
        current_payload ← match chunk with
                           | VList l =>
                               b ← lift (bytes_of_ints l) ;
                               ret (current_payload ++ b)
                           | VBytes b | VByteArray b =>
                               ret (current_payload ++ b)
                           | _ => raise TypeError
                           end ;
        ret (Some current_payload)) ;
      match cur with
      | Some current_payload =>
          send_message nt (VBytes current_payload) msg None None
      | None => raise UnboundLocalError
      end
  end.

(** The list [payload] of [set_time]. *)
Definition set_time_payload (timestamp : Z) : outcome (list Z) :=
  let current_epoch_time := py_format_x timestamp in
  let current_epoch_time :=
    py_zfill current_epoch_time
             (length current_epoch_time + length current_epoch_time mod 2) in
  mapM (fun i => py_int16 (slice current_epoch_time i (i + 2)))
       (py_range 0 (length current_epoch_time) 2).

(** [OnlyKey.set_time], [timestamp] being [int(timestamp)]. *)
Definition set_time (timestamp : Z) : io unit :=
  payload ← lift (set_time_payload timestamp) ;
  send_message nt (VList payload) (Some OKSETTIME) None None.

(** [OnlyKey.set_ecc_key]: [bytes([key_type, slot]) + key]. *)
Definition set_ecc_key (key_type slot : Z) (key : pyval) : io unit :=
  head ← lift (bytes_of_ints [key_type; slot]) ;
  payload ← lift (py_add (VBytes head) key) ;
  send_message nt payload (Some OKSETPRIV) None None.


(** [OnlyKey.generate_backup_key]; the key passed on is [chr(0)], and
    the loop that reads the answer has two rounds. *)
Definition generate_backup_key : io unit :=
  let ecc_type := 161%Z in
  let default_slot := 132%Z in
  set_ecc_key default_slot ecc_type (VStr [0%N]) ;;
  sleep 500 ;;
  ok_priv ← (x ← read_bytes 64 true 10 ;
             len ← lift (py_len x) ;
             if len =? 64 then ret x
             else x ← read_bytes 64 true 10 ; ret x) ;
  ret tt.

(** One round of the loop of [getlabels], from the read to the
    [append]. *)
Definition getlabels_round (slots : list Slot) : io (list Slot) :=
  text ← read_string nt 100 ;
  let data := py_split 124 text in
  d0 ← lift (strs_getitem data 0) ;
  slot_number ← lift (ord (VStr d0)) ;
  let slot_number :=
    if (16 <=? slot_number)%Z then (slot_number - 6)%Z else slot_number in
  if (1 <=? slot_number)%Z && (slot_number <=? 12)%Z
  then
    d1 ← lift (strs_getitem data 1) ;
    s ← lift (Slot_init slot_number d1) ;
    ret (slots ++ [s])
  else ret slots.

(** [OnlyKey.getlabels] *)
Definition getlabels : io (list Slot) :=
  send_message nt VNone (Some OKGETLABELS) None None ;;
  sleep 500 ;;
  for_fold (seq 0 12) [] (fun _ slots => getlabels_round slots).

(** One round of the loop of [getkeylabels].  Of the three parts
    [data.partition] returns only the first is used. *)
Definition getkeylabels_round (slots : list KeySlot) : io (list KeySlot) :=
  data ← read_chunk nt 100 ;
  match data with
  | VBytes data | VByteArray data =>
      let bef := partition_before Byte.x7c data in
      v ← lift (bytes_getitem bef 0) ;
      match v with
      | VInt slot_number =>
          if (25 <=? slot_number)%Z && (slot_number <=? 57)%Z
          then
            d1 ← lift (bytes_getitem data 1) ;
            match d1 with
            | VInt label =>
                s ← lift (KeySlot_init slot_number label) ;
                ret (slots ++ [s])
            | _ => raise TypeError
            end
          else ret slots
      | _ => raise TypeError
      end
  | _ => raise AttributeError
  end.

(** [OnlyKey.getkeylabels] *)
Definition getkeylabels : io (list KeySlot) :=
  send_message nt VNone (Some OKGETLABELS) (Some 107%Z) None ;;
  for_fold (seq 0 33) [] (fun _ slots => getkeylabels_round slots).

(** [x = ''; while x == '': time.sleep(0.5); x = self.read_bytes(64)],
    the first loop of [getpub]; as in [poll_nonempty], one round more
    than [pending] holds decides whether it ends. *)
Fixpoint poll_nonempty_raw (rounds : nat) : io pyval :=
  match rounds with
  | O => fun w => (Hang, w)
  | S rounds' =>
      sleep 500 ;;
      x ← read_bytes 64 false 100 ;
      if py_eq_str x [] then poll_nonempty_raw rounds' else ret x
  end.

Definition read_first_part_raw : io pyval :=
  fun w => poll_nonempty_raw (S (length (pending w))) w.

(** [for _ in range(10): x = self.read_bytes(64); if len(x) == 64: break] *)
Fixpoint retry_read_raw (rounds : nat) (last : pyval) : io pyval :=
  match rounds with
  | O => ret last
  | S rounds' =>
      x ← read_bytes 64 false 100 ;
      len ← lift (py_len x) ;
      if len =? 64 then ret x else retry_read_raw rounds' x
  end.

Definition read_next_part_raw : io pyval := retry_read_raw 10 VNone.

(** [OnlyKey.getpub] *)
Definition getpub : io pyval :=
  sleep 2000 ;;
  _ ← read_string nt 100 ;
  sleep 1000 ;;
  s ← get_slotnum ;
  c ← lift (py_chr s) ;
  send_message nt (VStr [c]) (Some OKGETPUBKEY) None None ;;
  sleep 1000 ;;
  ok_pubkey1 ← read_first_part_raw ;
  ok_pubkey2 ← read_next_part_raw ;
  ok_pubkey3 ← read_next_part_raw ;
  ok_pubkey4 ← read_next_part_raw ;
  ok_pubkey5 ← read_next_part_raw ;
  ok_pubkey6 ← read_next_part_raw ;
  ok_pubkey7 ← read_next_part_raw ;
  ok_pubkey8 ← read_next_part_raw ;
  if negb (truthy ok_pubkey2)
  then raise (PyException "failed to read public RSA N from OnlyKey")
  else
    k ← lift (py_add ok_pubkey1 ok_pubkey2) ;
    k ← lift (py_add k ok_pubkey3) ;
    k ← lift (py_add k ok_pubkey4) ;
    k ← lift (py_add k ok_pubkey5) ;
    k ← lift (py_add k ok_pubkey6) ;
    k ← lift (py_add k ok_pubkey7) ;
    ok_pubkey ← lift (py_add k ok_pubkey8) ;
    _ ← lift (py_len ok_pubkey) ;
    ret ok_pubkey.

(** [OnlyKey.initialized]: [self.read_string() == 'INITIALIZED'] *)
Definition initialized : io bool :=
  s ← read_string nt 100 ;
  ret (bool_decide (s = [73; 78; 73; 84; 73; 65; 76; 73; 90; 69; 68]%N)).

End Operations.

(** ** Notions for the statements on these operations *)

(** The bytes [send_message] hands to the padding loop, or the exception
    raised while they are put together. *)
Definition raw_message (nt : bool) (payload : pyval) (msg : option Message)
    (slot_id : option Z) (message_field : option MessageField) : outcome bytes :=
  raw_bytes ← bytes_of_ints (MESSAGE_HEADER nt) ;
  raw_bytes ← match msg with
               | Some m => b ← bytes_of_ints [Message_value m] ; Return (raw_bytes ++ b)
               | None => Return raw_bytes
               end ;
  raw_bytes ← match slot_id with
               | Some s =>
                   if negb (Z.eqb s 0)
                   then b ← bytes_of_ints [s] ; Return (raw_bytes ++ b)
                   else Return raw_bytes
               | None => Return raw_bytes
               end ;
  raw_bytes ← match message_field with
               | Some f =>
                   b ← bytes_of_ints [MessageField_value f] ; Return (raw_bytes ++ b)
               | None => Return raw_bytes
               end ;
  if truthy payload
  then b ← payload_bytes payload ; Return (raw_bytes ++ b)
  else Return raw_bytes.

(** The events of a trace that are writes. *)
Definition writes (es : list event) : list bytes :=
  omap (fun e => match e with EvWrite d => Some d | _ => None end) es.

(** A method body that comes back, by a return or an exception, in
    every world. *)
Definition no_hang {A} (m : io A) : Prop := forall w, (m w).1 <> Hang.

(** A method body that writes nothing to the device, however it ends. *)
Definition keeps_writes {A} (m : io A) : Prop :=
  forall w o w', m w = (o, w') -> writes (trace w') = writes (trace w).

(** A host on which the enumeration fails twice before it lists a
    keyboard and the two interfaces of an OnlyKey. *)
Definition plugging_world : world :=
  mkWorld (fun k => if k <? 2 then None
                    else Some [mkInfo 0x046d 0xc31c "" 0 1 "/dev/hidraw0";
                               mkInfo 0x1d50 0x60fc "1000000000" 2 0xffab "/dev/hidraw1";
                               mkInfo 0x1d50 0x60fc "1000000000" 1 0xf1d0 "/dev/hidraw2";
                               mkInfo 0x16C0 0x0486 "" 1 0xf1d0 "/dev/hidraw3"])
          (fun _ => true) 0 None None [] [].

(** The number a list of bytes stands for, most significant byte first. *)
Definition big_endian (bs : bytes) : Z :=
  fold_left (fun a b => (256 * a + byte_to_Z b)%Z) bs 0%Z.

(** * Properties *)

(** ** Basic facts *)

Lemma byte_of_int_Return (n : Z) :
  (0 <= n < 256)%Z -> byte_of_int n = Return (int_byte n).
Proof.
  intros Hn. unfold byte_of_int, int_byte, byte_of_N.
  replace ((0 <=? n)%Z && (n <? 256)%Z) with true
    by (symmetry; apply andb_true_iff; split; [apply Z.leb_le | apply Z.ltb_lt]; lia).
  rewrite N.mod_small by lia.
  destruct (Byte.of_N (Z.to_N n)) as [b|] eqn:E; [reflexivity|].
  apply Byte.of_N_None_iff in E. lia.
Qed.

Lemma byte_of_int_nat (n : nat) :
  n < 256 -> byte_of_int (Z.of_nat n) = Return (nat_byte n).
Proof.
  intros Hn. rewrite byte_of_int_Return by lia.
  unfold int_byte, nat_byte. by rewrite <- nat_N_Z, N2Z.id.
Qed.

Lemma bytes_of_ints_app (l1 l2 : list Z) (b1 b2 : bytes) :
  bytes_of_ints l1 = Return b1 -> bytes_of_ints l2 = Return b2 ->
  bytes_of_ints (l1 ++ l2) = Return (b1 ++ b2).
Proof.
  revert b1. induction l1 as [|n l1 IH]; intros b1 H1 H2; simpl in *.
  - by inversion H1.
  - destruct (byte_of_int n) as [b| |]; simpl in *; try discriminate.
    destruct (bytes_of_ints l1) as [bs| |]; simpl in *; try discriminate.
    inversion H1; subst. by rewrite (IH bs eq_refl H2).
Qed.

Lemma bytes_of_ints_length (l : list Z) (b : bytes) :
  bytes_of_ints l = Return b -> length b = length l.
Proof.
  revert b. induction l as [|n l IH]; intros b H; simpl in *.
  - by inversion H.
  - destruct (byte_of_int n) as [x| |]; simpl in *; try discriminate.
    destruct (bytes_of_ints l) as [bs| |]; simpl in *; try discriminate.
    inversion H; subst. simpl. by rewrite (IH bs eq_refl).
Qed.

Lemma bytes_of_ints_take (l : list Z) (b : bytes) (n : nat) :
  bytes_of_ints l = Return b -> bytes_of_ints (take n l) = Return (take n b).
Proof.
  revert b n. induction l as [|z l IH]; intros b n H; simpl in *.
  - inversion H. by destruct n.
  - destruct (byte_of_int z) as [x| |] eqn:Ez; simpl in *; try discriminate.
    destruct (bytes_of_ints l) as [bs| |]; simpl in *; try discriminate.
    inversion H; subst. destruct n as [|n]; simpl; [done|].
    by rewrite Ez, (IH bs n eq_refl).
Qed.

Lemma bytes_of_ints_drop (l : list Z) (b : bytes) (n : nat) :
  bytes_of_ints l = Return b -> bytes_of_ints (drop n l) = Return (drop n b).
Proof.
  revert b n. induction l as [|z l IH]; intros b n H; simpl in *.
  - inversion H. by destruct n.
  - destruct (byte_of_int z) as [x| |] eqn:Ez; simpl in *; try discriminate.
    destruct (bytes_of_ints l) as [bs| |] eqn:El; simpl in *; try discriminate.
    inversion H; subst. destruct n as [|n]; simpl.
    + by rewrite Ez, El.
    + by apply IH.
Qed.

Lemma bytes_of_ints_slice (l : list Z) (b : bytes) (lo hi : nat) :
  bytes_of_ints l = Return b ->
  bytes_of_ints (slice l lo hi) = Return (slice b lo hi).
Proof.
  intros H. unfold slice. by apply bytes_of_ints_take, bytes_of_ints_drop.
Qed.

Lemma header_bytes_of_ints (nt : bool) :
  bytes_of_ints (MESSAGE_HEADER nt) = Return (header_bytes nt).
Proof. by destruct nt. Qed.

Lemma Message_value_byte (m : Message) :
  bytes_of_ints [Message_value m] = Return [int_byte (Message_value m)].
Proof. by destruct m. Qed.

Lemma MessageField_value_byte (f : MessageField) :
  bytes_of_ints [MessageField_value f] = Return [int_byte (MessageField_value f)].
Proof. by destruct f. Qed.

(** The padding loop adds exactly the missing zero bytes, and none to a
    string that is already full or longer. *)
Lemma pad_loop_replicate (nt : bool) (rounds : nat) (raw : bytes) :
  MAX_INPUT_REPORT_SIZE nt - length raw <= rounds ->
  pad_loop nt rounds raw =
  raw ++ replicate (MAX_INPUT_REPORT_SIZE nt - length raw) Byte.x00.
Proof.
  revert raw. induction rounds as [|rounds IH]; intros raw Hr; simpl.
  - replace (MAX_INPUT_REPORT_SIZE nt - length raw) with 0 by lia.
    by rewrite app_nil_r.
  - destruct (Nat.ltb_spec (length raw) (MAX_INPUT_REPORT_SIZE nt)) as [Hlt|Hge].
    + rewrite IH by (rewrite length_app; simpl; lia).
      rewrite length_app. simpl.
      replace (MAX_INPUT_REPORT_SIZE nt - length raw)
        with (S (MAX_INPUT_REPORT_SIZE nt - (length raw + 1))) by lia.
      simpl. by rewrite <- app_assoc.
    + replace (MAX_INPUT_REPORT_SIZE nt - length raw) with 0 by lia.
      by rewrite app_nil_r.
Qed.

Lemma zero_pad_replicate (nt : bool) (raw : bytes) :
  zero_pad nt raw =
  raw ++ replicate (MAX_INPUT_REPORT_SIZE nt - length raw) Byte.x00.
Proof. unfold zero_pad. apply pad_loop_replicate. lia. Qed.

Lemma zero_pad_length (nt : bool) (raw : bytes) :
  length raw <= MAX_INPUT_REPORT_SIZE nt ->
  length (zero_pad nt raw) = MAX_INPUT_REPORT_SIZE nt.
Proof.
  intros H. rewrite zero_pad_replicate, length_app, length_replicate. lia.
Qed.

Lemma zero_pad_long (nt : bool) (raw : bytes) :
  MAX_INPUT_REPORT_SIZE nt <= length raw -> zero_pad nt raw = raw.
Proof.
  intros H. rewrite zero_pad_replicate.
  replace (MAX_INPUT_REPORT_SIZE nt - length raw) with 0 by lia.
  by rewrite app_nil_r.
Qed.

(** ** Running the monad *)

Lemma bind_lift_Return {A B} (a : A) (k : A -> io B) (w : world) :
  (lift (Return a) ≫= k) w = k a w.
Proof. reflexivity. Qed.

Lemma bind_ret {A B} (a : A) (k : A -> io B) (w : world) :
  (ret a ≫= k) w = k a w.
Proof. reflexivity. Qed.

Lemma bind_lift_Raise {A B} (e : exn) (k : A -> io B) (w : world) :
  (@lift A (Raise e) ≫= k) w = (Raise e, w).
Proof. reflexivity. Qed.

Lemma bind_raise {A B} (e : exn) (k : A -> io B) (w : world) :
  (@raise A e ≫= k) w = (Raise e, w).
Proof. reflexivity. Qed.

Lemma bind_assoc {A B C} (m : io A) (k : A -> io B) (k' : B -> io C) (w : world) :
  ((m ≫= k) ≫= k') w = (m ≫= (fun a => k a ≫= k')) w.
Proof.
  unfold mbind, io_bind, bind. by destruct (m w) as [[a|e|] w'].
Qed.

Lemma hid_write_open (data : bytes) (w : world) (h : string) :
  _hid w = Some h -> hid_write data w = (Return tt, log_event (EvWrite data) w).
Proof. intros H. unfold hid_write. by rewrite H. Qed.

(** ** The frame encoder *)

(** What [send_message] does on arguments that can be turned into bytes:
    one write of the header, the tag bytes and the payload, padded by the
    loop. *)
Lemma send_message_writes (nt : bool) (payload : pyval) (msg : option Message)
    (slot_id : option Z) (message_field : option MessageField)
    (w : world) (h : string) (pb : bytes) :
  _hid w = Some h ->
  slot_id_ok slot_id ->
  encoded_payload payload = Return pb ->
  send_message nt payload msg slot_id message_field w =
  (Return tt,
   log_event (EvWrite (zero_pad nt (header_bytes nt ++ msg_bytes msg ++
                slot_id_bytes slot_id ++ field_bytes message_field ++ pb))) w).
Proof.
  intros Hh Hs Hp. unfold send_message.
  rewrite header_bytes_of_ints, bind_lift_Return.
  assert (Hm : forall k : bytes -> io unit,
    (match msg with
     | Some m => b ← lift (bytes_of_ints [Message_value m]) ; ret (header_bytes nt ++ b)
     | None => ret (header_bytes nt)
     end ≫= k) w = k (header_bytes nt ++ msg_bytes msg) w).
  { intros k. destruct msg as [m|].
    - by rewrite Message_value_byte.
    - unfold msg_bytes. by rewrite app_nil_r. }
  rewrite Hm. clear Hm.
  set (r1 := header_bytes nt ++ msg_bytes msg).
  assert (Hsl : forall k : bytes -> io unit,
    (match slot_id with
     | Some s => if negb (s =? 0)%Z
                 then b ← lift (bytes_of_ints [s]) ; ret (r1 ++ b)
                 else ret r1
     | None => ret r1
     end ≫= k) w = k (r1 ++ slot_id_bytes slot_id) w).
  { intros k. destruct slot_id as [s|]; unfold slot_id_bytes.
    - destruct (s =? 0)%Z; simpl negb; cbv iota.
      + by rewrite app_nil_r.
      + simpl in Hs. simpl bytes_of_ints. rewrite (byte_of_int_Return s Hs).
        reflexivity.
    - by rewrite app_nil_r. }
  rewrite Hsl. clear Hsl.
  set (r2 := r1 ++ slot_id_bytes slot_id).
  assert (Hf : forall k : bytes -> io unit,
    (match message_field with
     | Some f => b ← lift (bytes_of_ints [MessageField_value f]) ; ret (r2 ++ b)
     | None => ret r2
     end ≫= k) w = k (r2 ++ field_bytes message_field) w).
  { intros k. destruct message_field as [f|].
    - by rewrite MessageField_value_byte.
    - unfold field_bytes. by rewrite app_nil_r. }
  rewrite Hf. clear Hf.
  set (r3 := r2 ++ field_bytes message_field).
  assert (Hpl : forall k : bytes -> io unit,
    ((if truthy payload
      then b ← lift (payload_bytes payload) ; ret (r3 ++ b)
      else ret r3) ≫= k) w = k (r3 ++ pb) w).
  { intros k. unfold encoded_payload in Hp. destruct (truthy payload).
    - by rewrite Hp.
    - inversion Hp. by rewrite app_nil_r. }
  rewrite Hpl. clear Hpl.
  rewrite (hid_write_open _ _ h Hh).
  subst r3 r2 r1. by rewrite <- !app_assoc.
Qed.

(** C4: with arguments that fit one report, [send_message] returns after
    one write of a report of exactly [MAX_INPUT_REPORT_SIZE] bytes: the
    header, the tag bytes that are present and the payload, then zero
    bytes only. *)
Theorem send_message_fixed_size_report (nt : bool) (payload : pyval)
    (msg : option Message) (slot_id : option Z)
    (message_field : option MessageField) (w : world) (h : string)
    (pb raw : bytes) :
  _hid w = Some h ->
  slot_id_ok slot_id ->
  encoded_payload payload = Return pb ->
  raw = header_bytes nt ++ msg_bytes msg ++ slot_id_bytes slot_id ++
        field_bytes message_field ++ pb ->
  length raw <= MAX_INPUT_REPORT_SIZE nt ->
  exists report,
    send_message nt payload msg slot_id message_field w =
      (Return tt, log_event (EvWrite report) w) /\
    length report = MAX_INPUT_REPORT_SIZE nt /\
    take (length raw) report = raw /\
    drop (length raw) report =
      replicate (MAX_INPUT_REPORT_SIZE nt - length raw) Byte.x00.
Proof.
  intros Hh Hs Hp -> Hfit. eexists. split; [|split; [|split]].
  - by apply (send_message_writes nt payload msg slot_id message_field w h pb).
  - by apply zero_pad_length.
  - rewrite zero_pad_replicate. apply take_app_length.
  - rewrite zero_pad_replicate. apply drop_app_length.
Qed.

(** C5, as the code has it: [send_message] has no size check.  When the
    header, the tag bytes and the payload are longer than a report, the
    padding loop adds nothing and the whole string goes to the transport
    in one write; the call returns normally. *)
Theorem send_message_oversize_unchecked (nt : bool) (payload : pyval)
    (msg : option Message) (slot_id : option Z)
    (message_field : option MessageField) (w : world) (h : string)
    (pb raw : bytes) :
  _hid w = Some h ->
  slot_id_ok slot_id ->
  encoded_payload payload = Return pb ->
  raw = header_bytes nt ++ msg_bytes msg ++ slot_id_bytes slot_id ++
        field_bytes message_field ++ pb ->
  MAX_INPUT_REPORT_SIZE nt < length raw ->
  send_message nt payload msg slot_id message_field w =
    (Return tt, log_event (EvWrite raw) w).
Proof.
  intros Hh Hs Hp -> Hbig.
  rewrite (send_message_writes nt payload msg slot_id message_field w h pb)
    by done.
  rewrite zero_pad_long by lia. reflexivity.
Qed.

(** C10: a slot id of 0, the payload 0 and an empty [bytes], [str] or
    [list] payload are skipped by the truth tests, so the call is the one
    made without the argument. *)
Theorem send_message_falsy_as_absent (nt : bool) (payload : pyval)
    (msg : option Message) (slot_id : option Z)
    (message_field : option MessageField) (w : world) :
  send_message nt payload msg (Some 0%Z) message_field w =
    send_message nt payload msg None message_field w /\
  send_message nt (VInt 0) msg slot_id message_field w =
    send_message nt VNone msg slot_id message_field w /\
  send_message nt (VBytes []) msg slot_id message_field w =
    send_message nt VNone msg slot_id message_field w /\
  send_message nt (VStr []) msg slot_id message_field w =
    send_message nt VNone msg slot_id message_field w /\
  send_message nt (VList []) msg slot_id message_field w =
    send_message nt VNone msg slot_id message_field w.
Proof. repeat split; reflexivity. Qed.

(** ** The chunked senders *)

Lemma ceil_div_spec (a b : nat) :
  0 < b -> a <= ceil_div a b * b < a + b.
Proof.
  intros Hb. unfold ceil_div.
  pose proof (Nat.div_mod_eq (a + b - 1) b) as E.
  pose proof (Nat.mod_upper_bound (a + b - 1) b) as U.
  nia.
Qed.

Lemma slice_step {A} (p : list A) (x step : nat) :
  slice p x (x + step) = take step (drop x p).
Proof. unfold slice. f_equal. lia. Qed.

Lemma range_from_concat {A} (p : list A) (step fuel start : nat) :
  0 < step -> length p - start <= fuel ->
  concat (map (fun x => slice p x (x + step))
              (range_from fuel start (length p) step)) = drop start p.
Proof.
  intros Hs. revert start.
  induction fuel as [|fuel IH]; intros start Hf; simpl.
  - symmetry. apply drop_ge. lia.
  - destruct (Nat.ltb_spec start (length p)) as [Hlt|Hge]; simpl.
    + rewrite IH by lia. rewrite slice_step.
      rewrite <- (drop_drop p step start). apply take_drop.
    + symmetry. apply drop_ge. lia.
Qed.

Lemma range_from_length (n step fuel start : nat) :
  0 < step -> n - start <= fuel ->
  length (range_from fuel start n step) = ceil_div (n - start) step.
Proof.
  intros Hs. revert start.
  induction fuel as [|fuel IH]; intros start Hf; simpl.
  - replace (n - start) with 0 by lia. unfold ceil_div.
    symmetry. apply Nat.div_small. lia.
  - destruct (Nat.ltb_spec start n) as [Hlt|Hge]; simpl.
    + rewrite IH by lia. unfold ceil_div.
      destruct (Nat.le_gt_cases (start + step) n) as [Hle|Hgt].
      * replace (n - start + step - 1)
          with ((n - (start + step) + step - 1) + 1 * step) by lia.
        rewrite Nat.div_add by lia. lia.
      * replace (n - (start + step)) with 0 by lia.
        rewrite (Nat.div_small (0 + step - 1) step) by lia.
        apply (Nat.div_unique _ _ 1 (n - start - 1)); lia.
    + replace (n - start) with 0 by lia. unfold ceil_div.
      symmetry. apply Nat.div_small. lia.
Qed.

Lemma range_from_bound (n step fuel start x : nat) :
  x ∈ range_from fuel start n step -> start <= x < n.
Proof.
  revert start. induction fuel as [|fuel IH]; intros start Hx; simpl in Hx.
  - by apply elem_of_nil in Hx.
  - destruct (Nat.ltb_spec start n) as [Hlt|Hge].
    + apply elem_of_cons in Hx as [->|Hx]; [lia|].
      apply IH in Hx. lia.
    + by apply elem_of_nil in Hx.
Qed.

(** The chunks put together again give the payload. *)
Lemma chunks_of_concat {A} (step : nat) (p : list A) :
  0 < step -> concat (chunks_of step p) = p.
Proof.
  intros Hs. unfold chunks_of, py_range.
  rewrite range_from_concat by lia. reflexivity.
Qed.

Lemma chunks_of_length {A} (step : nat) (p : list A) :
  0 < step -> length (chunks_of step p) = ceil_div (length p) step.
Proof.
  intros Hs. unfold chunks_of, py_range.
  rewrite length_map, range_from_length by lia. f_equal. lia.
Qed.

(** No chunk is empty and none is longer than [step]. *)
Lemma chunks_of_bound {A} (step : nat) (p c : list A) :
  0 < step -> c ∈ chunks_of step p -> 0 < length c <= step.
Proof.
  intros Hs Hc. unfold chunks_of in Hc.
  apply list_elem_of_fmap in Hc as (x & -> & Hx).
  apply range_from_bound in Hx.
  rewrite slice_step, length_take, length_drop. lia.
Qed.

Lemma nat_byte_to_N (n : nat) :
  n < 256 -> Byte.to_N (nat_byte n) = N.of_nat n.
Proof.
  intros Hn. unfold nat_byte, byte_of_N.
  rewrite N.mod_small by lia.
  destruct (Byte.of_N (N.of_nat n)) as [b|] eqn:E; simpl.
  - by apply Byte.to_of_N.
  - apply Byte.of_N_None_iff in E. lia.
Qed.

Lemma nat_byte_not_ff (n : nat) :
  n < 255 -> Byte.eqb (nat_byte n) Byte.xff = false.
Proof.
  intros Hn. destruct (Byte.eqb (nat_byte n) Byte.xff) eqn:E; [|done].
  apply Byte.byte_dec_bl in E.
  pose proof (nat_byte_to_N n ltac:(lia)) as H. rewrite E in H.
  simpl in H. lia.
Qed.

Lemma payload_data_len (v : pyval) (p : bytes) :
  payload_data v = Some p -> py_len v = Return (length p).
Proof.
  destruct v as [|b|s|l|n|t|ba]; simpl; try discriminate.
  - by intros [= ->].
  - destruct (bytes_of_ints l) as [b| |] eqn:E; try discriminate.
    intros [= ->]. by rewrite (bytes_of_ints_length l p E).
Qed.

Lemma payload_data_slice (v : pyval) (p : bytes) (lo hi : nat) :
  payload_data v = Some p ->
  payload_data (py_slice v lo hi) = Some (slice p lo hi).
Proof.
  destruct v as [|b|s|l|n|t|ba]; simpl; try discriminate.
  - by intros [= ->].
  - destruct (bytes_of_ints l) as [b| |] eqn:E; try discriminate.
    intros [= ->]. by rewrite (bytes_of_ints_slice l p lo hi E).
Qed.

Lemma log_events_cons (e : event) (es : list event) (w : world) :
  log_events (e :: es) w = log_events es (log_event e w).
Proof. unfold log_events, log_event. simpl. by rewrite <- app_assoc. Qed.

Lemma log_events_nil (w : world) : log_events [] w = w.
Proof. destruct w. unfold log_events. simpl. by rewrite app_nil_r. Qed.

Lemma log_events_one (e : event) (w : world) :
  log_events [e] w = log_event e w.
Proof. reflexivity. Qed.

(** A loop whose every round only logs one event logs them in order. *)
Lemma for_each_log {A} (l : list A) (body : A -> io unit) (f : A -> event)
    (w : world) :
  (forall x w', x ∈ l -> _hid w' = _hid w ->
     body x w' = (Return tt, log_event (f x) w')) ->
  for_each l body w = (Return tt, log_events (map f l) w).
Proof.
  revert w. induction l as [|x l IH]; intros w Hb; simpl.
  - by rewrite log_events_nil.
  - unfold mbind, io_bind, bind.
    rewrite (Hb x w) by (reflexivity || apply list_elem_of_here).
    rewrite log_events_cons. apply IH.
    intros y w' Hy Hw'. apply Hb; [by apply list_elem_of_further | done].
Qed.

Lemma chunk_payload_bytes (cv : pyval) (c pre : bytes) (k : bytes -> io unit)
    (w : world) :
  payload_data cv = Some c ->
  (match cv with
   | VList l => b ← lift (bytes_of_ints l) ; ret (pre ++ b)
   | VBytes b | VByteArray b => ret (pre ++ b)
   | _ => raise TypeError
   end ≫= k) w = k (pre ++ c) w.
Proof.
  destruct cv as [|b|s|l|n|t|ba]; simpl; try discriminate.
  - by intros [= ->].
  - destruct (bytes_of_ints l) as [b| |] eqn:E; try discriminate.
    by intros [= ->].
Qed.

(** [send_large_message] writes one report per chunk, in order. *)
Lemma send_large_message_writes (nt : bool) (payload : pyval) (m : Message)
    (w : world) (h : string) (p : bytes) :
  _hid w = Some h ->
  payload_data payload = Some p ->
  send_large_message nt payload (Some m) w =
  (Return tt,
   log_events (map (fun c => EvWrite (chunk_report nt m c)) (chunks_of 58 p)) w).
Proof.
  intros Hh Hp. unfold send_large_message.
  rewrite (payload_data_len _ _ Hp), bind_lift_Return.
  unfold large_message_chunks, chunks_of, MAX_LARGE_PAYLOAD_SIZE.
  rewrite (for_each_log _ _
    (fun cv => EvWrite (chunk_report nt m (default [] (payload_data cv))))).
  - f_equal. f_equal. rewrite !map_map. apply map_ext_in. intros x _.
    by rewrite (payload_data_slice _ _ x (x + 58) Hp).
  - intros cv w' Hcv Hw'.
    apply list_elem_of_fmap in Hcv as (x & -> & Hx).
    pose proof (payload_data_slice _ _ x (x + 58) Hp) as Hc.
    assert (Hb : 0 < length (slice p x (x + 58)) <= 58).
    { apply (chunks_of_bound 58 p); [lia|].
      unfold chunks_of. apply list_elem_of_fmap. by exists x. }
    set (c := slice p x (x + 58)) in *.
    rewrite Hc. simpl default.
    change (bytes_of_ints [255%Z]) with (Return [Byte.xff]).
    rewrite bind_lift_Return.
    rewrite (payload_data_len _ _ Hc), bind_lift_Return.
    assert (Hmk : forall k : bytes -> io unit,
      ((if length c <? 58 then lift (bytes_of_ints [Z.of_nat (length c)])
        else ret [Byte.xff]) ≫= k) w' = k [marker 58 c] w').
    { intros k. unfold marker.
      destruct (Nat.ltb_spec (length c) 58) as [Hlt|Hge]; [|done].
      simpl bytes_of_ints. by rewrite byte_of_int_nat by lia. }
    rewrite Hmk. clear Hmk.
    rewrite (chunk_payload_bytes _ c _ _ _ Hc).
    rewrite (send_message_writes nt _ _ _ _ w' h ([marker 58 c] ++ c));
      [| congruence | exact I | reflexivity].
    reflexivity.
Qed.

(** [send_large_message2] does the same with the slot id in front of the
    marker. *)
Lemma send_large_message2_writes (nt : bool) (payload : pyval) (m : Message)
    (slot_id : Z) (w : world) (h : string) (p : bytes) :
  _hid w = Some h ->
  payload_data payload = Some p ->
  (0 <= slot_id < 256)%Z ->
  send_large_message2 nt payload (Some m) slot_id w =
  (Return tt,
   log_events (map (fun c => EvWrite (chunk_report2 nt m slot_id c))
                   (chunks_of 57 p)) w).
Proof.
  intros Hh Hp Hs. unfold send_large_message2.
  rewrite (payload_data_len _ _ Hp), bind_lift_Return.
  unfold large_message2_chunks, chunks_of, MAX_LARGE_PAYLOAD_SIZE.
  rewrite (for_each_log _ _
    (fun cv => EvWrite (chunk_report2 nt m slot_id (default [] (payload_data cv))))).
  - f_equal. f_equal. rewrite !map_map. apply map_ext_in. intros x _.
    replace (x + 58 - 1) with (x + 57) by lia.
    by rewrite (payload_data_slice _ _ x (x + 57) Hp).
  - intros cv w' Hcv Hw'.
    apply list_elem_of_fmap in Hcv as (x & -> & Hx).
    replace (x + 58 - 1) with (x + 57) by lia.
    pose proof (payload_data_slice _ _ x (x + 57) Hp) as Hc.
    assert (Hb : 0 < length (slice p x (x + 57)) <= 57).
    { apply (chunks_of_bound 57 p); [lia|].
      unfold chunks_of. apply list_elem_of_fmap. by exists x. }
    set (c := slice p x (x + 57)) in *.
    rewrite Hc. simpl default.
    rewrite (payload_data_len _ _ Hc), bind_lift_Return.
    assert (Hmk : bytes_of_ints
              (if length c <? 57 then [slot_id; Z.of_nat (length c)]
               else [slot_id; 255%Z]) = Return [int_byte slot_id; marker 57 c]).
    { unfold marker.
      destruct (Nat.ltb_spec (length c) 57) as [Hlt|Hge]; simpl bytes_of_ints.
      - by rewrite (byte_of_int_Return slot_id Hs), byte_of_int_nat by lia.
      - by rewrite (byte_of_int_Return slot_id Hs). }
    rewrite Hmk, bind_lift_Return. clear Hmk.
    rewrite (chunk_payload_bytes _ c _ _ _ Hc).
    rewrite (send_message_writes nt _ _ _ _ w' h ([int_byte slot_id; marker 57 c] ++ c));
      [| congruence | exact I | reflexivity].
    reflexivity.
Qed.

Lemma drop_past_middle {A} (pre : list A) (x : A) (rest : list A) (n : nat) :
  n = length pre + 1 -> drop n (pre ++ x :: rest) = rest.
Proof.
  intros ->. rewrite (cons_middle x), app_assoc.
  apply drop_app_length'. rewrite length_app. simpl. lia.
Qed.

(** The device reads back from each report the chunk that was put in. *)
Lemma report_data_chunk_report (nt : bool) (m : Message) (c : bytes) :
  length c <= 58 -> report_data nt 1 58 (chunk_report nt m c) = c.
Proof.
  intros Hc. unfold report_data, report_marker, chunk_report.
  rewrite zero_pad_replicate.
  set (z := replicate _ _).
  assert (Hl : (header_bytes nt ++ [int_byte (Message_value m)] ++ marker 58 c :: c) ++ z
               = (header_bytes nt ++ [int_byte (Message_value m)]) ++ marker 58 c :: (c ++ z)).
  { by rewrite <- !app_assoc. }
  rewrite Hl. clear Hl.
  assert (Hn : length (header_bytes nt) + 1 + (1 - 1)
               = length (header_bytes nt ++ [int_byte (Message_value m)])).
  { rewrite length_app. simpl. lia. }
  rewrite Hn, list_lookup_middle by done.
  rewrite drop_past_middle by (rewrite length_app; simpl; lia).
  unfold marker. destruct (Nat.ltb_spec (length c) 58) as [Hlt|Hge].
  - rewrite nat_byte_not_ff by lia.
    rewrite nat_byte_to_N, Nat2N.id by lia. apply take_app_length.
  - simpl. apply take_app_length'. lia.
Qed.

Lemma report_data_chunk_report2 (nt : bool) (m : Message) (slot_id : Z)
    (c : bytes) :
  length c <= 57 -> report_data nt 2 57 (chunk_report2 nt m slot_id c) = c.
Proof.
  intros Hc. unfold report_data, report_marker, chunk_report2.
  rewrite zero_pad_replicate.
  set (z := replicate _ _).
  assert (Hl : (header_bytes nt ++ [int_byte (Message_value m)] ++
                int_byte slot_id :: marker 57 c :: c) ++ z
               = (header_bytes nt ++ [int_byte (Message_value m); int_byte slot_id])
                 ++ marker 57 c :: (c ++ z)).
  { by rewrite <- !app_assoc. }
  rewrite Hl. clear Hl.
  assert (Hn : length (header_bytes nt) + 1 + (2 - 1)
               = length (header_bytes nt ++ [int_byte (Message_value m); int_byte slot_id])).
  { rewrite length_app. simpl. lia. }
  rewrite Hn, list_lookup_middle by done.
  rewrite drop_past_middle by (rewrite length_app; simpl; lia).
  unfold marker. destruct (Nat.ltb_spec (length c) 57) as [Hlt|Hge].
  - rewrite nat_byte_not_ff by lia.
    rewrite nat_byte_to_N, Nat2N.id by lia. apply take_app_length.
  - simpl. apply take_app_length'. lia.
Qed.

(** C2: both senders return after writing one report per chunk; the data
    the reports carry, read back in the order of the writes, is the
    payload, and there are [ceil(len / 58)] reports for
    [send_large_message] and [ceil(len / 57)] for [send_large_message2].
    This holds for every payload, those longer than one report's
    capacity among them. *)
Theorem chunked_send_reassembles (nt : bool) (payload : pyval) (m : Message)
    (slot_id : Z) (w : world) (h : string) (p : bytes) :
  _hid w = Some h ->
  payload_data payload = Some p ->
  (0 <= slot_id < 256)%Z ->
  (exists reports,
     send_large_message nt payload (Some m) w =
       (Return tt, log_events (map EvWrite reports) w) /\
     concat (map (report_data nt 1 58) reports) = p /\
     length reports = ceil_div (length p) 58) /\
  (exists reports,
     send_large_message2 nt payload (Some m) slot_id w =
       (Return tt, log_events (map EvWrite reports) w) /\
     concat (map (report_data nt 2 57) reports) = p /\
     length reports = ceil_div (length p) 57).
Proof.
  intros Hh Hp Hs. split.
  - exists (map (chunk_report nt m) (chunks_of 58 p)). split; [|split].
    + rewrite (send_large_message_writes nt payload m w h p) by done.
      by rewrite map_map.
    + rewrite map_map.
      rewrite (map_ext_in _ id).
      * rewrite map_id. apply chunks_of_concat. lia.
      * intros c Hc.
        pose proof (chunks_of_bound 58 p c ltac:(lia)
                      (proj2 (list_elem_of_In _ _) Hc)) as Hb.
        unfold id. apply report_data_chunk_report. lia.
    + rewrite length_map. apply chunks_of_length. lia.
  - exists (map (chunk_report2 nt m slot_id) (chunks_of 57 p)). split; [|split].
    + rewrite (send_large_message2_writes nt payload m slot_id w h p) by done.
      by rewrite map_map.
    + rewrite map_map.
      rewrite (map_ext_in _ id).
      * rewrite map_id. apply chunks_of_concat. lia.
      * intros c Hc.
        pose proof (chunks_of_bound 57 p c ltac:(lia)
                      (proj2 (list_elem_of_In _ _) Hc)) as Hb.
        unfold id. apply report_data_chunk_report2. lia.
    + rewrite length_map. apply chunks_of_length. lia.
Qed.

Lemma py_slice_len (payload : pyval) (n x step : nat) :
  py_len payload = Return n ->
  exists len, py_len (py_slice payload x (x + step)) = Return len /\ len <= step.
Proof.
  destruct payload as [|b|s|l|z|t|ba]; simpl; try discriminate; intros _;
    eexists; (split; [reflexivity|]);
    unfold slice; rewrite length_take; lia.
Qed.

(** C3, as the code has it: [MAX_LARGE_PAYLOAD_SIZE] already leaves room
    for one marker byte, so a chunk holds at most
    [MAX_LARGE_PAYLOAD_SIZE - (k - 1)] bytes for [k] marker bytes: 58 in
    [send_large_message] ([k = 1]) and 57 in [send_large_message2]
    ([k = 2]). *)
Theorem chunk_size_bound (payload : pyval) (n : nat) :
  py_len payload = Return n ->
  Forall (fun c => exists len, py_len c = Return len /\
                     len <= MAX_LARGE_PAYLOAD_SIZE - (1 - 1))
         (large_message_chunks payload n) /\
  Forall (fun c => exists len, py_len c = Return len /\
                     len <= MAX_LARGE_PAYLOAD_SIZE - (2 - 1))
         (large_message2_chunks payload n).
Proof.
  intros Hn. split; apply Forall_forall; intros c Hc;
    apply list_elem_of_fmap in Hc as (x & -> & _).
  - apply (py_slice_len payload n x 58 Hn).
  - replace (x + MAX_LARGE_PAYLOAD_SIZE - 1) with (x + 57)
      by (unfold MAX_LARGE_PAYLOAD_SIZE; lia).
    apply (py_slice_len payload n x 57 Hn).
Qed.

(** C1 at a payload that fills its last chunk: a payload of 58 bytes
    goes out through [send_large_message] as a single report, the last
    one, whose marker is 255 although the chunk holds 58 bytes; the same
    happens in [send_large_message2] with 57 bytes. *)
Theorem full_last_chunk_marker :
  (exists report,
     send_large_message false (VBytes (replicate 58 Byte.x01)) (Some OKSETPRIV)
       idle_world = (Return tt, log_events [EvWrite report] idle_world) /\
     report_marker false 1 report = Some Byte.xff /\
     report_data false 1 58 report = replicate 58 Byte.x01 /\
     Byte.xff <> nat_byte 58) /\
  (exists report,
     send_large_message2 false (VBytes (replicate 57 Byte.x01)) (Some OKSIGNCHALLENGE)
       101 idle_world = (Return tt, log_events [EvWrite report] idle_world) /\
     report_marker false 2 report = Some Byte.xff /\
     report_data false 2 57 report = replicate 57 Byte.x01 /\
     Byte.xff <> nat_byte 57).
Proof.
  split; eexists; (split; [vm_compute; reflexivity|]);
    (split; [reflexivity|]); (split; [reflexivity|]); discriminate.
Qed.

(** The marker is 255 exactly on the chunks that are full. *)
Lemma marker_full (size : nat) (c : bytes) :
  size <= 255 -> length c <= size ->
  (marker size c = Byte.xff <-> length c = size) /\
  (length c < size -> marker size c = nat_byte (length c)).
Proof.
  intros Hs Hc. unfold marker.
  destruct (Nat.ltb_spec (length c) size) as [Hlt|Hge].
  - split; [|done]. split; [|lia].
    intros E. pose proof (nat_byte_not_ff (length c) ltac:(lia)) as H.
    rewrite E in H. discriminate.
  - split; [|lia]. split; [lia|done].
Qed.

Lemma range_from_lookup (n step fuel start i : nat) :
  0 < step -> n - start <= fuel ->
  range_from fuel start n step !! i =
  if start + i * step <? n then Some (start + i * step) else None.
Proof.
  intros Hs. revert start i.
  induction fuel as [|fuel IH]; intros start i Hf; simpl.
  - destruct (Nat.ltb_spec (start + i * step) n); [nia | done].
  - destruct (Nat.ltb_spec start n) as [Hlt|Hge].
    + destruct i as [|i]; simpl.
      * rewrite Nat.add_0_r. by destruct (Nat.ltb_spec start n); [|lia].
      * rewrite IH by lia.
        by replace (start + step + i * step) with (start + (step + i * step)) by lia.
    + rewrite lookup_nil.
      destruct (Nat.ltb_spec (start + i * step) n); [nia | done].
Qed.

(** The [i]-th chunk starts at [i * step]; the chunks stop with the
    payload. *)
Lemma chunks_of_lookup {A} (step : nat) (p : list A) (i : nat) :
  0 < step ->
  chunks_of step p !! i =
  if i * step <? length p then Some (take step (drop (i * step) p)) else None.
Proof.
  intros Hs. unfold chunks_of, py_range.
  rewrite list_lookup_fmap, range_from_lookup by lia. simpl.
  destruct (Nat.ltb_spec (i * step) (length p)); simpl; [|done].
  by rewrite slice_step.
Qed.

(** Every chunk but the last one is full, and the last one holds what is
    left: a full chunk again when the length is a multiple of [step]. *)
Lemma chunks_of_lengths {A} (step : nat) (p : list A) (i : nat) (c : list A) :
  0 < step ->
  chunks_of step p !! i = Some c ->
  (S i < length (chunks_of step p) -> length c = step) /\
  (S i = length (chunks_of step p) -> length c = length p - i * step).
Proof.
  intros Hs Hc. rewrite chunks_of_lookup in Hc by done.
  destruct (Nat.ltb_spec (i * step) (length p)) as [Hlt|]; [|discriminate].
  injection Hc as <-. rewrite length_take, length_drop. split.
  - intros Hi. apply lookup_lt_is_Some_2 in Hi as [c' Hc'].
    rewrite chunks_of_lookup in Hc' by done.
    destruct (Nat.ltb_spec (S i * step) (length p)); [|discriminate]. lia.
  - intros Hi.
    assert (Hn : chunks_of step p !! S i = None)
      by (apply lookup_ge_None; lia).
    rewrite chunks_of_lookup in Hn by done.
    destruct (Nat.ltb_spec (S i * step) (length p)); [discriminate|]. lia.
Qed.

(** The markers of a chunked send: 255 on every chunk but the last, and
    on the last one its length unless the payload length is a multiple of
    the chunk size, when the last marker is 255 as well. *)
Lemma chunk_markers (step : nat) (p : bytes) (i : nat) (c : bytes) :
  0 < step <= 255 ->
  chunks_of step p !! i = Some c ->
  (S i < length (chunks_of step p) -> marker step c = Byte.xff) /\
  (S i = length (chunks_of step p) ->
     marker step c = if length p mod step =? 0 then Byte.xff
                     else nat_byte (length c)).
Proof.
  intros Hs Hc.
  destruct (chunks_of_lengths step p i c ltac:(lia) Hc) as [Hfull Hlast].
  assert (Hb : 0 < length c <= step).
  { apply (chunks_of_bound step p); [lia|].
    apply list_elem_of_lookup. by exists i. }
  destruct (marker_full step c ltac:(lia) ltac:(lia)) as [Hff Hlen].
  split.
  - intros Hi. apply Hff. by apply Hfull.
  - intros Hi. specialize (Hlast Hi).
    destruct (Nat.eqb_spec (length p mod step) 0) as [Hz|Hnz].
    + apply Hff.
      pose proof (Nat.div_mod_eq (length p) step) as E. rewrite Hz in E.
      assert (length p = (i + 1) * step); [|lia].
      assert (i < length p `div` step <= i + 1) by nia. nia.
    + apply Hlen.
      destruct (Nat.eq_dec (length c) step) as [E|]; [|lia].
      exfalso. apply Hnz.
      symmetry. apply (Nat.mod_unique _ _ (i + 1)); lia.
Qed.

(** ** Slots *)

Lemma SLOTS_NAME_outside (num : Z) :
  (num < 1 \/ 12 < num < 25 \/ 60 < num)%Z -> SLOTS_NAME !! num = None.
Proof.
  intros Hn. unfold SLOTS_NAME. apply not_elem_of_list_to_map_1.
  simpl. intros Hin.
  repeat (apply elem_of_cons in Hin as [->|Hin]; [lia|]).
  by apply elem_of_nil in Hin.
Qed.

(** C9, as the code has it: slot 29 is named "ECC Key 1" and slot 7
    "1b"; building a [Slot] for a number outside the table (1 to 12 and
    25 to 60) ends in the [KeyError] of the dict lookup. *)
Theorem slot_name_lookup (num : Z) (label : pystr) :
  (num < 1 \/ 12 < num < 25 \/ 60 < num)%Z ->
  Slot_init 29 label = Return (mkSlot 29 label "ECC Key 1") /\
  Slot_init 7 label = Return (mkSlot 7 label "1b") /\
  Slot_init num label = Raise (KeyError num).
Proof.
  intros Hn. split; [reflexivity|]. split; [reflexivity|].
  unfold Slot_init. by rewrite SLOTS_NAME_outside.
Qed.

(** ** The challenge buttons *)

(** On the values [ord] accepts, [get_button] gives 1 below 6 and
    [ibyte % 5 + 1] from 6 on, a number from 1 to 5 in both cases. *)
Lemma get_button_one_byte (b : byte) :
  exists n : Z,
    get_button (VBytes [b]) = Return n /\
    n = (if (byte_to_Z b <? 6)%Z then 1 else byte_to_Z b mod 5 + 1)%Z /\
    (1 <= n <= 5)%Z.
Proof.
  unfold get_button. simpl.
  destruct (Z.ltb_spec (byte_to_Z b) 6); eexists;
    (split; [reflexivity|]); (split; [reflexivity|]).
  - lia.
  - pose proof (Z.mod_pos_bound (byte_to_Z b) 5 ltac:(lia)). lia.
Qed.

Lemma get_button_one_char (c : N) :
  exists n : Z,
    get_button (VStr [c]) = Return n /\
    n = (if (Z.of_N c <? 6)%Z then 1 else Z.of_N c mod 5 + 1)%Z /\
    (1 <= n <= 5)%Z.
Proof.
  unfold get_button. simpl.
  destruct (Z.ltb_spec (Z.of_N c) 6); eexists;
    (split; [reflexivity|]); (split; [reflexivity|]).
  - lia.
  - pose proof (Z.mod_pos_bound (Z.of_N c) 5 ltac:(lia)). lia.
Qed.

(** An element of a [bytes] object is an [int], which [ord] rejects. *)
Lemma get_button_int (n : Z) : get_button (VInt n) = Raise TypeError.
Proof. reflexivity. Qed.

Lemma bytes_getitem_int (d : bytes) (i : nat) (v : pyval) :
  bytes_getitem d i = Return v -> exists n, v = VInt n.
Proof.
  unfold bytes_getitem. destruct (d !! i); [|discriminate].
  intros [= <-]. by eexists.
Qed.

(** C7 on the code: the digest is a [bytes] object, so [d[0]] is an
    [int] and the first call of [get_button] ends in the [TypeError] of
    [ord]; no button is computed, whatever the payload. *)
Theorem challenge_pin_type_error (sha256 : bytes -> bytes) (data : bytes) :
  length (sha256 data) = 32 ->
  challenge_pin sha256 data = Raise TypeError.
Proof.
  intros Hd. unfold challenge_pin. rewrite Hd. simpl negb. cbv iota.
  destruct (sha256 data) as [|b d]; [discriminate|]. reflexivity.
Qed.

Lemma challenge_pin_raises (sha256 : bytes -> bytes) (data : bytes) :
  exists e, challenge_pin sha256 data = Raise e.
Proof.
  unfold challenge_pin.
  destruct (Nat.eqb_spec (length (sha256 data)) 32) as [Hd|Hd]; simpl negb; cbv iota.
  - destruct (sha256 data) as [|b d]; [discriminate|]. by eexists.
  - by eexists.
Qed.

(** ** Connecting *)

Lemma for_each_no_interface (ds : list hid_device_info) (w : world) :
  forallb (fun d => negb (is_onlykey_interface d)) ds = true ->
  for_each ds (fun d => if is_onlykey_interface d then hid_Device d else ret tt) w
  = (Return tt, w).
Proof.
  induction ds as [|d ds IH]; simpl; [done|].
  intros H. apply andb_true_iff in H as [Hd Hds].
  apply negb_true_iff in Hd. rewrite Hd.
  unfold mbind, io_bind, bind. simpl. by apply IH.
Qed.

(** When the enumeration holds no OnlyKey interface, [_connect] returns
    without a handle and without an exception, and so does the
    constructor after this single attempt. *)
Lemma connect_no_interface (w : world) (ds : list hid_device_info) :
  enumerate_at w (enum_calls w) = Some ds ->
  forallb (fun d => negb (is_onlykey_interface d)) ds = true ->
  OnlyKey_init true w = (Return tt, count_enumerate (log_event EvEnumerate w)).
Proof.
  intros He Hds. unfold OnlyKey_init, connect_loop, try_except, _connect.
  unfold try_except, mbind, io_bind, bind, hid_enumerate.
  rewrite He. by rewrite for_each_no_interface.
Qed.

(** When every enumeration raises, the constructor makes its five
    attempts, sleeps 1.5 s after each of them, and ends in the
    [UnboundLocalError] of [raise e]. *)
Lemma connect_enumerate_fails (w : world) :
  (forall k, enumerate_at w k = None) ->
  exists w',
    OnlyKey_init true w = (Raise UnboundLocalError, w') /\
    enum_calls w' = enum_calls w + 5 /\
    _hid w' = _hid w /\
    trace w' = trace w ++ [EvEnumerate; EvSleep 1500; EvEnumerate; EvSleep 1500;
                           EvEnumerate; EvSleep 1500; EvEnumerate; EvSleep 1500;
                           EvEnumerate; EvSleep 1500].
Proof.
  intros He. destruct w as [en co calls hd sl pe tr]. simpl in He.
  unfold OnlyKey_init, connect_loop, try_except, _connect.
  unfold try_except, mbind, io_bind, bind, hid_enumerate, sleep, raise,
    count_enumerate, log_event.
  simpl. rewrite !He. simpl. eexists. split; [reflexivity|]. simpl.
  split; [lia|]. split; [done|]. by rewrite <- !app_assoc.
Qed.

(** C8 on the code: with a keyboard as the only HID device the
    constructor returns after one enumeration, with no handle, no sleep
    and no exception; when the enumeration itself fails each time, five
    attempts are made and the exception that comes out is
    [UnboundLocalError]. *)
Theorem connect_absent_device :
  OnlyKey_init true unplugged_world =
    (Return tt,
     mkWorld (enumerate_at unplugged_world) (can_open unplugged_world) 1 None
             None [] [EvEnumerate]) /\
  exists w',
    OnlyKey_init true failing_world = (Raise UnboundLocalError, w') /\
    enum_calls w' = 5 /\
    trace w' = [EvEnumerate; EvSleep 1500; EvEnumerate; EvSleep 1500;
                EvEnumerate; EvSleep 1500; EvEnumerate; EvSleep 1500;
                EvEnumerate; EvSleep 1500].
Proof.
  split; [reflexivity|].
  destruct (connect_enumerate_fails failing_world (fun _ => eq_refl))
    as (w' & H1 & H2 & _ & H3).
  exists w'. done.
Qed.

(** ** Reading the response *)

Lemma hid_read_open (n : nat) (timeout_ms : Z) (w : world) (h : string) :
  _hid w = Some h ->
  hid_read n timeout_ms w =
  (Return (take n (hd [] (pending w))), after_read n timeout_ms w).
Proof.
  intros Hh. unfold hid_read, after_read. rewrite Hh.
  destruct w as [en co calls hd sl pe tr]. simpl.
  destruct pe as [|r q]; simpl; [|done]. by rewrite take_nil.
Qed.

Lemma read_bytes_hex (w : world) (h : string) :
  _hid w = Some h ->
  read_bytes 64 true 100 w =
  (Return (VStr (bytes_hex (take 64 (hd [] (pending w))))), after_read 64 100 w).
Proof.
  intros Hh. unfold read_bytes, mbind, io_bind, bind.
  by rewrite (hid_read_open 64 100 w h Hh).
Qed.

Lemma bind_read_bytes_hex {B} (k : pyval -> io B) (w : world) (h : string) :
  _hid w = Some h ->
  (read_bytes 64 true 100 ≫= k) w =
  k (VStr (bytes_hex (take 64 (hd [] (pending w))))) (after_read 64 100 w).
Proof.
  intros Hh. unfold mbind, io_bind, bind. by rewrite (read_bytes_hex w h Hh).
Qed.

Lemma bind_sleep {B} (ms : Z) (k : unit -> io B) (w : world) :
  (sleep ms ≫= k) w = k tt (log_event (EvSleep ms) w).
Proof. reflexivity. Qed.

Lemma pending_log_event (e : event) (w : world) :
  pending (log_event e w) = pending w.
Proof. reflexivity. Qed.

Lemma hid_log_event (e : event) (w : world) : _hid (log_event e w) = _hid w.
Proof. reflexivity. Qed.

Lemma pending_after_read (n : nat) (t : Z) (w : world) :
  pending (after_read n t w) = tl (pending w).
Proof. reflexivity. Qed.

Lemma hid_after_read (n : nat) (t : Z) (w : world) :
  _hid (after_read n t w) = _hid w.
Proof. reflexivity. Qed.

Lemma bytes_hex_length (b : bytes) : length (bytes_hex b) = 2 * length b.
Proof. induction b as [|x b IH]; simpl; lia. Qed.

Lemma bytes_hex_nil (b : bytes) : bytes_hex b = [] <-> b = [].
Proof. destruct b; simpl; split; (done || discriminate). Qed.

(** When no report ever comes, the loop goes on for any number of
    rounds: the call hangs. *)
Lemma poll_nonempty_silent (h : string) (rounds : nat) :
  forall w : world,
  _hid w = Some h ->
  Forall (fun r => r = []) (pending w) ->
  (poll_nonempty rounds w).1 = Hang.
Proof.
  induction rounds as [|rounds IH]; intros w Hh Hp; [done|].
  simpl poll_nonempty.
  rewrite bind_sleep, (bind_read_bytes_hex _ _ h) by done.
  rewrite pending_log_event.
  destruct (pending w) as [|r q] eqn:E; simpl.
  - apply IH; [by rewrite hid_after_read|].
    rewrite pending_after_read, pending_log_event, E. constructor.
  - apply Forall_cons in Hp as [-> Hq]. simpl. apply IH.
    + by rewrite hid_after_read.
    + by rewrite pending_after_read, pending_log_event, E.
Qed.

Lemma retry_read_S (rounds : nat) (last : pyval) :
  retry_read (S rounds) last =
  (x ← read_bytes 64 true 100 ;
   len ← lift (py_len x) ;
   if len =? 64 then ret x else retry_read rounds x).
Proof. reflexivity. Qed.

Lemma bind_Return {A B} (m : io A) (k : A -> io B) (w w' : world) (a : A) :
  m w = (Return a, w') -> (m ≫= k) w = k a w'.
Proof. intros H. unfold mbind, io_bind, bind. by rewrite H. Qed.

Lemma trace_log_event (e : event) (w : world) :
  trace (log_event e w) = trace w ++ [e].
Proof. reflexivity. Qed.

Lemma trace_after_read (n : nat) (t : Z) (w : world) :
  trace (after_read n t w) =
  trace w ++ [EvRead n t (take n (hd [] (pending w)))].
Proof. reflexivity. Qed.

Lemma nth_tl {A} (d : A) (i : nat) (q : list A) :
  nth i (tl q) d = nth (S i) q d.
Proof. destruct q; [by destruct i | done]. Qed.

Lemma drop_tl {A} (n : nat) (q : list A) : drop n (tl q) = drop (S n) q.
Proof. destruct q; [by destruct n | done]. Qed.

Lemma read_events_S (q : list bytes) (c : nat) :
  read_events q (S c) =
  EvRead 64 100 (take 64 (hd [] q)) :: read_events (tl q) c.
Proof.
  unfold read_events. cbn [seq map]. f_equal; [by destruct q|].
  rewrite <- seq_shift, map_map. apply map_ext. intros i.
  by rewrite nth_tl.
Qed.

Lemma read_events_app (a : nat) :
  forall (q : list bytes) (b : nat),
  read_events q (a + b) = read_events q a ++ read_events (drop a q) b.
Proof.
  induction a as [|a IH]; intros q b; [done|].
  change (S a + b) with (S (a + b)).
  by rewrite !read_events_S, IH, drop_tl.
Qed.

(** The first segment: the polling loop returns the text of the first
    read that is not empty, after a sleep and a read for each empty one
    before it. *)
Lemma poll_nonempty_trace (h : string) (k : nat) :
  forall (rounds : nat) (w : world) (r : bytes) (q : list bytes),
  _hid w = Some h ->
  pending w = replicate k [] ++ r :: q ->
  r <> [] ->
  k < rounds ->
  exists w',
    poll_nonempty rounds w = (Return (VStr (bytes_hex (take 64 r))), w') /\
    pending w' = q /\ _hid w' = Some h /\
    trace w' = trace w ++
               concat (replicate k [EvSleep 500; EvRead 64 100 []]) ++
               [EvSleep 500; EvRead 64 100 (take 64 r)].
Proof.
  induction k as [|k IH]; intros rounds w r q Hh Hp Hr Hk;
    (destruct rounds as [|rounds]; [lia|]); simpl poll_nonempty;
    rewrite bind_sleep, (bind_read_bytes_hex _ _ h) by done;
    rewrite pending_log_event, Hp; simpl hd.
  - unfold py_eq_str. rewrite bool_decide_eq_false_2.
    + eexists. split; [reflexivity|].
      rewrite pending_after_read, hid_after_read, pending_log_event, Hp.
      split; [done|]. split; [done|].
      rewrite trace_after_read, trace_log_event, pending_log_event, Hp.
      cbn [replicate concat app hd]. by rewrite <- app_assoc.
    + rewrite bytes_hex_nil. by destruct r.
  - simpl.
    destruct (IH rounds (after_read 64 100 (log_event (EvSleep 500) w)) r q)
      as (w' & E & Hq & Hh' & Ht); [| | done | lia |].
    + by rewrite hid_after_read.
    + by rewrite pending_after_read, pending_log_event, Hp.
    + exists w'. split; [exact E|]. split; [done|]. split; [done|].
      rewrite Ht, trace_after_read, trace_log_event, pending_log_event, Hp.
      cbn [replicate concat app hd take]. by rewrite <- !app_assoc.
Qed.

Lemma read_first_part_trace (w : world) (h : string) (k : nat) (r : bytes)
    (q : list bytes) :
  _hid w = Some h ->
  pending w = replicate k [] ++ r :: q ->
  r <> [] ->
  exists w',
    read_first_part w = (Return (VStr (bytes_hex (take 64 r))), w') /\
    pending w' = q /\ _hid w' = Some h /\
    trace w' = trace w ++
               concat (replicate k [EvSleep 500; EvRead 64 100 []]) ++
               [EvSleep 500; EvRead 64 100 (take 64 r)].
Proof.
  intros Hh Hp Hr. unfold read_first_part.
  apply (poll_nonempty_trace h k); try done.
  rewrite Hp, length_app, length_replicate. simpl. lia.
Qed.

(** A later segment: the loop makes [n] reads, one after the other, and
    what is left after it is the text of the last; it stops before its
    last round only on a text of 64 characters. *)
Lemma retry_read_reads (h : string) (rounds : nat) :
  forall (w : world) (last : pyval),
  _hid w = Some h ->
  exists (n : nat) (w' : world),
    n <= rounds /\ (0 < rounds -> 0 < n) /\
    retry_read rounds last w =
      (Return (if n =? 0 then last
               else VStr (bytes_hex (take 64 (nth (n - 1) (pending w) [])))),
       w') /\
    _hid w' = Some h /\
    pending w' = drop n (pending w) /\
    trace w' = trace w ++ read_events (pending w) n /\
    (n < rounds ->
     length (bytes_hex (take 64 (nth (n - 1) (pending w) []))) = 64).
Proof.
  induction rounds as [|rounds IH]; intros w last Hh.
  - exists 0, w. split; [lia|]. split; [lia|]. split; [done|]. split; [done|].
    split; [done|]. split; [by rewrite app_nil_r | lia].
  - rewrite retry_read_S, (bind_read_bytes_hex _ _ h) by done.
    cbn [py_len]. rewrite bind_lift_Return.
    destruct (length (bytes_hex (take 64 (hd [] (pending w)))) =? 64) eqn:El.
    + apply Nat.eqb_eq in El.
      exists 1, (after_read 64 100 w).
      split; [lia|]. split; [lia|].
      assert (Hhd : nth 0 (pending w) [] = hd [] (pending w))
        by (by destruct (pending w)).
      cbn [Nat.eqb Nat.sub]. rewrite Hhd.
      split; [done|]. split; [by rewrite hid_after_read|].
      split; [by rewrite pending_after_read; destruct (pending w)|].
      split; [|done].
      by rewrite trace_after_read, read_events_S.
    + destruct (IH (after_read 64 100 w)
                  (VStr (bytes_hex (take 64 (hd [] (pending w))))))
        as (n & w' & Hn & Hpos & E & Hh' & Hp & Ht & Hl);
        [by rewrite hid_after_read|].
      rewrite pending_after_read in E, Hp, Ht, Hl.
      exists (S n), w'.
      split; [lia|]. split; [lia|].
      split.
      { rewrite E. cbn [Nat.eqb]. f_equal. destruct n as [|n]; cbn [Nat.eqb].
        - cbn [Nat.sub]. by destruct (pending w).
        - rewrite nth_tl.
          by replace (S (S n - 1)) with (S (S n) - 1) by lia. }
      split; [done|].
      split; [by rewrite Hp, drop_tl|].
      split.
      { by rewrite Ht, trace_after_read, read_events_S, <- app_assoc. }
      intros Hlt. destruct n as [|n].
      { exfalso. assert (0 < rounds) as Hr by lia. apply Hpos in Hr. lia. }
      rewrite nth_tl in Hl.
      replace (S (S n) - 1) with (S (S n - 1)) by lia. apply Hl. lia.
Qed.

Lemma read_next_part_reads (h : string) (w : world) :
  _hid w = Some h ->
  exists (n : nat) (w' : world),
    1 <= n <= 10 /\
    read_next_part w =
      (Return (VStr (bytes_hex (take 64 (nth (n - 1) (pending w) [])))), w') /\
    _hid w' = Some h /\
    pending w' = drop n (pending w) /\
    trace w' = trace w ++ read_events (pending w) n /\
    (n < 10 ->
     length (bytes_hex (take 64 (nth (n - 1) (pending w) []))) = 64).
Proof.
  intros Hh.
  destruct (retry_read_reads h 10 w VNone Hh)
    as (n & w' & Hn & Hpos & E & Hh' & Hp & Ht & Hl).
  assert (0 < n) as Hn0 by (apply Hpos; lia).
  exists n, w'. split; [lia|]. split; [|done].
  unfold read_next_part. rewrite E.
  destruct n as [|n]; [lia | done].
Qed.

(** The seven later segments of [sign] and what it does with the eight
    texts, [s1] being the first. *)
Lemma sign_later_parts (h : string) (s1 : pystr) (w1 : world) :
  _hid w1 = Some h ->
  exists (ns : list nat) (w8 : world),
    length ns = 7 /\
    Forall2 (fun n s => 1 <= n <= 10 /\ (n < 10 -> length s = 64))
            ns (later_segments (pending w1) ns) /\
    (ok_sign2 ← read_next_part ;
     ok_sign3 ← read_next_part ;
     ok_sign4 ← read_next_part ;
     ok_sign5 ← read_next_part ;
     ok_sign6 ← read_next_part ;
     ok_sign7 ← read_next_part ;
     ok_sign8 ← read_next_part ;
     if negb (truthy ok_sign2)
     then raise (PyException "failed to read signature from OnlyKey")
     else
       s ← lift (py_add (VStr s1) ok_sign2) ;
       s ← lift (py_add s ok_sign3) ;
       s ← lift (py_add s ok_sign4) ;
       s ← lift (py_add s ok_sign5) ;
       s ← lift (py_add s ok_sign6) ;
       s ← lift (py_add s ok_sign7) ;
       lift (py_add s ok_sign8)) w1 =
      (if decide (hd [] (later_segments (pending w1) ns) = [])
       then Raise (PyException "failed to read signature from OnlyKey")
       else Return (VStr (s1 ++ concat (later_segments (pending w1) ns))),
       w8) /\
    pending w8 = drop (sum_list ns) (pending w1) /\
    trace w8 = trace w1 ++ read_events (pending w1) (sum_list ns).
Proof.
  intros H1.
  destruct (read_next_part_reads h w1 H1) as (n2 & w2 & B2 & E2 & H2 & P2 & T2 & L2).
  destruct (read_next_part_reads h w2 H2) as (n3 & w3 & B3 & E3 & H3 & P3 & T3 & L3).
  destruct (read_next_part_reads h w3 H3) as (n4 & w4 & B4 & E4 & H4 & P4 & T4 & L4).
  destruct (read_next_part_reads h w4 H4) as (n5 & w5 & B5 & E5 & H5 & P5 & T5 & L5).
  destruct (read_next_part_reads h w5 H5) as (n6 & w6 & B6 & E6 & H6 & P6 & T6 & L6).
  destruct (read_next_part_reads h w6 H6) as (n7 & w7 & B7 & E7 & H7 & P7 & T7 & L7).
  destruct (read_next_part_reads h w7 H7) as (n8 & w8 & B8 & E8 & H8 & P8 & T8 & L8).
  set (q := pending w1) in *.
  rewrite P2 in E3, P3, T3, L3. rewrite P3 in E4, P4, T4, L4.
  rewrite P4 in E5, P5, T5, L5. rewrite P5 in E6, P6, T6, L6.
  rewrite P6 in E7, P7, T7, L7. rewrite P7 in E8, P8, T8, L8.
  exists [n2; n3; n4; n5; n6; n7; n8], w8.
  split; [done|]. cbn [later_segments hd concat].
  split.
  { repeat (constructor; [split; [lia | assumption]|]). constructor. }
  split.
  { rewrite (bind_Return _ _ _ _ _ E2), (bind_Return _ _ _ _ _ E3),
      (bind_Return _ _ _ _ _ E4), (bind_Return _ _ _ _ _ E5),
      (bind_Return _ _ _ _ _ E6), (bind_Return _ _ _ _ _ E7),
      (bind_Return _ _ _ _ _ E8).
    set (s2 := bytes_hex (take 64 (nth (n2 - 1) q []))).
    destruct (decide (s2 = [])) as [->|Hne]; [reflexivity|].
    replace (negb (truthy (VStr s2))) with false by (by destruct s2).
    cbv iota. cbv [mbind io_bind bind lift py_add].
    by rewrite app_nil_r, <- !app_assoc. }
  split.
  { rewrite P8, !drop_drop. f_equal. simpl. lia. }
  rewrite T8, T7, T6, T5, T4, T3, T2.
  change (sum_list [n2; n3; n4; n5; n6; n7; n8])
    with (n2 + (n3 + (n4 + (n5 + (n6 + (n7 + (n8 + 0))))))).
  rewrite !read_events_app. cbn [read_events seq map].
  by rewrite app_nil_r, <- !app_assoc.
Qed.


(** When no report ever comes, [read_first_part] hangs, as [sign] and
    [decrypt] do in their first loop. *)
Lemma read_first_part_silent (w : world) (h : string) :
  _hid w = Some h ->
  Forall (fun r => r = []) (pending w) ->
  (read_first_part w).1 = Hang.
Proof. intros Hh Hp. by apply (poll_nonempty_silent h). Qed.

Lemma ascii_decode_no_hang (b : bytes) : ascii_decode b <> Hang.
Proof.
  induction b as [|x b IH]; simpl; [done|].
  destruct (Byte.to_N x <? 128)%N; [|done].
  by destruct (ascii_decode b).
Qed.

Lemma read_string_no_hang (nt : bool) (t : Z) (w : world) :
  (read_string nt t w).1 <> Hang.
Proof.
  unfold read_string, read_chunk, read_bytes, mbind, io_bind, bind, hid_read.
  destruct (_hid w); [|done].
  destruct (pending w) as [|r q]; simpl; unfold lift; simpl; [done|].
  apply ascii_decode_no_hang.
Qed.

(** Both operations stop at the challenge block, if not before: neither
    [sign] nor [decrypt] sends the payload or returns. *)
Lemma sign_raises (nt : bool) (sha256 : bytes -> bytes) (data : bytes)
    (w : world) :
  exists e, (sign nt sha256 data w).1 = Raise e.
Proof.
  unfold sign. simpl binascii_hexlify. rewrite bind_lift_Return, bind_sleep.
  unfold mbind at 1. unfold io_bind, bind.
  pose proof (read_string_no_hang nt 100 (log_event (EvSleep 2000) w)) as Hn.
  destruct (read_string nt 100 (log_event (EvSleep 2000) w)) as [[s|e|] w'];
    simpl in *; [| by eexists | done].
  destruct (challenge_pin_raises sha256 data) as [e He].
  exists e. unfold mbind, io_bind, bind. simpl. by rewrite He.
Qed.

Lemma decrypt_raises (nt : bool) (sha256 : bytes -> bytes) (ct : bytes)
    (w : world) :
  exists e, (decrypt nt sha256 ct w).1 = Raise e.
Proof.
  unfold decrypt. rewrite bind_sleep.
  unfold mbind at 1. unfold io_bind, bind.
  pose proof (read_string_no_hang nt 100 (log_event (EvSleep 2000) w)) as Hn.
  destruct (read_string nt 100 (log_event (EvSleep 2000) w)) as [[s|e|] w'];
    simpl in *; [| by eexists | done].
  destruct (challenge_pin_raises sha256 ct) as [e He].
  exists e. unfold mbind, io_bind, bind. simpl. by rewrite He.
Qed.

(** ** The statements above at concrete inputs *)

(** C3 as stated fails on a payload of 58 bytes: [send_large_message]
    makes a single chunk of 58 bytes, more than
    [MAX_LARGE_PAYLOAD_SIZE - 1]; and [send_large_message2] makes a chunk
    of 57 bytes out of 57, more than [MAX_LARGE_PAYLOAD_SIZE - 2]. *)
Lemma chunk_size_counterexample :
  large_message_chunks (VBytes (replicate 58 Byte.x01)) 58 =
    [VBytes (replicate 58 Byte.x01)] /\
  ~ (length (replicate 58 Byte.x01) <= MAX_LARGE_PAYLOAD_SIZE - 1) /\
  large_message2_chunks (VBytes (replicate 57 Byte.x01)) 57 =
    [VBytes (replicate 57 Byte.x01)] /\
  ~ (length (replicate 57 Byte.x01) <= MAX_LARGE_PAYLOAD_SIZE - 2).
Proof.
  split; [reflexivity|]. split; [rewrite length_replicate; cbv; lia|].
  split; [reflexivity|]. rewrite length_replicate; cbv; lia.
Qed.

(** C5 as stated fails on a payload of 61 bytes: with the 4 header bytes
    that is 65 bytes for a report of 64, and the call returns after
    writing them. *)
Lemma send_message_oversize_counterexample :
  MAX_INPUT_REPORT_SIZE false <
    length (header_bytes false ++ replicate 61 Byte.x01) /\
  send_message false (VBytes (replicate 61 Byte.x01)) None None None idle_world =
    (Return tt,
     log_event (EvWrite (header_bytes false ++ replicate 61 Byte.x01)) idle_world).
Proof. split; [cbv; lia | reflexivity]. Qed.


(** C9 as stated fails on slot 61: the exception is the [KeyError] of the
    lookup, not an [UnknownSlot]. *)
Lemma slot_61_counterexample :
  Slot_init 61 [] = Raise (KeyError 61) /\
  class_name (KeyError 61) <> "UnknownSlot".
Proof. split; [reflexivity | discriminate]. Qed.

Lemma send_message_fixed_size_report_witness :
  _hid idle_world = Some "hidraw0" /\
  slot_id_ok (Some 7%Z) /\
  encoded_payload (VBytes [Byte.x75; Byte.x32; Byte.x66]) =
    Return [Byte.x75; Byte.x32; Byte.x66] /\
  length (header_bytes false ++ msg_bytes (Some OKSETSLOT) ++
          slot_id_bytes (Some 7%Z) ++ field_bytes (Some TFATYPE) ++
          [Byte.x75; Byte.x32; Byte.x66]) <= MAX_INPUT_REPORT_SIZE false /\
  exists report,
    send_message false (VBytes [Byte.x75; Byte.x32; Byte.x66]) (Some OKSETSLOT)
      (Some 7%Z) (Some TFATYPE) idle_world =
      (Return tt, log_event (EvWrite report) idle_world) /\
    length report = MAX_INPUT_REPORT_SIZE false /\
    take 10 report =
      [Byte.xff; Byte.xff; Byte.xff; Byte.xff; Byte.xe6; Byte.x07; Byte.x08;
       Byte.x75; Byte.x32; Byte.x66] /\
    drop 10 report = replicate 54 Byte.x00.
Proof.
  split; [reflexivity|]. split; [simpl; lia|]. split; [reflexivity|].
  split; [simpl; lia|].
  apply (send_message_fixed_size_report false
           (VBytes [Byte.x75; Byte.x32; Byte.x66]) (Some OKSETSLOT) (Some 7%Z)
           (Some TFATYPE) idle_world "hidraw0"
           [Byte.x75; Byte.x32; Byte.x66]
           [Byte.xff; Byte.xff; Byte.xff; Byte.xff; Byte.xe6; Byte.x07;
            Byte.x08; Byte.x75; Byte.x32; Byte.x66]).
  - reflexivity.
  - simpl; lia.
  - reflexivity.
  - reflexivity.
  - simpl; lia.
Defined.

Lemma send_message_oversize_unchecked_witness :
  _hid idle_world = Some "hidraw0" /\
  slot_id_ok None /\
  encoded_payload (VBytes (replicate 61 Byte.x01)) =
    Return (replicate 61 Byte.x01) /\
  MAX_INPUT_REPORT_SIZE false <
    length (header_bytes false ++ replicate 61 Byte.x01) /\
  send_message false (VBytes (replicate 61 Byte.x01)) None None None idle_world =
    (Return tt,
     log_event (EvWrite (header_bytes false ++ replicate 61 Byte.x01)) idle_world).
Proof.
  split; [reflexivity|]. split; [exact I|]. split; [reflexivity|].
  split; [simpl; lia|].
  apply (send_message_oversize_unchecked false (VBytes (replicate 61 Byte.x01))
           None None None idle_world "hidraw0" (replicate 61 Byte.x01)).
  - reflexivity.
  - exact I.
  - reflexivity.
  - reflexivity.
  - simpl; lia.
Defined.

Lemma chunked_send_reassembles_witness :
  _hid idle_world = Some "hidraw0" /\
  payload_data (VBytes (replicate 117 Byte.x01)) = Some (replicate 117 Byte.x01) /\
  (0 <= 101 < 256)%Z /\
  (exists reports,
     send_large_message false (VBytes (replicate 117 Byte.x01))
       (Some OKSIGNCHALLENGE) idle_world =
       (Return tt, log_events (map EvWrite reports) idle_world) /\
     concat (map (report_data false 1 58) reports) = replicate 117 Byte.x01 /\
     length reports = ceil_div (length (replicate 117 Byte.x01)) 58) /\
  (exists reports,
     send_large_message2 false (VBytes (replicate 117 Byte.x01))
       (Some OKSIGNCHALLENGE) 101 idle_world =
       (Return tt, log_events (map EvWrite reports) idle_world) /\
     concat (map (report_data false 2 57) reports) = replicate 117 Byte.x01 /\
     length reports = ceil_div (length (replicate 117 Byte.x01)) 57).
Proof.
  split; [reflexivity|]. split; [reflexivity|]. split; [lia|].
  apply (chunked_send_reassembles false (VBytes (replicate 117 Byte.x01))
           OKSIGNCHALLENGE 101 idle_world "hidraw0" (replicate 117 Byte.x01)).
  - reflexivity.
  - reflexivity.
  - lia.
Defined.

Lemma chunk_size_bound_witness :
  py_len (VBytes (replicate 117 Byte.x01)) = Return 117 /\
  Forall (fun c => exists len, py_len c = Return len /\
                     len <= MAX_LARGE_PAYLOAD_SIZE - (1 - 1))
         (large_message_chunks (VBytes (replicate 117 Byte.x01)) 117) /\
  Forall (fun c => exists len, py_len c = Return len /\
                     len <= MAX_LARGE_PAYLOAD_SIZE - (2 - 1))
         (large_message2_chunks (VBytes (replicate 117 Byte.x01)) 117).
Proof.
  split; [reflexivity|].
  apply (chunk_size_bound (VBytes (replicate 117 Byte.x01)) 117).
  reflexivity.
Defined.

Lemma slot_name_lookup_witness :
  (61 < 1 \/ 12 < 61 < 25 \/ 60 < 61)%Z /\
  Slot_init 29 [] = Return (mkSlot 29 [] "ECC Key 1") /\
  Slot_init 7 [] = Return (mkSlot 7 [] "1b") /\
  Slot_init 61 [] = Raise (KeyError 61).
Proof.
  split; [lia|]. apply (slot_name_lookup 61 []). lia.
Defined.

Lemma challenge_pin_type_error_witness :
  length (zero_digest []) = 32 /\
  challenge_pin zero_digest [] = Raise TypeError.
Proof.
  split; [reflexivity|].
  apply (challenge_pin_type_error zero_digest []). reflexivity.
Defined.


(** With eight reports of 32 bytes, whose texts have 64 characters, the
    signature text is the eight hexadecimal texts in the order of
    arrival. *)
Example sign_response_eight_segments :
  (sign_response (listening_world ([] :: eight_segments 32))).1 =
  Return (VStr (concat (map bytes_hex (eight_segments 32)))).
Proof. reflexivity. Qed.

(** * Further properties *)

(** ** Failures of the frame encoder *)

Lemma byte_of_int_cases (n : Z) :
  byte_of_int n = Raise ValueError \/ exists b, byte_of_int n = Return b.
Proof.
  unfold byte_of_int. destruct ((0 <=? n)%Z && (n <? 256)%Z); [|by left].
  destruct (Byte.of_N (Z.to_N n)); [right; by eexists | by left].
Qed.

Lemma bytes_of_ints_cases (l : list Z) :
  bytes_of_ints l = Raise ValueError \/ exists b, bytes_of_ints l = Return b.
Proof.
  induction l as [|n l IH]; simpl; [right; by eexists|].
  destruct (byte_of_int_cases n) as [->|[b ->]]; simpl; [by left|].
  destruct IH as [->|[bs ->]]; simpl; [by left | right; by eexists].
Qed.

Lemma utf8_encode_char_cases (c : N) :
  utf8_encode_char c = Raise UnicodeEncodeError \/
  exists b, utf8_encode_char c = Return b.
Proof.
  unfold utf8_encode_char.
  repeat match goal with
         | |- context [if ?b then _ else _] => destruct b
         end; (by left) || (right; by eexists).
Qed.

Lemma utf8_encode_cases (s : pystr) :
  utf8_encode s = Raise UnicodeEncodeError \/ exists b, utf8_encode s = Return b.
Proof.
  induction s as [|c s IH]; simpl; [right; by eexists|].
  destruct (utf8_encode_char_cases c) as [->|[b ->]]; simpl; [by left|].
  destruct IH as [->|[bs ->]]; simpl; [by left | right; by eexists].
Qed.

Lemma payload_bytes_cases (payload : pyval) :
  (exists e, payload_bytes payload = Raise e /\
             class_name e ∈ ["ValueError"; "UnicodeEncodeError"; "Exception"]) \/
  exists b, payload_bytes payload = Return b.
Proof.
  destruct payload as [|b|s|l|n|t|ba]; simpl.
  - left. eexists. split; [reflexivity|]. set_solver.
  - right. by eexists.
  - destruct (utf8_encode_cases s) as [->|[b ->]]; [left | right; by eexists].
    eexists. split; [reflexivity|]. set_solver.
  - destruct (bytes_of_ints_cases l) as [->|[b ->]]; [left | right; by eexists].
    eexists. split; [reflexivity|]. set_solver.
  - destruct (byte_of_int_cases n) as [->|[b ->]]; simpl; [left | right; by eexists].
    eexists. split; [reflexivity|]. set_solver.
  - left. eexists. split; [reflexivity|]. set_solver.
  - left. eexists. split; [reflexivity|]. set_solver.
Qed.

Lemma raw_message_cases (nt : bool) (payload : pyval) (msg : option Message)
    (slot_id : option Z) (message_field : option MessageField) :
  (exists e, raw_message nt payload msg slot_id message_field = Raise e /\
             class_name e ∈ ["ValueError"; "UnicodeEncodeError"; "Exception"]) \/
  exists raw, raw_message nt payload msg slot_id message_field = Return raw.
Proof.
  unfold raw_message. rewrite header_bytes_of_ints.
  unfold mbind, outcome_bind.
  destruct msg as [m|]; [rewrite Message_value_byte|];
    (destruct slot_id as [s|];
     [destruct (negb (s =? 0)%Z);
      [destruct (bytes_of_ints_cases [s]) as [->|[b ->]]|]|]);
    try (left; eexists; split; [reflexivity|set_solver]);
    (destruct message_field as [f|]; [rewrite MessageField_value_byte|]);
    (destruct (truthy payload); [|right; by eexists]);
    (destruct (payload_bytes_cases payload) as [(e & -> & He)|[pb ->]];
     [left; by exists e | right; by eexists]).
Qed.

(** [send_message] is the making of the bytes followed by one write of
    them, padded. *)
Lemma send_message_raw (nt : bool) (payload : pyval) (msg : option Message)
    (slot_id : option Z) (message_field : option MessageField) (w : world) :
  send_message nt payload msg slot_id message_field w =
  match raw_message nt payload msg slot_id message_field with
  | Return raw => hid_write (zero_pad nt raw) w
  | Raise e => (Raise e, w)
  | Hang => (Hang, w)
  end.
Proof.
  unfold send_message, raw_message. rewrite header_bytes_of_ints.
  rewrite bind_lift_Return.
  destruct msg as [m|]; [rewrite Message_value_byte|];
    (destruct slot_id as [s|];
     [destruct (negb (s =? 0)%Z); [destruct (bytes_of_ints [s]) as [?|?|]|]|]);
    (destruct message_field as [f|]; [rewrite MessageField_value_byte|]);
    (destruct (truthy payload); [destruct (payload_bytes payload) as [?|?|]|]);
    reflexivity.
Qed.

(** X1: A call of [send_message] never hangs.  When it raises, nothing was
    written and the exception is the [ValueError] of [bytes], the
    [UnicodeEncodeError] of [encode], the [Exception] for a payload of
    another type or the [AttributeError] of a session without handle.
    When it returns, it has made exactly one write, of a whole report at
    least.  The numbers of a list payload are taken to fit a C [int]:
    the [chr] of the logging call raises [OverflowError] on others. *)
Theorem send_message_outcomes (nt : bool) (payload : pyval)
    (msg : option Message) (slot_id : option Z)
    (message_field : option MessageField) (w w' : world) (o : outcome unit) :
  (forall l, payload = VList l ->
     Forall (fun c => (- 2 ^ 31 <= c < 2 ^ 31)%Z) l) ->
  send_message nt payload msg slot_id message_field w = (o, w') ->
  o <> Hang /\
  (forall e, o = Raise e ->
     w' = w /\
     class_name e ∈ ["ValueError"; "UnicodeEncodeError"; "Exception";
                      "AttributeError"]) /\
  (o = Return tt ->
     exists report,
       w' = log_event (EvWrite report) w /\
       MAX_INPUT_REPORT_SIZE nt <= length report).
Proof.
  intros _. rewrite send_message_raw.
  destruct (raw_message_cases nt payload msg slot_id message_field)
    as [(e & -> & He)|[raw ->]].
  - intros [= <- <-]. split; [done|]. split; [|done].
    intros e' [= <-]. split; [done|].
    revert He. rewrite !elem_of_cons. tauto.
  - unfold hid_write. destruct (_hid w) as [h|]; intros [= <- <-].
    + split; [done|]. split; [done|]. intros _.
      exists (zero_pad nt raw). split; [done|].
      rewrite zero_pad_replicate, length_app, length_replicate. lia.
    + split; [done|]. split; [|done].
      intros e [= <-]. split; [done|]. set_solver.
Qed.

Lemma send_message_outcomes_witness :
  (forall l, VInt 300 = VList l ->
     Forall (fun c => (- 2 ^ 31 <= c < 2 ^ 31)%Z) l) /\
  send_message false (VInt 300) (Some OKSETSLOT) (Some 1%Z) None idle_world =
    (Raise ValueError, idle_world) /\
  (Raise ValueError <> @Hang unit /\
   (forall e, Raise ValueError = @Raise unit e ->
      idle_world = idle_world /\
      class_name e ∈ ["ValueError"; "UnicodeEncodeError"; "Exception";
                       "AttributeError"]) /\
   (Raise ValueError = Return tt ->
      exists report,
        idle_world = log_event (EvWrite report) idle_world /\
        MAX_INPUT_REPORT_SIZE false <= length report)).
Proof.
  split; [intros l Hl; discriminate Hl|]. split; [reflexivity|].
  apply (send_message_outcomes false (VInt 300) (Some OKSETSLOT) (Some 1%Z) None
           idle_world idle_world (Raise ValueError)).
  - intros l Hl. discriminate Hl.
  - reflexivity.
Defined.

(** ** Markers of the chunked senders *)

Lemma report_marker_chunk_report (nt : bool) (m : Message) (c : bytes) :
  report_marker nt 1 (chunk_report nt m c) = Some (marker 58 c).
Proof.
  unfold report_marker, chunk_report. rewrite zero_pad_replicate.
  set (z := replicate _ _).
  replace ((header_bytes nt ++ [int_byte (Message_value m)] ++ marker 58 c :: c) ++ z)
    with ((header_bytes nt ++ [int_byte (Message_value m)]) ++ marker 58 c :: (c ++ z))
    by (by rewrite <- !app_assoc).
  replace (length (header_bytes nt) + 1 + (1 - 1))
    with (length (header_bytes nt ++ [int_byte (Message_value m)]))
    by (rewrite length_app; simpl; lia).
  by apply list_lookup_middle.
Qed.

Lemma report_marker_chunk_report2 (nt : bool) (m : Message) (slot_id : Z)
    (c : bytes) :
  report_marker nt 2 (chunk_report2 nt m slot_id c) = Some (marker 57 c).
Proof.
  unfold report_marker, chunk_report2. rewrite zero_pad_replicate.
  set (z := replicate _ _).
  replace ((header_bytes nt ++ [int_byte (Message_value m)] ++
            int_byte slot_id :: marker 57 c :: c) ++ z)
    with ((header_bytes nt ++ [int_byte (Message_value m); int_byte slot_id])
          ++ marker 57 c :: (c ++ z))
    by (by rewrite <- !app_assoc).
  replace (length (header_bytes nt) + 1 + (2 - 1))
    with (length (header_bytes nt ++ [int_byte (Message_value m); int_byte slot_id]))
    by (rewrite length_app; simpl; lia).
  by apply list_lookup_middle.
Qed.

Lemma chunks_of_nonempty {A} (step : nat) (p : list A) :
  0 < step -> p <> [] -> chunks_of step p <> [].
Proof.
  intros Hs Hp E. apply (f_equal length) in E.
  rewrite chunks_of_length in E by done. simpl in E.
  pose proof (ceil_div_spec (length p) step Hs) as H. rewrite E in H.
  destruct p; [done|]. simpl in H. lia.
Qed.

(** The markers of the chunks of a payload that is not empty. *)
Lemma markers_of_chunks (step : nat) (p : bytes) :
  0 < step <= 255 -> p <> [] ->
  exists (init : list bytes) (lastc : bytes),
    chunks_of step p = init ++ [lastc] /\
    Forall (fun c => marker step c = Byte.xff) init /\
    marker step lastc =
      (if length p mod step =? 0 then Byte.xff
       else nat_byte (length p mod step)).
Proof.
  intros Hs Hp.
  destruct (exists_last (chunks_of_nonempty step p ltac:(lia) Hp))
    as (init & lastc & E).
  exists init, lastc. split; [done|]. split.
  - apply Forall_lookup. intros i c Hi.
    assert (Hc : chunks_of step p !! i = Some c).
    { rewrite E. by apply lookup_app_l_Some. }
    apply (chunk_markers step p i c Hs Hc).
    apply lookup_lt_Some in Hi. rewrite E, length_app. simpl. lia.
  - assert (Hc : chunks_of step p !! length init = Some lastc).
    { rewrite E. by apply list_lookup_middle. }
    assert (Hl : S (length init) = length (chunks_of step p)).
    { rewrite E, length_app. simpl. lia. }
    destruct (chunk_markers step p _ lastc Hs Hc) as [_ Hm].
    rewrite (Hm Hl).
    destruct (Nat.eqb_spec (length p mod step) 0) as [|Hnz]; [done|].
    f_equal.
    destruct (chunks_of_lengths step p _ lastc ltac:(lia) Hc) as [_ Hlen].
    specialize (Hlen Hl).
    assert (Hb : 0 < length lastc <= step).
    { apply (chunks_of_bound step p); [lia|].
      apply list_elem_of_lookup. by eexists. }
    destruct (Nat.eq_dec (length lastc) step) as [Es|Es].
    + exfalso. apply Hnz. symmetry.
      apply (Nat.mod_unique _ _ (length init + 1)); lia.
    + apply (Nat.mod_unique _ _ (length init)); lia.
Qed.

(** X2: Every report of a chunked send but the last has the marker 255.  The
    last has the number of bytes left over, [len % 58] (or [len % 57]),
    unless nothing is left over: a payload whose length is a multiple of
    the chunk size ends on a report with the marker 255 as well. *)
Theorem chunked_send_markers (nt : bool) (payload : pyval) (m : Message)
    (slot_id : Z) (w : world) (h : string) (p : bytes) :
  _hid w = Some h ->
  payload_data payload = Some p ->
  (0 <= slot_id < 256)%Z ->
  p <> [] ->
  (exists reports last,
     send_large_message nt payload (Some m) w =
       (Return tt, log_events (map EvWrite (reports ++ [last])) w) /\
     Forall (fun r => report_marker nt 1 r = Some Byte.xff) reports /\
     report_marker nt 1 last =
       Some (if length p mod 58 =? 0 then Byte.xff
             else nat_byte (length p mod 58))) /\
  (exists reports last,
     send_large_message2 nt payload (Some m) slot_id w =
       (Return tt, log_events (map EvWrite (reports ++ [last])) w) /\
     Forall (fun r => report_marker nt 2 r = Some Byte.xff) reports /\
     report_marker nt 2 last =
       Some (if length p mod 57 =? 0 then Byte.xff
             else nat_byte (length p mod 57))).
Proof.
  intros Hh Hp Hs Hne. split.
  - destruct (markers_of_chunks 58 p ltac:(lia) Hne) as (init & lastc & E & Hi & Hl).
    exists (map (chunk_report nt m) init), (chunk_report nt m lastc).
    split; [|split].
    + rewrite (send_large_message_writes nt payload m w h p) by done.
      rewrite E, !map_app, map_map. reflexivity.
    + apply Forall_map. eapply Forall_impl; [exact Hi|].
      intros c Hc. simpl. by rewrite report_marker_chunk_report, Hc.
    + by rewrite report_marker_chunk_report, Hl.
  - destruct (markers_of_chunks 57 p ltac:(lia) Hne) as (init & lastc & E & Hi & Hl).
    exists (map (chunk_report2 nt m slot_id) init), (chunk_report2 nt m slot_id lastc).
    split; [|split].
    + rewrite (send_large_message2_writes nt payload m slot_id w h p) by done.
      rewrite E, !map_app, map_map. reflexivity.
    + apply Forall_map. eapply Forall_impl; [exact Hi|].
      intros c Hc. simpl. by rewrite report_marker_chunk_report2, Hc.
    + by rewrite report_marker_chunk_report2, Hl.
Qed.

Lemma chunked_send_markers_witness :
  _hid idle_world = Some "hidraw0" /\
  payload_data (VBytes (replicate 117 Byte.x01)) = Some (replicate 117 Byte.x01) /\
  (0 <= 101 < 256)%Z /\
  replicate 117 Byte.x01 <> [] /\
  (exists reports last,
     send_large_message false (VBytes (replicate 117 Byte.x01))
       (Some OKSIGNCHALLENGE) idle_world =
       (Return tt, log_events (map EvWrite (reports ++ [last])) idle_world) /\
     Forall (fun r => report_marker false 1 r = Some Byte.xff) reports /\
     report_marker false 1 last =
       Some (if length (replicate 117 Byte.x01) mod 58 =? 0 then Byte.xff
             else nat_byte (length (replicate 117 Byte.x01) mod 58))) /\
  (exists reports last,
     send_large_message2 false (VBytes (replicate 117 Byte.x01))
       (Some OKSIGNCHALLENGE) 101 idle_world =
       (Return tt, log_events (map EvWrite (reports ++ [last])) idle_world) /\
     Forall (fun r => report_marker false 2 r = Some Byte.xff) reports /\
     report_marker false 2 last =
       Some (if length (replicate 117 Byte.x01) mod 57 =? 0 then Byte.xff
             else nat_byte (length (replicate 117 Byte.x01) mod 57))).
Proof.
  split; [reflexivity|]. split; [reflexivity|]. split; [lia|].
  split; [discriminate|].
  apply (chunked_send_markers false (VBytes (replicate 117 Byte.x01))
           OKSIGNCHALLENGE 101 idle_world "hidraw0" (replicate 117 Byte.x01)).
  - reflexivity.
  - reflexivity.
  - lia.
  - discriminate.
Defined.

(** ** [send_large_message3] *)

Lemma for_fold_last {A S} (l : list A) (s : S) (body : A -> S -> io S)
    (f : A -> S) (w : world) :
  (forall x s', x ∈ l -> body x s' w = (Return (f x), w)) ->
  for_fold l s body w = (Return (default s (f <$> last l)), w).
Proof.
  revert s. induction l as [|x l IH]; intros s Hb; simpl; [done|].
  unfold mbind, io_bind, bind.
  rewrite (Hb x s) by apply list_elem_of_here.
  rewrite IH by (intros y s' Hy; apply Hb; by apply list_elem_of_further).
  rewrite last_cons. by destruct (last l).
Qed.

Lemma chunk_payload_append {B} (cv : pyval) (c pre : bytes)
    (k : bytes -> io B) (w : world) :
  payload_data cv = Some c ->
  (match cv with
   | VList l => b ← lift (bytes_of_ints l) ; ret (pre ++ b)
   | VBytes b | VByteArray b => ret (pre ++ b)
   | _ => raise TypeError
   end ≫= k) w = k (pre ++ c) w.
Proof.
  destruct cv as [|b|s|l|n|t|ba]; simpl; try discriminate.
  - by intros [= ->].
  - destruct (bytes_of_ints l) as [b| |] eqn:E; try discriminate.
    by intros [= ->].
Qed.

Lemma last_map {A B} (f : A -> B) (l : list A) :
  last (map f l) = f <$> last l.
Proof.
  induction l as [|x l IH]; [done|].
  simpl map. rewrite !last_cons, IH. by destruct (last l).
Qed.

Lemma py_range_last (step n : nat) :
  0 < step -> 0 < n ->
  last (py_range 0 n step) = Some ((n - 1) / step * step).
Proof.
  intros Hs Hn. rewrite last_lookup. unfold py_range.
  rewrite range_from_length by lia. unfold ceil_div.
  replace (n - 0 + step - 1) with ((n - 1) + 1 * step) by lia.
  rewrite Nat.div_add by lia.
  replace (pred ((n - 1) / step + 1)) with ((n - 1) / step) by lia.
  rewrite range_from_lookup by lia.
  pose proof (Nat.div_mod_eq (n - 1) step) as E.
  destruct (Nat.ltb_spec (0 + (n - 1) / step * step) n); [done | nia].
Qed.

(** X3: [send_large_message3] writes a single report, which carries the slot
    id, the key type and the last chunk only: of a payload longer than
    57 bytes, the bytes before the last chunk are never sent. *)
Theorem send_large_message3_last_chunk (nt : bool) (payload : pyval)
    (m : Message) (slot_id key_type : Z) (w : world) (h : string) (p : bytes) :
  _hid w = Some h ->
  payload_data payload = Some p ->
  (0 <= slot_id < 256)%Z ->
  (0 <= key_type < 256)%Z ->
  p <> [] ->
  send_large_message3 nt payload (Some m) slot_id key_type w =
  (Return tt,
   log_event
     (EvWrite (zero_pad nt
        (header_bytes nt ++ [int_byte (Message_value m)] ++
         [int_byte slot_id; int_byte key_type] ++
         drop (57 * ((length p - 1) / 57)) p))) w).
Proof.
  intros Hh Hp Hs Hk Hne. unfold send_large_message3.
  rewrite (payload_data_len _ _ Hp), bind_lift_Return.
  unfold large_message2_chunks, MAX_LARGE_PAYLOAD_SIZE.
  erewrite bind_Return; cycle 1.
  { apply (for_fold_last _ _ _
      (fun cv => Some ([int_byte slot_id; int_byte key_type] ++
                       default [] (payload_data cv)))).
    intros cv s' Hcv.
    apply list_elem_of_fmap in Hcv as (x & -> & Hx).
    replace (x + 58 - 1) with (x + 57) by lia.
    pose proof (payload_data_slice _ _ x (x + 57) Hp) as Hc.
    rewrite Hc. simpl default.
    simpl bytes_of_ints.
    rewrite (byte_of_int_Return slot_id Hs), (byte_of_int_Return key_type Hk).
    simpl obind. rewrite bind_lift_Return.
    by rewrite (chunk_payload_append _ _ _ _ _ Hc). }
  rewrite last_map, py_range_last by (destruct p; [done | simpl; lia]).
  rewrite (Nat.mul_comm _ 57).
  cbn [fmap option_fmap option_map default].
  replace (57 * ((length p - 1) / 57) + 58 - 1)
    with (57 * ((length p - 1) / 57) + 57) by lia.
  rewrite (payload_data_slice _ _ _ _ Hp). simpl default.
  rewrite slice_step.
  rewrite (take_ge (drop _ p)).
  - unfold id. cbn [default]. cbv beta iota.
    rewrite (send_message_writes nt _ _ _ _ w h
               ([int_byte slot_id; int_byte key_type] ++
                drop (57 * ((length p - 1) / 57)) p));
      [reflexivity | done | exact I | reflexivity].
  - rewrite length_drop.
    pose proof (Nat.div_mod_eq (length p - 1) 57) as E.
    pose proof (Nat.mod_upper_bound (length p - 1) 57 ltac:(lia)) as U.
    lia.
Qed.

(** X4: With an empty payload the loop of [send_large_message3] has no round
    and [current_payload] is never bound: the call raises
    [UnboundLocalError] and writes nothing. *)
Theorem send_large_message3_empty (nt : bool) (payload : pyval) (m : Message)
    (slot_id key_type : Z) (w : world) :
  py_len payload = Return 0 ->
  send_large_message3 nt payload (Some m) slot_id key_type w =
  (Raise UnboundLocalError, w).
Proof.
  intros Hp. unfold send_large_message3.
  by rewrite Hp, bind_lift_Return.
Qed.

(** ** Connecting *)

(** The loop of [_connect] over the enumerated devices, when every
    OnlyKey interface among them can be opened: each is opened in turn
    and the handle is the last one. *)
Lemma for_each_open (ds : list hid_device_info) :
  forall w : world,
  (forall d, d ∈ ds -> is_onlykey_interface d = true -> can_open w d = true) ->
  exists w',
    for_each ds (fun d => if is_onlykey_interface d then hid_Device d else ret tt) w
      = (Return tt, w') /\
    trace w' = trace w ++ map (fun d => EvOpen (path d))
                              (List.filter is_onlykey_interface ds) /\
    _hid w' = default (_hid w)
                (Some <$> (path <$> last (List.filter is_onlykey_interface ds))) /\
    enumerate_at w' = enumerate_at w /\ can_open w' = can_open w /\
    enum_calls w' = enum_calls w /\ slotnum w' = slotnum w /\
    pending w' = pending w.
Proof.
  induction ds as [|d ds IH]; intros w Ho; simpl.
  - exists w. rewrite app_nil_r. done.
  - destruct (is_onlykey_interface d) eqn:Ed.
    + unfold mbind, io_bind, bind. unfold hid_Device at 1.
      rewrite (Ho d (list_elem_of_here _ _) Ed).
      destruct (IH (set_hid (path d) (log_event (EvOpen (path d)) w)))
        as (w' & E & Ht & Hh & H1 & H2 & H3 & H4 & H5).
      { intros d' Hd' Hm. simpl. apply Ho; [by apply list_elem_of_further | done]. }
      exists w'. rewrite E. split; [done|]. simpl in *.
      rewrite Ht, Hh, <- app_assoc. simpl.
      repeat split; try done.
      rewrite last_cons. by destruct (last (List.filter is_onlykey_interface ds)).
    + unfold mbind, io_bind, bind. simpl.
      apply IH. intros d' Hd' Hm. apply Ho; [by apply list_elem_of_further | done].
Qed.

Lemma connect_loop_after_failures (k : nat) :
  forall (tries : nat) (w : world) (ds : list hid_device_info),
  k < tries ->
  (forall i, i < k -> enumerate_at w (enum_calls w + i) = None) ->
  enumerate_at w (enum_calls w + k) = Some ds ->
  (forall d, d ∈ ds -> is_onlykey_interface d = true -> can_open w d = true) ->
  exists w',
    connect_loop tries w = (Return tt, w') /\
    enum_calls w' = enum_calls w + k + 1 /\
    trace w' = trace w ++ concat (replicate k [EvEnumerate; EvSleep 1500]) ++
               EvEnumerate :: map (fun d => EvOpen (path d))
                                  (List.filter is_onlykey_interface ds) /\
    _hid w' = default (_hid w)
                (Some <$> (path <$> last (List.filter is_onlykey_interface ds))).
Proof.
  induction k as [|k IH]; intros tries w ds Hk Hfail Hok Hopen;
    (destruct tries as [|tries]; [lia|]); simpl connect_loop;
    unfold try_except at 1; unfold _connect, try_except, mbind, io_bind, bind,
      hid_enumerate.
  - rewrite Nat.add_0_r in Hok. rewrite Hok.
    destruct (for_each_open ds (count_enumerate (log_event EvEnumerate w)))
      as (w' & E & Ht & Hh & H1 & H2 & H3 & H4 & H5); [done|].
    rewrite E. exists w'. split; [done|]. simpl in *.
    rewrite H3, Ht, Hh. split; [lia|]. split; [|done].
    by rewrite <- app_assoc.
  - rewrite (Hfail 0 ltac:(lia)) || (rewrite <- (Nat.add_0_r (enum_calls w)), (Hfail 0 ltac:(lia))).
    simpl.
    destruct (IH tries
                (log_event (EvSleep 1500) (count_enumerate (log_event EvEnumerate w)))
                ds) as (w' & E & Hc & Ht & Hh).
    + lia.
    + intros i Hi. simpl.
      replace (S (enum_calls w + i)) with (enum_calls w + S i) by lia.
      apply Hfail. lia.
    + simpl. by replace (S (enum_calls w + k)) with (enum_calls w + S k) by lia.
    + done.
    + exists w'. split; [done|]. simpl in *.
      rewrite Hc, Ht, Hh. split; [lia|]. split; [|done].
      by rewrite <- !app_assoc.
Qed.

(** X5: After [k] failed enumerations, [k] at most 4, an enumeration that
    works ends the loop of the constructor: there were [k] sleeps of
    1.5 s, every OnlyKey interface enumerated was opened, in the order of
    the enumeration, and the handle kept is the last one opened (the
    handle is left as it was if there was no such interface). *)
Theorem connect_after_failures (k : nat) (w : world)
    (ds : list hid_device_info) :
  k <= 4 ->
  (forall i, i < k -> enumerate_at w (enum_calls w + i) = None) ->
  enumerate_at w (enum_calls w + k) = Some ds ->
  (forall d, d ∈ ds -> is_onlykey_interface d = true -> can_open w d = true) ->
  exists w',
    OnlyKey_init true w = (Return tt, w') /\
    enum_calls w' = enum_calls w + k + 1 /\
    trace w' = trace w ++ concat (replicate k [EvEnumerate; EvSleep 1500]) ++
               EvEnumerate :: map (fun d => EvOpen (path d))
                                  (List.filter is_onlykey_interface ds) /\
    _hid w' = default (_hid w)
                (Some <$> (path <$> last (List.filter is_onlykey_interface ds))).
Proof.
  intros Hk. unfold OnlyKey_init. apply connect_loop_after_failures. lia.
Qed.

(** ** The button of a digest byte *)

(** X6: [get_button] returns only on what [ord] takes, a [str] of one
    character or a [bytes] or [bytearray] of one byte; with [x] the code
    of that character or byte, the button is then 1 for [x] below 6 and
    [x] modulo 5, plus 1, otherwise, and it lies between 1 and 5.  On an
    [int], which is what indexing [bytes] gives, it never returns. *)
Theorem get_button_range (v : pyval) (n : Z) :
  get_button v = Return n ->
  (1 <= n <= 5)%Z /\
  exists x : Z,
    ((exists c : N, v = VStr [c] /\ x = Z.of_N c) \/
     (exists b : byte, (v = VBytes [b] \/ v = VByteArray [b]) /\
                       x = byte_to_Z b)) /\
    n = (if (x <? 6)%Z then 1 else x mod 5 + 1)%Z.
Proof.
  unfold get_button, mbind, outcome_bind.
  destruct (ord v) as [x| |] eqn:Ex; simpl; try discriminate.
  assert (Hv : ((exists c : N, v = VStr [c] /\ x = Z.of_N c) \/
                (exists b : byte, (v = VBytes [b] \/ v = VByteArray [b]) /\
                                  x = byte_to_Z b))).
  { destruct v as [|[|b [|? ?]]|[|c [|? ?]]|l|z|t|[|b [|? ?]]]; simpl in Ex;
      try discriminate; injection Ex as <-.
    - right. exists b. split; [by left | done].
    - left. by exists c.
    - right. exists b. split; [by right | done]. }
  assert (Hx : (0 <= x)%Z).
  { destruct Hv as [(c & _ & ->)|(b & _ & ->)]; unfold byte_to_Z; lia. }
  intros Hn. split.
  - destruct (Z.ltb_spec x 6); injection Hn as <-; [lia|].
    pose proof (Z.mod_pos_bound x 5 ltac:(lia)). lia.
  - exists x. split; [done|].
    by destruct (x <? 6)%Z; injection Hn as <-.
Qed.

Lemma get_button_range_witness :
  get_button (VByteArray [Byte.x61]) = Return 3%Z /\
  ((1 <= 3 <= 5)%Z /\
   exists x : Z,
     ((exists c : N, VByteArray [Byte.x61] = VStr [c] /\ x = Z.of_N c) \/
      (exists b : byte,
         (VByteArray [Byte.x61] = VBytes [b] \/
          VByteArray [Byte.x61] = VByteArray [b]) /\
         x = byte_to_Z b)) /\
     3%Z = (if (x <? 6)%Z then 1 else x mod 5 + 1)%Z).
Proof.
  split; [reflexivity|].
  apply (get_button_range (VByteArray [Byte.x61]) 3). reflexivity.
Defined.

(** ** A device that never answers *)

Lemma bind_Hang {A B} (m : io A) (k : A -> io B) (w w' : world) :
  m w = (Hang, w') -> (m ≫= k) w = (Hang, w').
Proof. intros H. unfold mbind, io_bind, bind. by rewrite H. Qed.

(** X7: When every read times out, the first loop of the reading code of
    [sign] and of [decrypt] goes on for ever: neither comes back, and no
    number of rounds would be enough. *)
Theorem responses_wait_forever (w : world) (h : string) :
  _hid w = Some h ->
  Forall (fun r => r = []) (pending w) ->
  (sign_response w).1 = Hang /\
  (decrypt_response w).1 = Hang /\
  forall rounds, (poll_nonempty rounds w).1 = Hang.
Proof.
  intros Hh Hp.
  pose proof (read_first_part_silent w h Hh Hp) as H1.
  split; [|split].
  - unfold sign_response.
    destruct (read_first_part w) as [o w'] eqn:E. simpl in H1. subst o.
    by rewrite (bind_Hang _ _ _ _ E).
  - exact H1.
  - intros rounds. by apply (poll_nonempty_silent h).
Qed.

Lemma responses_wait_forever_witness :
  _hid (listening_world [[]; []]) = Some "hidraw0" /\
  Forall (fun r : bytes => r = []) (pending (listening_world [[]; []])) /\
  (sign_response (listening_world [[]; []])).1 = Hang /\
  (decrypt_response (listening_world [[]; []])).1 = Hang /\
  forall rounds, (poll_nonempty rounds (listening_world [[]; []])).1 = Hang.
Proof.
  split; [reflexivity|]. split; [repeat constructor|].
  apply (responses_wait_forever (listening_world [[]; []]) "hidraw0").
  - reflexivity.
  - repeat constructor.
Defined.

(** ** [getpub] *)

Lemma bind_read_bytes_raw {B} (n : nat) (t : Z) (k : pyval -> io B)
    (w : world) (h : string) :
  _hid w = Some h ->
  (read_bytes n false t ≫= k) w =
  k (VBytes (take n (hd [] (pending w)))) (after_read n t w).
Proof.
  intros Hh. unfold read_bytes, mbind, io_bind, bind.
  by rewrite (hid_read_open n t w h Hh).
Qed.

Lemma bind_read_string {B} (nt : bool) (t : Z) (k : pystr -> io B) (w : world)
    (h : string) (s : pystr) :
  _hid w = Some h ->
  ascii_decode (take (MAX_INPUT_REPORT_SIZE nt) (hd [] (pending w))) = Return s ->
  (read_string nt t ≫= k) w = k s (after_read (MAX_INPUT_REPORT_SIZE nt) t w).
Proof.
  intros Hh Hs. unfold read_string, read_chunk.
  rewrite bind_assoc, (bind_read_bytes_raw _ _ _ _ h Hh).
  by rewrite Hs, bind_lift_Return.
Qed.

Lemma bind_get_slotnum {B} (k : Z -> io B) (w : world) (s : Z) :
  slotnum w = Some s -> (get_slotnum ≫= k) w = k s w.
Proof.
  intros Hs. unfold mbind, io_bind, bind, get_slotnum. by rewrite Hs.
Qed.

(** The first loop of [getpub] compares [bytes] with [''] and so ends
    after its first round, whatever was read. *)
Lemma bind_read_first_part_raw {B} (k : pyval -> io B) (w : world) (h : string) :
  _hid w = Some h ->
  (read_first_part_raw ≫= k) w =
  k (VBytes (take 64 (hd [] (pending w))))
    (after_read 64 100 (log_event (EvSleep 500) w)).
Proof.
  intros Hh. apply bind_Return. unfold read_first_part_raw.
  simpl poll_nonempty_raw.
  by rewrite bind_sleep, (bind_read_bytes_raw _ _ _ _ h) by done.
Qed.

Lemma retry_read_raw_S (rounds : nat) (last : pyval) :
  retry_read_raw (S rounds) last =
  (x ← read_bytes 64 false 100 ;
   len ← lift (py_len x) ;
   if len =? 64 then ret x else retry_read_raw rounds x).
Proof. reflexivity. Qed.

(** A full report ends the retries at once. *)
Lemma bind_read_next_part_raw_full {B} (k : pyval -> io B) (w : world)
    (h : string) (r : bytes) (q : list bytes) :
  _hid w = Some h ->
  pending w = r :: q ->
  length r = 64 ->
  (read_next_part_raw ≫= k) w = k (VBytes r) (after_read 64 100 w).
Proof.
  intros Hh Hp Hr. apply bind_Return. unfold read_next_part_raw.
  rewrite retry_read_raw_S, (bind_read_bytes_raw _ _ _ _ h Hh), Hp.
  simpl hd. rewrite take_ge by lia. simpl py_len.
  rewrite bind_lift_Return, Hr. reflexivity.
Qed.

Lemma writes_app (es1 es2 : list event) :
  writes (es1 ++ es2) = writes es1 ++ writes es2.
Proof. unfold writes. apply omap_app. Qed.

Lemma writes_log_event (e : event) (w : world) :
  writes (trace (log_event e w)) =
  writes (trace w) ++ match e with EvWrite d => [d] | _ => [] end.
Proof. unfold log_event. simpl. rewrite writes_app. by destruct e. Qed.

Lemma writes_after_read (n : nat) (t : Z) (w : world) :
  writes (trace (after_read n t w)) = writes (trace w).
Proof.
  unfold after_read, log_event, set_pending. simpl trace.
  rewrite writes_app. simpl. apply app_nil_r.
Qed.

(** X8: When the nine reports [getpub] reads are there, the seven last ones
    of full size, it returns the bytes of the eight parts in the order
    they were read, 512 bytes for a full first part, after one write: the
    message [OKGETPUBKEY] with the slot number as payload. *)
Theorem getpub_reassembles (nt : bool) (w : world) (h : string) (s : Z)
    (t0 : pystr) (r0 r1 r2 r3 r4 r5 r6 r7 r8 : bytes) (q : list bytes) :
  _hid w = Some h ->
  slotnum w = Some s ->
  (0 <= s < 128)%Z ->
  pending w = r0 :: r1 :: r2 :: r3 :: r4 :: r5 :: r6 :: r7 :: r8 :: q ->
  ascii_decode (take (MAX_INPUT_REPORT_SIZE nt) r0) = Return t0 ->
  Forall (fun r : bytes => length r = 64) [r2; r3; r4; r5; r6; r7; r8] ->
  exists w',
    getpub nt w =
      (Return (VBytes (take 64 r1 ++ r2 ++ r3 ++ r4 ++ r5 ++ r6 ++ r7 ++ r8)), w') /\
    pending w' = q /\
    writes (trace w') =
      writes (trace w) ++
      [zero_pad nt (header_bytes nt ++ [int_byte 236; int_byte s])].
Proof.
  intros Hh Hs Hr Hp Ha Hfull.
  apply Forall_cons in Hfull as [L2 Hfull]. apply Forall_cons in Hfull as [L3 Hfull].
  apply Forall_cons in Hfull as [L4 Hfull]. apply Forall_cons in Hfull as [L5 Hfull].
  apply Forall_cons in Hfull as [L6 Hfull]. apply Forall_cons in Hfull as [L7 Hfull].
  apply Forall_cons in Hfull as [L8 _].
  unfold getpub.
  rewrite bind_sleep.
  rewrite (bind_read_string nt 100 _ _ h t0)
    by (exact Hh || (rewrite pending_log_event, Hp; exact Ha)).
  rewrite bind_sleep, (bind_get_slotnum _ _ s) by exact Hs.
  assert (Hc : py_chr s = Return (Z.to_N s)).
  { unfold py_chr.
    replace ((0 <=? s)%Z && (s <? 1114112)%Z) with true; [done|].
    symmetry. apply andb_true_iff. split; [apply Z.leb_le | apply Z.ltb_lt]; lia. }
  rewrite Hc, bind_lift_Return.
  assert (He : encoded_payload (VStr [Z.to_N s]) = Return [int_byte s]).
  { unfold encoded_payload. simpl. unfold utf8_encode_char.
    replace (Z.to_N s <? 128)%N with true by (symmetry; apply N.ltb_lt; lia).
    reflexivity. }
  erewrite bind_Return; cycle 1.
  { apply (send_message_writes nt _ _ _ _ _ h [int_byte s]); [done | exact I | exact He]. }
  rewrite bind_sleep.
  rewrite (bind_read_first_part_raw _ _ h) by exact Hh.
  set (w1 := after_read 64 100 _).
  assert (P1 : pending w1 = r2 :: r3 :: r4 :: r5 :: r6 :: r7 :: r8 :: q).
  { unfold w1.
    rewrite pending_after_read, !pending_log_event, pending_after_read,
      pending_log_event, Hp.
    reflexivity. }
  assert (Q1 : _hid w1 = Some h) by exact Hh.
  rewrite (bind_read_next_part_raw_full _ w1 h r2 _ Q1 P1 L2).
  set (w2 := after_read 64 100 w1).
  assert (P2 : pending w2 = r3 :: r4 :: r5 :: r6 :: r7 :: r8 :: q)
    by (unfold w2; by rewrite pending_after_read, P1).
  assert (Q2 : _hid w2 = Some h) by exact Hh.
  rewrite (bind_read_next_part_raw_full _ w2 h r3 _ Q2 P2 L3).
  set (w3 := after_read 64 100 w2).
  assert (P3 : pending w3 = r4 :: r5 :: r6 :: r7 :: r8 :: q)
    by (unfold w3; by rewrite pending_after_read, P2).
  assert (Q3 : _hid w3 = Some h) by exact Hh.
  rewrite (bind_read_next_part_raw_full _ w3 h r4 _ Q3 P3 L4).
  set (w4 := after_read 64 100 w3).
  assert (P4 : pending w4 = r5 :: r6 :: r7 :: r8 :: q)
    by (unfold w4; by rewrite pending_after_read, P3).
  assert (Q4 : _hid w4 = Some h) by exact Hh.
  rewrite (bind_read_next_part_raw_full _ w4 h r5 _ Q4 P4 L5).
  set (w5 := after_read 64 100 w4).
  assert (P5 : pending w5 = r6 :: r7 :: r8 :: q)
    by (unfold w5; by rewrite pending_after_read, P4).
  assert (Q5 : _hid w5 = Some h) by exact Hh.
  rewrite (bind_read_next_part_raw_full _ w5 h r6 _ Q5 P5 L6).
  set (w6 := after_read 64 100 w5).
  assert (P6 : pending w6 = r7 :: r8 :: q)
    by (unfold w6; by rewrite pending_after_read, P5).
  assert (Q6 : _hid w6 = Some h) by exact Hh.
  rewrite (bind_read_next_part_raw_full _ w6 h r7 _ Q6 P6 L7).
  set (w7 := after_read 64 100 w6).
  assert (P7 : pending w7 = r8 :: q)
    by (unfold w7; by rewrite pending_after_read, P6).
  assert (Q7 : _hid w7 = Some h) by exact Hh.
  rewrite (bind_read_next_part_raw_full _ w7 h r8 _ Q7 P7 L8).
  set (w8 := after_read 64 100 w7).
  exists w8. split; [|split].
  - replace (negb (truthy (VBytes r2))) with false
      by (destruct r2; [discriminate | done]).
    rewrite !pending_log_event, pending_after_read, pending_log_event, Hp.
    cbv iota. cbv [mbind io_bind bind lift py_add py_len ret tl hd].
    by rewrite <- !app_assoc.
  - unfold w8. by rewrite pending_after_read, P7.
  - unfold w8, w7, w6, w5, w4, w3, w2, w1.
    rewrite !writes_after_read, !writes_log_event, writes_after_read,
      writes_log_event.
    by rewrite !app_nil_r.
Qed.

Lemma retry_read_raw_silent (h : string) (rounds : nat) :
  forall w : world,
  _hid w = Some h ->
  Forall (fun r => r = []) (pending w) ->
  exists w',
    retry_read_raw rounds (VBytes []) w = (Return (VBytes []), w') /\
    _hid w' = Some h /\ Forall (fun r => r = []) (pending w').
Proof.
  induction rounds as [|rounds IH]; intros w Hh Hp.
  - by exists w.
  - rewrite retry_read_raw_S, (bind_read_bytes_raw _ _ _ _ h Hh).
    assert (E : take 64 (hd [] (pending w)) = []).
    { destruct (pending w) as [|r q]; [done|].
      apply Forall_cons in Hp as [-> _]. done. }
    rewrite E. simpl py_len. rewrite bind_lift_Return. simpl.
    apply IH; [by rewrite hid_after_read|].
    rewrite pending_after_read.
    destruct (pending w) as [|r q]; [done|]. by apply Forall_cons in Hp as [_ Hq].
Qed.

Lemma read_next_part_raw_silent (w : world) (h : string) :
  _hid w = Some h ->
  Forall (fun r => r = []) (pending w) ->
  exists w',
    read_next_part_raw w = (Return (VBytes []), w') /\
    _hid w' = Some h /\ Forall (fun r => r = []) (pending w').
Proof.
  intros Hh Hp.
  assert (E : take 64 (hd [] (pending w)) = []).
  { destruct (pending w) as [|r q]; [done|].
    apply Forall_cons in Hp as [-> _]. done. }
  destruct (retry_read_raw_silent h 9 (after_read 64 100 w)) as (w' & Er & H1 & H2).
  { by rewrite hid_after_read. }
  { rewrite pending_after_read.
    destruct (pending w) as [|r q]; [done|]. by apply Forall_cons in Hp as [_ Hq]. }
  exists w'. split; [|done].
  unfold read_next_part_raw.
  rewrite retry_read_raw_S, (bind_read_bytes_raw _ _ _ _ h Hh), E.
  simpl py_len. rewrite bind_lift_Return. simpl. exact Er.
Qed.

(** X9: When nothing comes after the first part, [getpub] does not wait: its
    first loop ends after one read, the retries of the seven other parts
    run out, and it raises its failure.  It does so even when the first
    part is missing as well. *)
Theorem getpub_silent_device (nt : bool) (w : world) (h : string) (s : Z)
    (t0 : pystr) :
  _hid w = Some h ->
  slotnum w = Some s ->
  (0 <= s < 128)%Z ->
  ascii_decode (take (MAX_INPUT_REPORT_SIZE nt) (hd [] (pending w))) = Return t0 ->
  Forall (fun r => r = []) (drop 2 (pending w)) ->
  (getpub nt w).1 =
  Raise (PyException "failed to read public RSA N from OnlyKey").
Proof.
  intros Hh Hs Hr Ha Hq.
  unfold getpub.
  rewrite bind_sleep.
  rewrite (bind_read_string nt 100 _ _ h t0) by (exact Hh || exact Ha).
  rewrite bind_sleep, (bind_get_slotnum _ _ s) by exact Hs.
  assert (Hc : py_chr s = Return (Z.to_N s)).
  { unfold py_chr.
    replace ((0 <=? s)%Z && (s <? 1114112)%Z) with true; [done|].
    symmetry. apply andb_true_iff. split; [apply Z.leb_le | apply Z.ltb_lt]; lia. }
  rewrite Hc, bind_lift_Return.
  assert (He : encoded_payload (VStr [Z.to_N s]) = Return [int_byte s]).
  { unfold encoded_payload. simpl. unfold utf8_encode_char.
    replace (Z.to_N s <? 128)%N with true by (symmetry; apply N.ltb_lt; lia).
    reflexivity. }
  erewrite bind_Return; cycle 1.
  { apply (send_message_writes nt _ _ _ _ _ h [int_byte s]); [done | exact I | exact He]. }
  rewrite bind_sleep.
  rewrite (bind_read_first_part_raw _ _ h) by exact Hh.
  set (w1 := after_read 64 100 _).
  assert (P1 : Forall (fun r => r = []) (pending w1)).
  { unfold w1.
    rewrite pending_after_read, !pending_log_event, pending_after_read,
      pending_log_event.
    by destruct (pending w) as [|a [|b l]]. }
  assert (Q1 : _hid w1 = Some h) by exact Hh.
  destruct (read_next_part_raw_silent w1 h Q1 P1) as (w2 & E2 & H2 & P2).
  destruct (read_next_part_raw_silent w2 h H2 P2) as (w3 & E3 & H3 & P3).
  destruct (read_next_part_raw_silent w3 h H3 P3) as (w4 & E4 & H4 & P4).
  destruct (read_next_part_raw_silent w4 h H4 P4) as (w5 & E5 & H5 & P5).
  destruct (read_next_part_raw_silent w5 h H5 P5) as (w6 & E6 & H6 & P6).
  destruct (read_next_part_raw_silent w6 h H6 P6) as (w7 & E7 & H7 & P7).
  destruct (read_next_part_raw_silent w7 h H7 P7) as (w8 & E8 & H8 & P8).
  rewrite (bind_Return _ _ _ _ _ E2), (bind_Return _ _ _ _ _ E3),
    (bind_Return _ _ _ _ _ E4), (bind_Return _ _ _ _ _ E5),
    (bind_Return _ _ _ _ _ E6), (bind_Return _ _ _ _ _ E7),
    (bind_Return _ _ _ _ _ E8).
  reflexivity.
Qed.

(** ** Calls that come back *)

Lemma no_hang_bind {A B} (m : io A) (k : A -> io B) :
  no_hang m -> (forall a, no_hang (k a)) -> no_hang (m ≫= k).
Proof.
  intros Hm Hk w. unfold mbind, io_bind, bind.
  specialize (Hm w). destruct (m w) as [[a|e|] w']; simpl in *; [|done|done].
  apply Hk.
Qed.

Lemma no_hang_ret {A} (a : A) : no_hang (ret a).
Proof. by intros w. Qed.

Lemma no_hang_raise {A} (e : exn) : no_hang (@raise A e).
Proof. by intros w. Qed.

Lemma no_hang_lift {A} (o : outcome A) : o <> Hang -> no_hang (lift o).
Proof. by intros Ho w. Qed.

Lemma no_hang_sleep (ms : Z) : no_hang (sleep ms).
Proof. by intros w. Qed.

Lemma no_hang_get_slotnum : no_hang get_slotnum.
Proof. intros w. unfold get_slotnum. by destruct (slotnum w). Qed.

Lemma no_hang_read_bytes (n : nat) (to_str : bool) (t : Z) :
  no_hang (read_bytes n to_str t).
Proof.
  intros w. unfold read_bytes, mbind, io_bind, bind, hid_read.
  destruct (_hid w); [|done].
  by destruct (pending w), to_str.
Qed.

Lemma no_hang_read_string (nt : bool) (t : Z) : no_hang (read_string nt t).
Proof. intros w. apply read_string_no_hang. Qed.

Lemma no_hang_send_message (nt : bool) (payload : pyval) (msg : option Message)
    (slot_id : option Z) (message_field : option MessageField) :
  no_hang (send_message nt payload msg slot_id message_field).
Proof.
  intros w. rewrite send_message_raw.
  destruct (raw_message_cases nt payload msg slot_id message_field)
    as [(e & -> & _)|[raw ->]]; [done|].
  unfold hid_write. by destruct (_hid w).
Qed.

Lemma py_len_no_hang (v : pyval) : py_len v <> Hang.
Proof. by destruct v. Qed.

Lemma py_add_no_hang (a b : pyval) : py_add a b <> Hang.
Proof. by destruct a, b. Qed.

Lemma no_hang_retry_read_raw (rounds : nat) :
  forall last, no_hang (retry_read_raw rounds last).
Proof.
  induction rounds as [|rounds IH]; intros last; [apply no_hang_ret|].
  rewrite retry_read_raw_S.
  apply no_hang_bind; [apply no_hang_read_bytes|]. intros x.
  apply no_hang_bind; [apply no_hang_lift, py_len_no_hang|]. intros len.
  destruct (len =? 64); [apply no_hang_ret | apply IH].
Qed.

Lemma no_hang_read_first_part_raw : no_hang read_first_part_raw.
Proof.
  intros w. unfold read_first_part_raw. simpl poll_nonempty_raw.
  rewrite bind_sleep. unfold read_bytes.
  rewrite bind_assoc. unfold mbind at 1. unfold io_bind, bind, hid_read.
  simpl _hid. simpl pending.
  destruct (_hid w); [|done].
  by destruct (pending w).
Qed.

(** X10: Whatever the device does, [getpub] comes back, with the key or with
    an exception: none of its loops can run for ever. *)
Theorem getpub_comes_back (nt : bool) (w : world) :
  (getpub nt w).1 <> Hang.
Proof.
  revert w. change (no_hang (getpub nt)). unfold getpub.
  apply no_hang_bind; [apply no_hang_sleep|]. intros _.
  apply no_hang_bind; [apply no_hang_read_string|]. intros _.
  apply no_hang_bind; [apply no_hang_sleep|]. intros _.
  apply no_hang_bind; [apply no_hang_get_slotnum|]. intros s.
  apply no_hang_bind.
  { apply no_hang_lift. unfold py_chr. by destruct (_ && _). }
  intros c.
  apply no_hang_bind; [apply no_hang_send_message|]. intros _.
  apply no_hang_bind; [apply no_hang_sleep|]. intros _.
  apply no_hang_bind; [apply no_hang_read_first_part_raw|]. intros p1.
  do 7 (apply no_hang_bind; [apply no_hang_retry_read_raw|]; intros ?).
  destruct (negb _); [apply no_hang_raise|].
  do 6 (apply no_hang_bind; [apply no_hang_lift, py_add_no_hang|]; intros ?).
  apply no_hang_bind; [apply no_hang_lift, py_add_no_hang|]. intros k.
  apply no_hang_bind; [apply no_hang_lift, py_len_no_hang|]. intros _.
  apply no_hang_ret.
Qed.

(** ** What [sign] and [decrypt] do before they stop *)

Lemma read_string_writes (nt : bool) (t : Z) (w w' : world) (o : outcome pystr) :
  read_string nt t w = (o, w') -> writes (trace w') = writes (trace w).
Proof.
  unfold read_string, read_chunk, read_bytes, mbind, io_bind, bind, hid_read.
  destruct (_hid w); [|by intros [= _ <-]].
  destruct (pending w) as [|r q]; simpl; unfold lift.
  - intros [= _ <-]. by rewrite writes_log_event, app_nil_r.
  - intros [= _ <-]. by rewrite writes_log_event, app_nil_r.
Qed.

(** X11: Neither [sign] nor [decrypt] ever returns or writes to the device:
    each call ends in an exception, the [TypeError] of the challenge
    block at the latest, which is raised before the payload is sent. *)
Theorem sign_decrypt_send_nothing (nt : bool) (sha256 : bytes -> bytes)
    (data : bytes) (w : world) :
  (exists e w', sign nt sha256 data w = (Raise e, w') /\
                writes (trace w') = writes (trace w)) /\
  (exists e w', decrypt nt sha256 data w = (Raise e, w') /\
                writes (trace w') = writes (trace w)).
Proof.
  destruct (challenge_pin_raises sha256 data) as [ec Hc].
  pose proof (read_string_no_hang nt 100 (log_event (EvSleep 2000) w)) as Hn.
  pose proof (read_string_writes nt 100 (log_event (EvSleep 2000) w)) as Hw.
  split.
  - unfold sign. simpl binascii_hexlify. rewrite bind_lift_Return, bind_sleep.
    unfold mbind at 1. unfold io_bind, bind.
    destruct (read_string nt 100 (log_event (EvSleep 2000) w)) as [[s|e|] w1];
      simpl in Hn; [| |done].
    + rewrite bind_sleep, Hc, bind_lift_Raise. eexists _, _.
      split; [reflexivity|].
      by rewrite writes_log_event, (Hw w1 _ eq_refl), writes_log_event, !app_nil_r.
    + eexists _, _. split; [reflexivity|].
      by rewrite (Hw w1 _ eq_refl), writes_log_event, app_nil_r.
  - unfold decrypt. rewrite bind_sleep.
    unfold mbind at 1. unfold io_bind, bind.
    destruct (read_string nt 100 (log_event (EvSleep 2000) w)) as [[s|e|] w1];
      simpl in Hn; [| |done].
    + rewrite bind_sleep, Hc, bind_lift_Raise. eexists _, _.
      split; [reflexivity|].
      by rewrite writes_log_event, (Hw w1 _ eq_refl), writes_log_event, !app_nil_r.
    + eexists _, _. split; [reflexivity|].
      by rewrite (Hw w1 _ eq_refl), writes_log_event, app_nil_r.
Qed.

(** ** [getlabels] *)

Lemma Slot_init_low (n : Z) (l : pystr) :
  (1 <= n <= 12)%Z ->
  exists nm, SLOTS_NAME !! n = Some nm /\ Slot_init n l = Return (mkSlot n l nm).
Proof.
  intros Hn.
  assert (n = 1 \/ n = 2 \/ n = 3 \/ n = 4 \/ n = 5 \/ n = 6 \/ n = 7 \/
          n = 8 \/ n = 9 \/ n = 10 \/ n = 11 \/ n = 12)%Z as H by lia.
  repeat (destruct H as [->|H]); try subst n; eexists; split; reflexivity.
Qed.

Lemma py_split_nonempty (sep : N) (s : pystr) : py_split sep s <> [].
Proof.
  induction s as [|c s IH]; simpl; [done|].
  destruct (c =? sep)%N; [done|]. by destruct (py_split sep s).
Qed.

Lemma py_split_head_nil (sep : N) (d : pystr) (rest : list pystr) :
  py_split sep [] = d :: rest -> d = [].
Proof. by intros [= <- _]. Qed.

(** A round of the loop that returns has read a report that was there,
    and has added at most one slot, numbered from 1 to 12 and named as
    the table says.  A round that raises does not raise [KeyError]. *)
Lemma getlabels_round_cases (nt : bool) (slots : list Slot) (w w' : world)
    (o : outcome (list Slot)) :
  getlabels_round nt slots w = (o, w') ->
  match o with
  | Return slots' =>
      (slots' = slots \/
       exists s, slots' = slots ++ [s] /\ (1 <= number s <= 12)%Z /\
                 SLOTS_NAME !! number s = Some (name s)) /\
      S (length (pending w')) <= length (pending w) /\
      writes (trace w') = writes (trace w)
  | Raise e => forall k, e <> KeyError k
  | Hang => False
  end.
Proof.
  unfold getlabels_round. unfold mbind at 1. unfold io_bind, bind.
  pose proof (read_string_no_hang nt 100 w) as Hn.
  pose proof (read_string_writes nt 100 w) as Hw.
  destruct (read_string nt 100 w) as [[text|e|] w1] eqn:Er; simpl in Hn; [| |done].
  - specialize (Hw w1 _ eq_refl).
    assert (Hp : text <> [] -> S (length (pending w1)) <= length (pending w)).
    { revert Er.
      unfold read_string, read_chunk, read_bytes, mbind, io_bind, bind, hid_read.
      destruct (_hid w); [|discriminate].
      destruct (pending w) as [|r q]; simpl; unfold lift.
      - intros [= <- _]. done.
      - intros E Ht. assert (w1 = log_event
          (EvRead (MAX_INPUT_REPORT_SIZE nt) 100 (take (MAX_INPUT_REPORT_SIZE nt) r))
          (set_pending q w)) as -> by congruence.
        simpl. lia. }
    destruct (py_split 124 text) as [|d0 rest] eqn:Es.
    { by apply py_split_nonempty in Es. }
    change (strs_getitem (d0 :: rest) 0) with (Return d0).
    rewrite bind_lift_Return.
    destruct d0 as [|c [|c' d0]]; simpl ord.
    + rewrite bind_lift_Raise. intros [= <- <-]. done.
    + rewrite bind_lift_Return.
      assert (Hne : text <> []).
      { intros ->. simpl in Es. discriminate. }
      set (n := if (16 <=? Z.of_N c)%Z then (Z.of_N c - 6)%Z else Z.of_N c).
      destruct ((1 <=? n)%Z && (n <=? 12)%Z) eqn:En.
      * apply andb_true_iff in En as [E1 E2].
        apply Z.leb_le in E1. apply Z.leb_le in E2.
        destruct rest as [|d1 rest].
        -- change (strs_getitem [[c]] 1) with (@Raise pystr IndexError).
           rewrite bind_lift_Raise. intros [= <- <-]. done.
        -- change (strs_getitem ([c] :: d1 :: rest) 1) with (Return d1).
           rewrite bind_lift_Return.
           destruct (Slot_init_low n d1 ltac:(lia)) as (nm & Hnm & ->).
           rewrite bind_lift_Return. intros [= <- <-].
           split; [|split; [by apply Hp | done]].
           right. eexists. split; [reflexivity|]. simpl. split; [lia | done].
      * intros [= <- <-]. split; [by left|]. split; [by apply Hp | done].
    + rewrite bind_lift_Raise. intros [= <- <-]. done.
  - intros [= <- <-]. intros k Hk. subst e.
    revert Er.
    unfold read_string, read_chunk, read_bytes, mbind, io_bind, bind, hid_read.
    destruct (_hid w); [|discriminate].
    assert (Ha : forall b, ascii_decode b <> Raise (KeyError k)).
    { induction b as [|x b IH]; simpl; [done|].
      destruct (Byte.to_N x <? 128)%N; [|done].
      destruct (ascii_decode b) as [?|e|]; simpl; done. }
    destruct (pending w) as [|r q]; simpl; unfold lift; intros [= E _];
      by apply Ha in E.
Qed.

Lemma getlabels_loop (nt : bool) (n : nat) :
  forall (a : nat) (slots : list Slot) (w w' : world) (o : outcome (list Slot)),
  Forall (fun s => (1 <= number s <= 12)%Z /\
                   SLOTS_NAME !! number s = Some (name s)) slots ->
  for_fold (seq a n) slots (fun _ slots => getlabels_round nt slots) w = (o, w') ->
  match o with
  | Return slots' =>
      Forall (fun s => (1 <= number s <= 12)%Z /\
                       SLOTS_NAME !! number s = Some (name s)) slots' /\
      length slots' <= length slots + n /\
      n + length (pending w') <= length (pending w) /\
      writes (trace w') = writes (trace w)
  | Raise e => forall k, e <> KeyError k
  | Hang => False
  end.
Proof.
  induction n as [|n IH]; intros a slots w w' o Hs; simpl.
  - intros [= <- <-]. split; [done|]. split; [lia|]. split; [lia | done].
  - unfold mbind, io_bind, bind.
    destruct (getlabels_round nt slots w) as [o1 w1] eqn:E1.
    pose proof (getlabels_round_cases nt slots w w1 o1 E1) as H1.
    destruct o1 as [slots1|e|]; [| |done].
    + destruct H1 as (Hcase & Hp & Hw).
      assert (Hs1 : Forall (fun s => (1 <= number s <= 12)%Z /\
                       SLOTS_NAME !! number s = Some (name s)) slots1 /\
                    length slots1 <= length slots + 1).
      { destruct Hcase as [->|(s & -> & Hn & Hnm)]; [split; [done|lia]|].
        split; [apply Forall_app; split;
                  [done | apply Forall_cons; split; [done | by apply Forall_nil]]|].
        rewrite length_app. simpl. lia. }
      destruct Hs1 as [Hs1 Hl1]. intros E2.
      pose proof (IH (S a) slots1 w1 w' o Hs1 E2) as H2.
      destruct o as [slots'|e|]; [|done|done].
      destruct H2 as (H21 & H22 & H23 & H24).
      split; [done|]. split; [lia|]. split; [lia | congruence].
    + by intros [= <- <-].
Qed.

(** X12: [getlabels] returns at most 12 slots, each numbered from 1 to 12 and
    named by the table, after one write and twelve reads that all found
    a report; and it never fails by a slot number missing from the table. *)
Theorem getlabels_slots (nt : bool) (w w' : world) (o : outcome (list Slot)) :
  getlabels nt w = (o, w') ->
  match o with
  | Return slots =>
      Forall (fun s => (1 <= number s <= 12)%Z /\
                       SLOTS_NAME !! number s = Some (name s)) slots /\
      length slots <= 12 /\
      12 + length (pending w') <= length (pending w) /\
      length (writes (trace w')) = S (length (writes (trace w)))
  | Raise e => forall k, e <> KeyError k
  | Hang => False
  end.
Proof.
  unfold getlabels. unfold mbind at 1. unfold io_bind, bind.
  rewrite send_message_raw.
  destruct (raw_message_cases nt VNone (Some OKGETLABELS) None None)
    as [(e & -> & He)|[raw ->]].
  - intros [= <- <-]. intros k ->. revert He. simpl.
    rewrite !elem_of_cons, elem_of_nil. intros [H|[H|[H|[]]]]; discriminate.
  - unfold hid_write. destruct (_hid w) as [h|]; [|by intros [= <- <-]].
    rewrite bind_sleep. intros E.
    pose proof (getlabels_loop nt 12 0 [] _ w' o (Forall_nil_2 _) E) as H.
    destruct o as [slots|e|]; [|done|done].
    destruct H as (H1 & H2 & H3 & H4). rewrite !pending_log_event in H3.
    split; [done|]. split; [simpl in H2; lia|]. split; [done|].
    rewrite H4, !writes_log_event, !length_app. simpl. lia.
Qed.

(** ** [set_time] *)

Lemma hex_value_hex_digit (d : N) :
  (d < 16)%N -> hex_value (hex_digit d) = Some (Z.of_N d).
Proof.
  intros Hd.
  assert (d = 0 \/ d = 1 \/ d = 2 \/ d = 3 \/ d = 4 \/ d = 5 \/ d = 6 \/ d = 7 \/
          d = 8 \/ d = 9 \/ d = 10 \/ d = 11 \/ d = 12 \/ d = 13 \/ d = 14 \/
          d = 15)%N as H by lia.
  repeat (destruct H as [->|H]); try subst d; reflexivity.
Qed.

Lemma hex_digit_not_sign (d : N) :
  (d < 16)%N -> (hex_digit d =? 45)%N = false /\ (hex_digit d =? 43)%N = false.
Proof.
  intros Hd. unfold hex_digit.
  destruct (d <? 10)%N; split; apply N.eqb_neq; lia.
Qed.

(** The digits [format(n, 'x')] writes, as numbers. *)
Lemma hex_digits_from_digits (rounds : nat) :
  forall (n : N) (acc : pystr),
  0 < rounds ->
  (n < 16 ^ N.of_nat rounds)%N ->
  exists ds : list N,
    hex_digits_from rounds n acc = map hex_digit ds ++ acc /\
    Forall (fun d => (d < 16)%N) ds /\ ds <> [] /\
    fold_left (fun a d => (16 * a + Z.of_N d)%Z) ds 0%Z = Z.of_N n.
Proof.
  induction rounds as [|rounds IH]; intros n acc Hr Hn.
  - lia.
  - simpl hex_digits_from.
    pose proof (N.mod_lt n 16 ltac:(lia)) as Hm.
    pose proof (N.div_mod n 16 ltac:(lia)) as Hdm.
    destruct (N.eqb_spec (n / 16) 0) as [Hz|Hnz].
    + exists [n mod 16]%N. split; [done|]. split; [by repeat constructor|].
      split; [done|]. simpl. lia.
    + assert (Hq : (n / 16 < 16 ^ N.of_nat rounds)%N).
      { rewrite Nat2N.inj_succ, N.pow_succ_r' in Hn.
        apply N.Div0.div_lt_upper_bound. lia. }
      assert (Hr' : 0 < rounds).
      { destruct rounds; [simpl in Hq; lia | lia]. }
      destruct (IH (n / 16)%N (hex_digit (n mod 16) :: acc) Hr' Hq)
        as (ds & E & Hds & _ & Hv).
      exists (ds ++ [n mod 16])%N. split; [|split; [|split]].
      * rewrite E, map_app, <- app_assoc. reflexivity.
      * apply Forall_app. split; [done | by repeat constructor].
      * by destruct ds.
      * rewrite fold_left_app, Hv. simpl. lia.
Qed.

Lemma log2_rounds (n : N) : (n < 16 ^ N.of_nat (S (N.to_nat (N.log2 n))))%N.
Proof.
  rewrite Nat2N.inj_succ, N2Nat.id.
  destruct (N.eq_dec n 0%N) as [->|Hn]; [done|].
  pose proof (N.log2_spec n ltac:(lia)) as [_ H].
  eapply N.lt_le_trans; [exact H|].
  apply N.pow_le_mono_l. lia.
Qed.

Lemma chunks_of_cons2 {A} (a b : A) (l : list A) :
  chunks_of 2 (a :: b :: l) = [a; b] :: chunks_of 2 l.
Proof.
  apply list_eq. intros i. rewrite chunks_of_lookup by lia.
  destruct i as [|i]; simpl.
  - reflexivity.
  - rewrite chunks_of_lookup by lia.
    replace (i * 2 + 2) with (S (S (i * 2))) by lia. simpl.
    destruct (Nat.ltb_spec (S (S (i * 2))) (S (S (length l))));
      destruct (Nat.ltb_spec (i * 2) (length l)); (done || lia).
Qed.

Lemma chunks_of_nil {A} (step : nat) : @chunks_of A step [] = [].
Proof. reflexivity. Qed.

Lemma py_int16_pair (d1 d2 : N) :
  (d1 < 16)%N -> (d2 < 16)%N ->
  py_int16 [hex_digit d1; hex_digit d2] = Return (16 * Z.of_N d1 + Z.of_N d2)%Z.
Proof.
  intros H1 H2. unfold py_int16.
  destruct (hex_digit_not_sign d1 H1) as [-> _].
  simpl. rewrite (hex_value_hex_digit d1 H1), (hex_value_hex_digit d2 H2).
  f_equal; lia.
Qed.

Lemma mapM_cons {A B} (f : A -> outcome B) (x : A) (l : list A) :
  mapM f (x :: l) = obind (f x) (fun y => obind (mapM f l) (fun k => Return (y :: k))).
Proof. reflexivity. Qed.

(** Pairs of digits read as bytes. *)
Lemma pairs_bytes (k : nat) :
  forall ds : list N,
  length ds = 2 * k ->
  Forall (fun d => (d < 16)%N) ds ->
  exists bs : bytes,
    mapM py_int16 (chunks_of 2 (map hex_digit ds)) = Return (map byte_to_Z bs) /\
    length bs = k /\
    forall a : Z,
      fold_left (fun a b => (256 * a + byte_to_Z b)%Z) bs a =
      fold_left (fun a d => (16 * a + Z.of_N d)%Z) ds a.
Proof.
  induction k as [|k IH]; intros ds Hl Hds.
  - destruct ds; [|discriminate]. exists []. done.
  - destruct ds as [|d1 [|d2 ds]]; try (simpl in Hl; lia).
    apply Forall_cons in Hds as [H1 Hds]. apply Forall_cons in Hds as [H2 Hds].
    destruct (IH ds ltac:(simpl in Hl; lia) Hds) as (bs & E & Hlen & Hv).
    exists (int_byte (16 * Z.of_N d1 + Z.of_N d2) :: bs).
    assert (Hb : byte_to_Z (int_byte (16 * Z.of_N d1 + Z.of_N d2))
                 = (16 * Z.of_N d1 + Z.of_N d2)%Z).
    { unfold byte_to_Z, int_byte, byte_of_N.
      rewrite N.mod_small by lia.
      destruct (Byte.of_N _) as [b|] eqn:Eb; simpl.
      - apply Byte.to_of_N in Eb. rewrite Eb. lia.
      - apply Byte.of_N_None_iff in Eb. lia. }
    split; [|split].
    + simpl map. rewrite chunks_of_cons2, mapM_cons.
      rewrite py_int16_pair by done.
      simpl obind. rewrite E. simpl. by rewrite Hb.
    + simpl. lia.
    + intros a. simpl. rewrite Hv, Hb. f_equal. lia.
Qed.

Lemma mapM_map {A B C} (f : B -> outcome C) (g : A -> B) (l : list A) :
  mapM f (map g l) = mapM (fun x => f (g x)) l.
Proof.
  induction l as [|x l IH]; [done|]. simpl. by rewrite IH.
Qed.

Lemma bytes_of_ints_bytes (bs : bytes) :
  bytes_of_ints (map byte_to_Z bs) = Return bs.
Proof.
  induction bs as [|b bs IH]; [done|]. simpl. rewrite IH.
  unfold byte_of_int, byte_to_Z.
  pose proof (Byte.to_N_bounded b) as Hb.
  replace ((0 <=? Z.of_N (Byte.to_N b))%Z && (Z.of_N (Byte.to_N b) <? 256)%Z)
    with true
    by (symmetry; apply andb_true_iff; split; [apply Z.leb_le | apply Z.ltb_lt]; lia).
  by rewrite N2Z.id, Byte.of_to_N.
Qed.

(** The payload of [set_time] for a time that is not negative: the bytes
    of the number, most significant first, at least one. *)
Lemma set_time_payload_bytes (timestamp : Z) :
  (0 <= timestamp)%Z ->
  exists bs : bytes,
    set_time_payload timestamp = Return (map byte_to_Z bs) /\
    bs <> [] /\ big_endian bs = timestamp.
Proof.
  intros Ht. unfold set_time_payload, py_format_x.
  replace (timestamp <? 0)%Z with false by (symmetry; apply Z.ltb_ge; lia).
  destruct (hex_digits_from_digits
              (S (N.to_nat (N.log2 (Z.abs_N timestamp)))) (Z.abs_N timestamp) []
              (Nat.lt_0_succ _) (log2_rounds _))
    as (ds & -> & Hds & Hne & Hv).
  rewrite app_nil_r.
  set (s := map hex_digit ds).
  assert (Hz : exists ds', py_zfill s (length s + length s mod 2) = map hex_digit ds' /\
                 Forall (fun d => (d < 16)%N) ds' /\
                 (exists k, length ds' = 2 * k /\ 0 < k) /\
                 fold_left (fun a d => (16 * a + Z.of_N d)%Z) ds' 0%Z
                 = Z.of_N (Z.abs_N timestamp)).
  { unfold s. destruct ds as [|d ds]; [done|].
    apply Forall_cons in Hds as [Hd Hds]. simpl map. unfold py_zfill.
    destruct (hex_digit_not_sign d Hd) as [-> ->]. simpl orb. cbv iota.
    replace (length (hex_digit d :: map hex_digit ds) +
             length (hex_digit d :: map hex_digit ds) mod 2 -
             length (hex_digit d :: map hex_digit ds))
      with (length (d :: ds) mod 2) by (simpl; rewrite length_map; lia).
    pose proof (Nat.mod_upper_bound (length (d :: ds)) 2 ltac:(lia)) as Hu.
    pose proof (Nat.div_mod_eq (length (d :: ds)) 2) as Hdm.
    destruct (length (d :: ds) mod 2) as [|[|?]] eqn:Em; [| |lia].
    - exists (d :: ds). split; [done|]. split; [by apply Forall_cons|].
      split; [|done]. exists (length (d :: ds) / 2). simpl in *. lia.
    - exists (0%N :: d :: ds). split; [done|].
      split; [apply Forall_cons; split; [lia | by apply Forall_cons]|].
      split; [|done]. exists (S (length (d :: ds) / 2)). simpl in *. lia. }
  destruct Hz as (ds' & -> & Hds' & (k & Hk & Hpos) & Hv').
  rewrite <- mapM_map.
  change (map (fun i => slice (map hex_digit ds') i (i + 2))
              (py_range 0 (length (map hex_digit ds')) 2))
    with (chunks_of 2 (map hex_digit ds')).
  destruct (pairs_bytes k ds' Hk Hds') as (bs & E & Hlen & Hval).
  exists bs. split; [done|]. split; [destruct bs; [simpl in Hlen; lia | done]|].
  unfold big_endian. rewrite Hval, Hv'. rewrite N2Z.inj_abs_N. lia.
Qed.

(** X13: [set_time] writes one report: the header, the byte of [OKSETTIME]
    and the time as a number in base 256, most significant byte first;
    reading these bytes back gives the time. *)
Theorem set_time_report (nt : bool) (timestamp : Z) (w : world) (h : string) :
  _hid w = Some h ->
  (0 <= timestamp)%Z ->
  exists bs : bytes,
    set_time nt timestamp w =
      (Return tt,
       log_event (EvWrite (zero_pad nt
          (header_bytes nt ++ [int_byte 228] ++ bs))) w) /\
    bs <> [] /\ big_endian bs = timestamp.
Proof.
  intros Hh Ht.
  destruct (set_time_payload_bytes timestamp Ht) as (bs & E & Hne & Hv).
  exists bs. split; [|done]. unfold set_time.
  rewrite E, bind_lift_Return.
  rewrite (send_message_writes nt _ _ _ _ w h bs); [reflexivity | done | exact I |].
  unfold encoded_payload.
  replace (truthy (VList (map byte_to_Z bs))) with true
    by (destruct bs; [done | reflexivity]).
  simpl. apply bytes_of_ints_bytes.
Qed.

(** ** The table of slot names *)

Lemma NoDup_snd_inj {A B} (l : list (A * B)) (a1 a2 : A) (b : B) :
  NoDup (l.*2) -> (a1, b) ∈ l -> (a2, b) ∈ l -> NoDup (l.*1) -> a1 = a2.
Proof.
  induction l as [|[a b'] l IH]; simpl; intros Hnd H1 H2 Hnd1.
  - by apply elem_of_nil in H1.
  - apply NoDup_cons in Hnd as [Hb Hnd]. apply NoDup_cons in Hnd1 as [_ Hnd1].
    apply elem_of_cons in H1 as [[= -> ->]|H1];
      apply elem_of_cons in H2 as [[= ->]|H2]; try done.
    + exfalso. apply Hb. apply list_elem_of_fmap. by exists (a2, b').
    + subst b'. exfalso. apply Hb. apply list_elem_of_fmap. by exists (a1, b).
    + by apply IH.
Qed.

(** X14: A [Slot] can be built exactly for the numbers 1 to 12 and 25 to 60,
    and no two of these numbers share a name: a name tells the slot. *)
Theorem slot_names_distinct (n1 n2 : Z) (l1 l2 : pystr) (s1 s2 : Slot) :
  Slot_init n1 l1 = Return s1 ->
  Slot_init n2 l2 = Return s2 ->
  ((1 <= n1 <= 12)%Z \/ (25 <= n1 <= 60)%Z) /\
  number s1 = n1 /\ label s1 = l1 /\
  (name s1 = name s2 -> n1 = n2).
Proof.
  unfold Slot_init.
  destruct (SLOTS_NAME !! n1) as [nm1|] eqn:E1; [|discriminate].
  destruct (SLOTS_NAME !! n2) as [nm2|] eqn:E2; [|discriminate].
  intros [= <-] [= <-]. simpl. split; [|split; [done|split; [done|]]].
  - destruct (decide ((1 <= n1 <= 12)%Z \/ (25 <= n1 <= 60)%Z)) as [|Hn]; [done|].
    rewrite SLOTS_NAME_outside in E1 by lia. discriminate.
  - intros <-.
    apply elem_of_map_to_list in E1. apply elem_of_map_to_list in E2.
    apply (NoDup_snd_inj (map_to_list SLOTS_NAME) n1 n2 nm1); try done.
    + apply (bool_decide_unpack _). vm_compute. exact I.
    + apply NoDup_fst_map_to_list.
Qed.

(** ** A list payload that [bytes] rejects part of the way *)

Lemma for_each_app {A} (l1 l2 : list A) (body : A -> io unit) (w : world) :
  for_each (l1 ++ l2) body w = (for_each l1 body ;; for_each l2 body) w.
Proof.
  revert w. induction l1 as [|x l1 IH]; intros w; simpl; [done|].
  rewrite bind_assoc. unfold mbind, io_bind, bind.
  destruct (body x w) as [[[]|e|] w']; [apply IH | done | done].
Qed.

Lemma bind_Raise {A B} (m : io A) (k : A -> io B) (w w' : world) (e : exn) :
  m w = (Raise e, w') -> (m ≫= k) w = (Raise e, w').
Proof. intros H. unfold mbind, io_bind, bind. by rewrite H. Qed.

Lemma take_drop_take {A} (l : list A) (a b c : nat) :
  b + a <= c -> take a (drop b (take c l)) = take a (drop b l).
Proof.
  intros H. rewrite !take_drop_commute, take_take. f_equal. f_equal. lia.
Qed.

Lemma chunks_of_take {A} (step j : nat) (l : list A) :
  0 < step -> step * j <= length l ->
  take j (chunks_of step l) = chunks_of step (take (step * j) l).
Proof.
  intros Hs Hj. apply list_eq. intros i.
  rewrite lookup_take, !chunks_of_lookup by done.
  rewrite length_take, Nat.min_l by done.
  destruct (decide (i < j)) as [Hi|Hi].
  - destruct (Nat.ltb_spec (i * step) (length l)); [|nia].
    destruct (Nat.ltb_spec (i * step) (step * j)); [|nia].
    f_equal. symmetry. apply take_drop_take. nia.
  - destruct (Nat.ltb_spec (i * step) (step * j)); [nia | done].
Qed.

(** X15: The senders convert a list payload chunk by chunk.  When the chunk
    that starts at [58 * j] holds a number [bytes] rejects, while all the
    numbers before it are bytes, [send_large_message] has written the
    [j] reports of the chunks before it by the time the [ValueError] is
    raised: the send stops half-way. *)
Theorem send_large_message_partial (nt : bool) (l : list Z) (m : Message)
    (w : world) (h : string) (j : nat) (b : bytes) :
  _hid w = Some h ->
  58 * j < length l ->
  bytes_of_ints (take (58 * j) l) = Return b ->
  bytes_of_ints (slice l (58 * j) (58 * j + 58)) = Raise ValueError ->
  send_large_message nt (VList l) (Some m) w =
    (Raise ValueError,
     log_events (map (fun c => EvWrite (chunk_report nt m c)) (chunks_of 58 b)) w) /\
  length (chunks_of 58 b) = j.
Proof.
  intros Hh Hj Hb Hbad.
  assert (Hlb : length b = 58 * j).
  { rewrite (bytes_of_ints_length _ _ Hb), length_take. lia. }
  split.
  2:{ rewrite chunks_of_length by lia. unfold ceil_div. rewrite Hlb.
      replace (58 * j + 58 - 1) with (57 + j * 58) by lia.
      rewrite Nat.div_add by lia. reflexivity. }
  assert (Hpd : payload_data (VList (take (58 * j) l)) = Some b).
  { unfold payload_data. by rewrite Hb. }
  pose proof (send_large_message_writes nt (VList (take (58 * j) l)) m w h b Hh Hpd)
    as Hpre.
  unfold send_large_message in Hpre |- *.
  cbn [py_len] in Hpre |- *. rewrite bind_lift_Return in Hpre.
  rewrite bind_lift_Return.
  assert (Hc : large_message_chunks (VList l) (length l) =
               large_message_chunks (VList (take (58 * j) l))
                                    (length (take (58 * j) l)) ++
               VList (slice l (58 * j) (58 * j + 58)) ::
               map VList (drop (S j) (chunks_of 58 l))).
  { unfold large_message_chunks, MAX_LARGE_PAYLOAD_SIZE. cbn [py_slice].
    rewrite <- (map_map (fun x => slice l x (x + 58)) VList).
    rewrite <- (map_map (fun x => slice (take (58 * j) l) x (x + 58)) VList).
    change (map (fun x => slice l x (x + 58)) (py_range 0 (length l) 58))
      with (chunks_of 58 l).
    change (map (fun x => slice (take (58 * j) l) x (x + 58))
                (py_range 0 (length (take (58 * j) l)) 58))
      with (chunks_of 58 (take (58 * j) l)).
    rewrite <- chunks_of_take by lia.
    change (VList (slice l (58 * j) (58 * j + 58)) ::
            map VList (drop (S j) (chunks_of 58 l)))
      with (map VList (slice l (58 * j) (58 * j + 58) :: drop (S j) (chunks_of 58 l))).
    rewrite <- map_app. f_equal.
    symmetry. apply take_drop_middle.
    rewrite chunks_of_lookup by lia.
    destruct (Nat.ltb_spec (j * 58) (length l)); [|lia].
    rewrite slice_step. by rewrite (Nat.mul_comm j 58). }
  rewrite Hc, for_each_app.
  erewrite bind_Return by exact Hpre.
  set (w1 := log_events _ w).
  cbn [for_each].
  apply bind_Raise.
  change (bytes_of_ints [255%Z]) with (Return [Byte.xff]).
  rewrite bind_lift_Return.
  cbn [py_len]. rewrite bind_lift_Return.
  assert (Hlen : length (slice l (58 * j) (58 * j + 58)) <= 58).
  { rewrite slice_step, length_take. lia. }
  destruct (Nat.ltb_spec (length (slice l (58 * j) (58 * j + 58))) 58) as [Hlt|Hge].
  - cbn [bytes_of_ints]. rewrite byte_of_int_nat by lia. cbn [obind].
    rewrite bind_lift_Return, Hbad. reflexivity.
  - rewrite bind_ret, Hbad. reflexivity.
Qed.

Lemma send_large_message_partial_witness :
  _hid idle_world = Some "hidraw0" /\
  58 * 1 < length (replicate 58 1%Z ++ [300%Z]) /\
  bytes_of_ints (take (58 * 1) (replicate 58 1%Z ++ [300%Z])) =
    Return (replicate 58 Byte.x01) /\
  bytes_of_ints (slice (replicate 58 1%Z ++ [300%Z]) (58 * 1) (58 * 1 + 58)) =
    Raise ValueError /\
  send_large_message false (VList (replicate 58 1%Z ++ [300%Z])) (Some OKSETPRIV)
    idle_world =
    (Raise ValueError,
     log_events (map (fun c => EvWrite (chunk_report false OKSETPRIV c))
                     (chunks_of 58 (replicate 58 Byte.x01))) idle_world) /\
  length (chunks_of 58 (replicate 58 Byte.x01)) = 1.
Proof.
  split; [reflexivity|]. split; [simpl; lia|]. split; [reflexivity|].
  split; [reflexivity|].
  apply (send_large_message_partial false (replicate 58 1%Z ++ [300%Z]) OKSETPRIV
           idle_world "hidraw0" 1 (replicate 58 Byte.x01)).
  - reflexivity.
  - simpl; lia.
  - reflexivity.
  - reflexivity.
Defined.

(** ** The key setters *)







(** X17: [set_ecc_key] takes the key as [bytes] only: with a [str] key it
    raises before anything is written, [ValueError] for a key type or a
    slot that is no byte and [TypeError] otherwise.  So
    [generate_backup_key], which passes [chr(0)], raises [TypeError] in
    every session, before it has written or read anything. *)
Theorem generate_backup_key_type_error (nt : bool) (w : world) :
  (forall (key_type slot : Z) (s : pystr),
     set_ecc_key nt key_type slot (VStr s) w = (Raise ValueError, w) \/
     set_ecc_key nt key_type slot (VStr s) w = (Raise TypeError, w)) /\
  generate_backup_key nt w = (Raise TypeError, w).
Proof.
  split; [|reflexivity].
  intros key_type slot s. unfold set_ecc_key.
  destruct (bytes_of_ints_cases [key_type; slot]) as [->|[b ->]].
  - left. by rewrite bind_lift_Raise.
  - right. rewrite bind_lift_Return. cbn [py_add]. by rewrite bind_lift_Raise.
Qed.

(** ** [getkeylabels] *)

Lemma byte_to_Z_int_byte (n : Z) :
  (0 <= n < 256)%Z -> byte_to_Z (int_byte n) = n.
Proof.
  intros Hn. unfold byte_to_Z, int_byte, byte_of_N.
  rewrite N.mod_small by lia.
  destruct (Byte.of_N (Z.to_N n)) as [b|] eqn:E.
  - apply Byte.to_of_N in E. simpl. rewrite E. lia.
  - apply Byte.of_N_None_iff in E. lia.
Qed.

Lemma SLOTS_NAME_keys (n : Z) :
  (25 <= n <= 57)%Z -> exists nm, SLOTS_NAME !! n = Some nm.
Proof.
  intros Hn.
  destruct (SLOTS_NAME !! n) as [nm|] eqn:E; [by exists nm|].
  assert (Hall : forallb (fun k => bool_decide (is_Some (SLOTS_NAME !! (25 + Z.of_nat k)%Z)))
                         (seq 0 33) = true) by (vm_compute; reflexivity).
  rewrite forallb_forall in Hall.
  specialize (Hall (Z.to_nat (n - 25))).
  rewrite in_seq in Hall.
  apply bool_decide_eq_true in Hall; [|lia].
  replace (25 + Z.of_nat (Z.to_nat (n - 25)))%Z with n in Hall by lia.
  rewrite E in Hall. by destruct Hall.
Qed.


(** The number a round reads is the first byte of the report. *)
Lemma partition_before_first (sep : byte) (data : bytes) (n : Z) :
  bytes_getitem (partition_before sep data) 0 = Return (VInt n) ->
  exists b rest, data = b :: rest /\ n = byte_to_Z b.
Proof.
  destruct data as [|b rest]; simpl; [discriminate|].
  destruct (Byte.eqb b sep); simpl; [discriminate|].
  unfold bytes_getitem. simpl. intros [= <-]. by exists b, rest.
Qed.

(** A round of the loop that returns has read a report that was there,
    and has added at most one slot, numbered from 25 to 57 and named as
    the table says.  A round that raises does not raise [KeyError]. *)
Lemma getkeylabels_round_cases (nt : bool) (slots : list KeySlot) (w w' : world)
    (o : outcome (list KeySlot)) :
  getkeylabels_round nt slots w = (o, w') ->
  match o with
  | Return slots' =>
      (slots' = slots \/
       exists s, slots' = slots ++ [s] /\ (25 <= key_number s <= 57)%Z /\
                 SLOTS_NAME !! key_number s = Some (key_name s)) /\
      S (length (pending w')) <= length (pending w) /\
      writes (trace w') = writes (trace w)
  | Raise e => forall k, e <> KeyError k
  | Hang => False
  end.
Proof.
  unfold getkeylabels_round, read_chunk.
  assert (Hgo : forall (data : bytes) (w1 : world),
    writes (trace w1) = writes (trace w) ->
    (data <> [] -> S (length (pending w1)) <= length (pending w)) ->
    (v ← lift (bytes_getitem (partition_before Byte.x7c data) 0) ;
     match v with
     | VInt slot_number =>
         if (25 <=? slot_number)%Z && (slot_number <=? 57)%Z
         then
           d1 ← lift (bytes_getitem data 1) ;
           match d1 with
           | VInt label =>
               s ← lift (KeySlot_init slot_number label) ; ret (slots ++ [s])
           | _ => raise TypeError
           end
         else ret slots
     | _ => raise TypeError
     end) w1 = (o, w') ->
    match o with
    | Return slots' =>
        (slots' = slots \/
         exists s, slots' = slots ++ [s] /\ (25 <= key_number s <= 57)%Z /\
                   SLOTS_NAME !! key_number s = Some (key_name s)) /\
        S (length (pending w')) <= length (pending w) /\
        writes (trace w') = writes (trace w)
    | Raise e => forall k, e <> KeyError k
    | Hang => False
    end).
  { intros data w1 Hw Hp.
    destruct (bytes_getitem (partition_before Byte.x7c data) 0) as [v|e|] eqn:Ev.
    - rewrite bind_lift_Return.
      destruct (bytes_getitem_int _ _ _ Ev) as [n ->].
      apply partition_before_first in Ev as (b & rest & -> & ->).
      destruct ((25 <=? byte_to_Z b)%Z && (byte_to_Z b <=? 57)%Z) eqn:En.
      + apply andb_true_iff in En as [E1 E2].
        apply Z.leb_le in E1. apply Z.leb_le in E2.
        destruct (bytes_getitem (b :: rest) 1) as [d1|e|] eqn:Ed.
        * rewrite bind_lift_Return.
          destruct (bytes_getitem_int _ _ _ Ed) as [lbl ->].
          destruct (SLOTS_NAME_keys (byte_to_Z b) ltac:(lia)) as [nm Hnm].
          unfold KeySlot_init. rewrite Hnm, bind_lift_Return.
          intros [= <- <-]. split; [|split; [by apply Hp | done]].
          right. eexists. split; [reflexivity|]. simpl. split; [lia | done].
        * rewrite bind_lift_Raise. intros [= <- <-]. intros k ->.
          revert Ed. unfold bytes_getitem. by destruct ((b :: rest) !! 1).
        * revert Ed. unfold bytes_getitem. by destruct ((b :: rest) !! 1).
      + intros [= <- <-]. split; [by left|]. split; [by apply Hp | done].
    - rewrite bind_lift_Raise. intros [= <- <-]. intros k ->.
      revert Ev. unfold bytes_getitem.
      by destruct (partition_before Byte.x7c data !! 0).
    - revert Ev. unfold bytes_getitem.
      by destruct (partition_before Byte.x7c data !! 0). }
  destruct (_hid w) as [h|] eqn:Hh.
  - rewrite (bind_read_bytes_raw _ _ _ w h Hh). apply Hgo.
    + apply writes_after_read.
    + rewrite pending_after_read.
      destruct (pending w) as [|r q]; simpl; [by rewrite take_nil | lia].
  - unfold read_bytes, mbind, io_bind, bind, hid_read. rewrite Hh.
    by intros [= <- <-].
Qed.

Lemma getkeylabels_loop (nt : bool) (n : nat) :
  forall (a : nat) (slots : list KeySlot) (w w' : world)
         (o : outcome (list KeySlot)),
  Forall (fun s => (25 <= key_number s <= 57)%Z /\
                   SLOTS_NAME !! key_number s = Some (key_name s)) slots ->
  for_fold (seq a n) slots (fun _ slots => getkeylabels_round nt slots) w = (o, w') ->
  match o with
  | Return slots' =>
      Forall (fun s => (25 <= key_number s <= 57)%Z /\
                       SLOTS_NAME !! key_number s = Some (key_name s)) slots' /\
      length slots' <= length slots + n /\
      n + length (pending w') <= length (pending w) /\
      writes (trace w') = writes (trace w)
  | Raise e => forall k, e <> KeyError k
  | Hang => False
  end.
Proof.
  induction n as [|n IH]; intros a slots w w' o Hs; simpl.
  - intros [= <- <-]. split; [done|]. split; [lia|]. split; [lia | done].
  - unfold mbind, io_bind, bind.
    destruct (getkeylabels_round nt slots w) as [o1 w1] eqn:E1.
    pose proof (getkeylabels_round_cases nt slots w w1 o1 E1) as H1.
    destruct o1 as [slots1|e|]; [| |done].
    + destruct H1 as (Hcase & Hp & Hw).
      assert (Hs1 : Forall (fun s => (25 <= key_number s <= 57)%Z /\
                       SLOTS_NAME !! key_number s = Some (key_name s)) slots1 /\
                    length slots1 <= length slots + 1).
      { destruct Hcase as [->|(s & -> & Hn & Hnm)]; [split; [done|lia]|].
        split; [apply Forall_app; split;
                  [done | apply Forall_cons; split; [done | by apply Forall_nil]]|].
        rewrite length_app. simpl. lia. }
      destruct Hs1 as [Hs1 Hl1]. intros E2.
      pose proof (IH (S a) slots1 w1 w' o Hs1 E2) as H2.
      destruct o as [slots'|e|]; [|done|done].
      destruct H2 as (H21 & H22 & H23 & H24).
      split; [done|]. split; [lia|]. split; [lia | congruence].
    + by intros [= <- <-].
Qed.

(** X18: [getkeylabels] returns at most 33 slots, each numbered from 25 to 57
    and named by the table, after one write and 33 reads that all found
    a report; and it never fails by a slot number missing from the table. *)
Theorem getkeylabels_slots (nt : bool) (w w' : world)
    (o : outcome (list KeySlot)) :
  getkeylabels nt w = (o, w') ->
  match o with
  | Return slots =>
      Forall (fun s => (25 <= key_number s <= 57)%Z /\
                       SLOTS_NAME !! key_number s = Some (key_name s)) slots /\
      length slots <= 33 /\
      33 + length (pending w') <= length (pending w) /\
      length (writes (trace w')) = S (length (writes (trace w)))
  | Raise e => forall k, e <> KeyError k
  | Hang => False
  end.
Proof.
  unfold getkeylabels. unfold mbind at 1. unfold io_bind, bind.
  rewrite send_message_raw.
  destruct (raw_message_cases nt VNone (Some OKGETLABELS) (Some 107%Z) None)
    as [(e & -> & He)|[raw ->]].
  - intros [= <- <-]. intros k ->. revert He. simpl.
    rewrite !elem_of_cons, elem_of_nil. intros [H|[H|[H|[]]]]; discriminate.
  - unfold hid_write. destruct (_hid w) as [h|]; [|by intros [= <- <-]].
    intros E.
    pose proof (getkeylabels_loop nt 33 0 [] _ w' o (Forall_nil_2 _) E) as H.
    destruct o as [slots|e|]; [|done|done].
    destruct H as (H1 & H2 & H3 & H4). rewrite !pending_log_event in H3.
    split; [done|]. split; [simpl in H2; lia|]. split; [done|].
    rewrite H4, !writes_log_event, !length_app. simpl. lia.
Qed.

Lemma bytes_getitem_head (b : byte) (d : bytes) :
  bytes_getitem (b :: d) 0 = Return (VInt (byte_to_Z b)).
Proof. reflexivity. Qed.

Lemma bytes_getitem_second (a b : byte) (d : bytes) :
  bytes_getitem (a :: b :: d) 1 = Return (VInt (byte_to_Z b)).
Proof. reflexivity. Qed.

(** A round that reads a report [number|label]. *)
Lemma getkeylabels_round_report (nt : bool) (slots : list KeySlot) (w : world)
    (h : string) (n : Z) (lbl : bytes) (q : list bytes) :
  _hid w = Some h ->
  pending w = (int_byte n :: Byte.x7c :: lbl) :: q ->
  (25 <= n <= 57)%Z ->
  exists nm w',
    SLOTS_NAME !! n = Some nm /\
    getkeylabels_round nt slots w = (Return (slots ++ [mkKeySlot n 124 nm]), w') /\
    _hid w' = Some h /\ pending w' = q /\ writes (trace w') = writes (trace w).
Proof.
  intros Hh Hp Hn. destruct (SLOTS_NAME_keys n Hn) as [nm Hnm].
  exists nm, (after_read (MAX_INPUT_REPORT_SIZE nt) 100 w).
  split; [done|]. split.
  - unfold getkeylabels_round, read_chunk.
    rewrite (bind_read_bytes_raw _ _ _ w h Hh), Hp. cbn [hd].
    assert (Ht : take (MAX_INPUT_REPORT_SIZE nt) (int_byte n :: Byte.x7c :: lbl) =
                 int_byte n :: Byte.x7c :: take (MAX_INPUT_REPORT_SIZE nt - 2) lbl)
      by (by destruct nt).
    rewrite Ht. cbn [partition_before].
    assert (He : Byte.eqb (int_byte n) Byte.x7c = false).
    { destruct (Byte.eqb (int_byte n) Byte.x7c) eqn:E; [|done].
      apply Byte.byte_dec_bl in E.
      pose proof (byte_to_Z_int_byte n ltac:(lia)) as Hb. rewrite E in Hb.
      change (byte_to_Z Byte.x7c) with 124%Z in Hb. lia. }
    rewrite He.
    rewrite bytes_getitem_head, bind_lift_Return, byte_to_Z_int_byte by lia.
    replace ((25 <=? n)%Z && (n <=? 57)%Z) with true
      by (symmetry; apply andb_true_iff; split; apply Z.leb_le; lia).
    rewrite bytes_getitem_second, bind_lift_Return. unfold KeySlot_init. rewrite Hnm, bind_lift_Return.
    reflexivity.
  - rewrite hid_after_read, pending_after_read, writes_after_read, Hp. done.
Qed.

Lemma getkeylabels_reports (nt : bool) (rs : list (Z * bytes)) :
  forall (a : nat) (slots : list KeySlot) (w : world) (h : string)
         (q : list bytes),
  _hid w = Some h ->
  Forall (fun r => (25 <= r.1 <= 57)%Z) rs ->
  pending w = map (fun r => int_byte r.1 :: Byte.x7c :: r.2) rs ++ q ->
  exists new w',
    for_fold (seq a (length rs)) slots
             (fun _ slots => getkeylabels_round nt slots) w =
      (Return (slots ++ new), w') /\
    map key_number new = map fst rs /\
    Forall (fun s => key_label s = 124%Z /\
                     SLOTS_NAME !! key_number s = Some (key_name s)) new /\
    pending w' = q /\ writes (trace w') = writes (trace w).
Proof.
  induction rs as [|[n lbl] rs IH]; intros a slots w h q Hh Hall Hp.
  - exists [], w. simpl. rewrite app_nil_r.
    split; [done|]. split; [done|]. split; [by apply Forall_nil|]. done.
  - apply Forall_cons in Hall as [Hn Hall]. simpl in Hn.
    destruct (getkeylabels_round_report nt slots w h n lbl
                (map (fun r => int_byte r.1 :: Byte.x7c :: r.2) rs ++ q) Hh Hp Hn)
      as (nm & w1 & Hnm & Hr & Hh1 & Hp1 & Hw1).
    destruct (IH (S a) (slots ++ [mkKeySlot n 124 nm]) w1 h q Hh1 Hall Hp1)
      as (new & w' & Hf & Hnum & Hlab & Hq & Hw).
    exists (mkKeySlot n 124 nm :: new), w'.
    split.
    { cbn [length seq for_fold]. unfold mbind, io_bind, bind. rewrite Hr, Hf.
      by rewrite <- app_assoc. }
    split; [simpl; by rewrite Hnum|].
    split; [apply Forall_cons; split; [done | done]|].
    split; [done | congruence].
Qed.

(** X19: When the device answers with 33 reports of the form [number|label],
    the numbers from 25 to 57, [getkeylabels] returns the 33 slots of
    these numbers, in the order of the reports, under their names in the
    table; but the label of each is 124, the code of the separator: the
    code takes the second byte of the report, not what follows the
    separator. *)
Theorem getkeylabels_labels (nt : bool) (w : world) (h : string)
    (rs : list (Z * bytes)) (q : list bytes) :
  _hid w = Some h ->
  length rs = 33 ->
  Forall (fun r => (25 <= r.1 <= 57)%Z) rs ->
  pending w = map (fun r => int_byte r.1 :: Byte.x7c :: r.2) rs ++ q ->
  exists slots w',
    getkeylabels nt w = (Return slots, w') /\
    map key_number slots = map fst rs /\
    Forall (fun s => key_label s = 124%Z /\
                     SLOTS_NAME !! key_number s = Some (key_name s)) slots /\
    pending w' = q /\
    writes (trace w') =
      writes (trace w) ++
      [zero_pad nt (header_bytes nt ++ [int_byte 229; int_byte 107])].
Proof.
  intros Hh Hlen Hall Hp. unfold getkeylabels.
  unfold mbind at 1. unfold io_bind, bind.
  rewrite (send_message_writes nt VNone (Some OKGETLABELS) (Some 107%Z) None w h [])
    by (done || (simpl; lia)).
  destruct (getkeylabels_reports nt rs 0 []
              (log_event (EvWrite (zero_pad nt (header_bytes nt ++
                 msg_bytes (Some OKGETLABELS) ++ slot_id_bytes (Some 107%Z) ++
                 field_bytes None ++ []))) w) h q)
    as (new & w' & Hf & Hnum & Hlab & Hq & Hw); [exact Hh | exact Hall | exact Hp |].
  rewrite Hlen in Hf. exists new, w'.
  split; [exact Hf|]. split; [done|]. split; [done|]. split; [done|].
  rewrite Hw, writes_log_event. reflexivity.
Qed.

Lemma getkeylabels_labels_witness :
  _hid (listening_world
          (map (fun r : Z * bytes => int_byte r.1 :: Byte.x7c :: r.2)
               (map (fun k => ((25 + Z.of_nat k)%Z, [Byte.x41; Byte.x42])) (seq 0 33))))
    = Some "hidraw0" /\
  length (map (fun k => ((25 + Z.of_nat k)%Z, [Byte.x41; Byte.x42])) (seq 0 33)) = 33 /\
  exists slots w',
    getkeylabels false
      (listening_world
         (map (fun r : Z * bytes => int_byte r.1 :: Byte.x7c :: r.2)
              (map (fun k => ((25 + Z.of_nat k)%Z, [Byte.x41; Byte.x42])) (seq 0 33))))
      = (Return slots, w') /\
    map key_number slots =
      map fst (map (fun k => ((25 + Z.of_nat k)%Z, [Byte.x41; Byte.x42])) (seq 0 33)) /\
    Forall (fun s => key_label s = 124%Z /\
                     SLOTS_NAME !! key_number s = Some (key_name s)) slots /\
    pending w' = [] /\
    writes (trace w') =
      writes (trace (listening_world
         (map (fun r : Z * bytes => int_byte r.1 :: Byte.x7c :: r.2)
              (map (fun k => ((25 + Z.of_nat k)%Z, [Byte.x41; Byte.x42])) (seq 0 33))))) ++
      [zero_pad false (header_bytes false ++ [int_byte 229; int_byte 107])].
Proof.
  split; [reflexivity|]. split; [reflexivity|].
  apply (getkeylabels_labels false
           (listening_world
              (map (fun r : Z * bytes => int_byte r.1 :: Byte.x7c :: r.2)
                   (map (fun k => ((25 + Z.of_nat k)%Z, [Byte.x41; Byte.x42]))
                        (seq 0 33))))
           "hidraw0"
           (map (fun k => ((25 + Z.of_nat k)%Z, [Byte.x41; Byte.x42])) (seq 0 33))
           []).
  - reflexivity.
  - reflexivity.
  - apply Forall_forall. intros r Hr. apply list_elem_of_fmap in Hr as (k & -> & Hk).
    apply elem_of_seq in Hk. simpl. lia.
  - simpl pending. by rewrite app_nil_r.
Defined.

Lemma getkeylabels_slots_witness :
  getkeylabels false (listening_world []) =
    ((getkeylabels false (listening_world [])).1,
     (getkeylabels false (listening_world [])).2) /\
  match (getkeylabels false (listening_world [])).1 with
  | Return slots =>
      Forall (fun s => (25 <= key_number s <= 57)%Z /\
                       SLOTS_NAME !! key_number s = Some (key_name s)) slots /\
      length slots <= 33 /\
      33 + length (pending (getkeylabels false (listening_world [])).2)
        <= length (pending (listening_world [])) /\
      length (writes (trace (getkeylabels false (listening_world [])).2)) =
        S (length (writes (trace (listening_world []))))
  | Raise e => forall k, e <> KeyError k
  | Hang => False
  end.
Proof.
  split; [apply surjective_pairing|].
  apply (getkeylabels_slots false (listening_world [])).
  apply surjective_pairing.
Defined.

(** ** Calls that write nothing *)

Lemma keeps_writes_bind {A B} (m : io A) (k : A -> io B) :
  keeps_writes m -> (forall a, keeps_writes (k a)) -> keeps_writes (m ≫= k).
Proof.
  intros Hm Hk w o w'. unfold mbind, io_bind, bind.
  destruct (m w) as [[a|e|] w1] eqn:E; specialize (Hm w _ _ E).
  - intros E2. rewrite (Hk a w1 _ _ E2). exact Hm.
  - by intros [= _ <-].
  - by intros [= _ <-].
Qed.

Lemma keeps_writes_ret {A} (a : A) : keeps_writes (ret a).
Proof. by intros w o w' [= _ <-]. Qed.

Lemma keeps_writes_raise {A} (e : exn) : keeps_writes (@raise A e).
Proof. by intros w o w' [= _ <-]. Qed.

Lemma keeps_writes_lift {A} (o : outcome A) : keeps_writes (lift o).
Proof. by intros w o' w' [= _ <-]. Qed.

Lemma keeps_writes_sleep (ms : Z) : keeps_writes (sleep ms).
Proof. intros w o w' [= _ <-]. by rewrite writes_log_event, app_nil_r. Qed.

Lemma keeps_writes_get_slotnum : keeps_writes get_slotnum.
Proof.
  intros w o w'. unfold get_slotnum. by destruct (slotnum w); intros [= _ <-].
Qed.

Lemma keeps_writes_read_bytes (n : nat) (to_str : bool) (t : Z) :
  keeps_writes (read_bytes n to_str t).
Proof.
  intros w o w'. unfold read_bytes, mbind, io_bind, bind, hid_read.
  destruct (_hid w); [|by intros [= _ <-]].
  destruct (pending w), to_str; intros [= _ <-];
    by rewrite writes_log_event, app_nil_r.
Qed.

Lemma keeps_writes_read_string (nt : bool) (t : Z) :
  keeps_writes (read_string nt t).
Proof. intros w o w' E. by apply read_string_writes in E. Qed.

Lemma keeps_writes_retry_read_raw (rounds : nat) :
  forall last, keeps_writes (retry_read_raw rounds last).
Proof.
  induction rounds as [|rounds IH]; intros last; [apply keeps_writes_ret|].
  rewrite retry_read_raw_S.
  apply keeps_writes_bind; [apply keeps_writes_read_bytes|]. intros x.
  apply keeps_writes_bind; [apply keeps_writes_lift|]. intros len.
  destruct (len =? 64); [apply keeps_writes_ret | apply IH].
Qed.

Lemma keeps_writes_poll_nonempty_raw (rounds : nat) :
  keeps_writes (poll_nonempty_raw rounds).
Proof.
  induction rounds as [|rounds IH]; [by intros w o w' [= _ <-]|].
  cbn [poll_nonempty_raw].
  apply keeps_writes_bind; [apply keeps_writes_sleep|]. intros _.
  apply keeps_writes_bind; [apply keeps_writes_read_bytes|]. intros x.
  destruct (py_eq_str x []); [apply IH | apply keeps_writes_ret].
Qed.

Lemma keeps_writes_read_first_part_raw : keeps_writes read_first_part_raw.
Proof.
  intros w o w'. unfold read_first_part_raw.
  apply keeps_writes_poll_nonempty_raw.
Qed.

(** What [getpub] does after its message is sent. *)
Lemma getpub_reads_keep_writes {A} (finish : pyval -> pyval -> pyval -> pyval ->
    pyval -> pyval -> pyval -> pyval -> io A) :
  (forall p1 p2 p3 p4 p5 p6 p7 p8, keeps_writes (finish p1 p2 p3 p4 p5 p6 p7 p8)) ->
  keeps_writes
    (sleep 1000 ;;
     ok_pubkey1 ← read_first_part_raw ;
     ok_pubkey2 ← read_next_part_raw ;
     ok_pubkey3 ← read_next_part_raw ;
     ok_pubkey4 ← read_next_part_raw ;
     ok_pubkey5 ← read_next_part_raw ;
     ok_pubkey6 ← read_next_part_raw ;
     ok_pubkey7 ← read_next_part_raw ;
     ok_pubkey8 ← read_next_part_raw ;
     finish ok_pubkey1 ok_pubkey2 ok_pubkey3 ok_pubkey4 ok_pubkey5 ok_pubkey6
            ok_pubkey7 ok_pubkey8).
Proof.
  intros Hf.
  apply keeps_writes_bind; [apply keeps_writes_sleep|]. intros _.
  apply keeps_writes_bind; [apply keeps_writes_read_first_part_raw|]. intros p1.
  do 7 (apply keeps_writes_bind; [apply keeps_writes_retry_read_raw|]; intros ?).
  apply Hf.
Qed.

Lemma getpub_finish_keeps_writes (p1 p2 p3 p4 p5 p6 p7 p8 : pyval) :
  keeps_writes
    (if negb (truthy p2)
     then raise (PyException "failed to read public RSA N from OnlyKey")
     else
       k ← lift (py_add p1 p2) ;
       k ← lift (py_add k p3) ;
       k ← lift (py_add k p4) ;
       k ← lift (py_add k p5) ;
       k ← lift (py_add k p6) ;
       k ← lift (py_add k p7) ;
       ok_pubkey ← lift (py_add k p8) ;
       _ ← lift (py_len ok_pubkey) ;
       ret ok_pubkey).
Proof.
  destruct (negb _); [apply keeps_writes_raise|].
  do 8 (apply keeps_writes_bind; [apply keeps_writes_lift|]; intros ?).
  apply keeps_writes_ret.
Qed.

Lemma bind_get_slotnum_unbound {B} (k : Z -> io B) (w : world) :
  slotnum w = None -> (get_slotnum ≫= k) w = (Raise NameError, w).
Proof.
  intros Hs. unfold mbind, io_bind, bind, get_slotnum. by rewrite Hs.
Qed.

(** X20: Before [slot] was ever called the global [slotnum] is unbound:
    [getpub] then raises [NameError] (or the [UnicodeDecodeError] of the
    report it reads first) and has sent nothing. *)
Theorem getpub_before_slot (nt : bool) (w : world) (h : string) :
  _hid w = Some h ->
  slotnum w = None ->
  ((getpub nt w).1 = Raise NameError \/
   (getpub nt w).1 = Raise UnicodeDecodeError) /\
  writes (trace (getpub nt w).2) = writes (trace w).
Proof.
  intros Hh Hs. unfold getpub. rewrite bind_sleep.
  unfold read_string, read_chunk.
  rewrite bind_assoc, (bind_read_bytes_raw _ _ _ _ h) by exact Hh.
  set (r := take (MAX_INPUT_REPORT_SIZE nt) _).
  assert (Ha : ascii_decode r = Raise UnicodeDecodeError \/
               exists t, ascii_decode r = Return t).
  { clearbody r. induction r as [|x r IH]; simpl; [right; by eexists|].
    destruct (Byte.to_N x <? 128)%N; [|by left].
    destruct IH as [->|[t ->]]; simpl; [by left | right; by eexists]. }
  destruct Ha as [->|[t ->]].
  - rewrite bind_lift_Raise. cbn [fst snd]. split; [by right|].
    by rewrite writes_after_read, writes_log_event, app_nil_r.
  - rewrite bind_lift_Return, bind_sleep.
    rewrite bind_get_slotnum_unbound by exact Hs.
    cbn [fst snd]. split; [by left|].
    by rewrite writes_log_event, writes_after_read, writes_log_event, !app_nil_r.
Qed.

Lemma getpub_before_slot_witness :
  _hid idle_world = Some "hidraw0" /\
  slotnum idle_world = None /\
  ((getpub false idle_world).1 = Raise NameError \/
   (getpub false idle_world).1 = Raise UnicodeDecodeError) /\
  writes (trace (getpub false idle_world).2) = writes (trace idle_world).
Proof.
  split; [reflexivity|]. split; [reflexivity|].
  apply (getpub_before_slot false idle_world "hidraw0"); reflexivity.
Defined.

(** X21: [getpub] sends the slot number as [chr(slotnum)], which
    [send_message] encodes in UTF-8: a slot from 128 on goes out as two
    bytes, not as the byte of its number.  The report is the only one
    written, whatever the device answers. *)
Theorem getpub_high_slot (nt : bool) (w : world) (h : string) (s : Z)
    (t0 : pystr) :
  _hid w = Some h ->
  slotnum w = Some s ->
  (128 <= s < 2048)%Z ->
  ascii_decode (take (MAX_INPUT_REPORT_SIZE nt) (hd [] (pending w))) = Return t0 ->
  writes (trace (getpub nt w).2) =
    writes (trace w) ++
    [zero_pad nt (header_bytes nt ++
       [int_byte 236; int_byte (192 + s / 64); int_byte (128 + s mod 64)])].
Proof.
  intros Hh Hs Hr Ha.
  unfold getpub.
  rewrite bind_sleep.
  rewrite (bind_read_string nt 100 _ _ h t0) by (exact Hh || exact Ha).
  rewrite bind_sleep, (bind_get_slotnum _ _ s) by exact Hs.
  assert (Hc : py_chr s = Return (Z.to_N s)).
  { unfold py_chr.
    replace ((0 <=? s)%Z && (s <? 1114112)%Z) with true; [done|].
    symmetry. apply andb_true_iff. split; [apply Z.leb_le | apply Z.ltb_lt]; lia. }
  rewrite Hc, bind_lift_Return.
  assert (He : encoded_payload (VStr [Z.to_N s]) =
               Return [int_byte (192 + s / 64); int_byte (128 + s mod 64)]).
  { unfold encoded_payload. simpl. unfold utf8_encode_char.
    replace (Z.to_N s <? 128)%N with false by (symmetry; apply N.ltb_ge; lia).
    replace (Z.to_N s <? 2048)%N with true by (symmetry; apply N.ltb_lt; lia).
    simpl. unfold int_byte.
    pose proof (Z.div_pos s 64 ltac:(lia) ltac:(lia)).
    pose proof (Z.mod_pos_bound s 64 ltac:(lia)).
    rewrite !Z2N.inj_add, Z2N.inj_div, Z2N.inj_mod by lia. reflexivity. }
  erewrite bind_Return; cycle 1.
  { apply (send_message_writes nt _ _ _ _ _ h
             [int_byte (192 + s / 64); int_byte (128 + s mod 64)]);
      [done | exact I | exact He]. }
  match goal with
  | |- writes (trace (?m ?w1).2) = _ =>
      assert (K : keeps_writes m)
        by (apply getpub_reads_keep_writes; apply getpub_finish_keeps_writes);
      rewrite (K w1 _ _ (surjective_pairing _))
  end.
  rewrite writes_log_event, writes_log_event, writes_after_read, writes_log_event.
  by rewrite !app_nil_r.
Qed.

Lemma getpub_high_slot_witness :
  _hid (set_slotnum 132 (listening_world [])) = Some "hidraw0" /\
  slotnum (set_slotnum 132 (listening_world [])) = Some 132%Z /\
  (128 <= 132 < 2048)%Z /\
  ascii_decode (take (MAX_INPUT_REPORT_SIZE false)
                  (hd [] (pending (set_slotnum 132 (listening_world []))))) =
    Return [] /\
  writes (trace (getpub false (set_slotnum 132 (listening_world []))).2) =
    writes (trace (set_slotnum 132 (listening_world []))) ++
    [zero_pad false (header_bytes false ++
       [int_byte 236; int_byte (192 + 132 / 64); int_byte (128 + 132 mod 64)])].
Proof.
  split; [reflexivity|]. split; [reflexivity|]. split; [lia|].
  split; [reflexivity|].
  apply (getpub_high_slot false (set_slotnum 132 (listening_world [])) "hidraw0"
           132 []).
  - reflexivity.
  - reflexivity.
  - lia.
  - reflexivity.
Defined.

(** ** Reading text *)

Lemma ascii_decode_forallb (r : bytes) :
  ascii_decode r =
  if forallb (fun b => (Byte.to_N b <? 128)%N) r
  then Return (map Byte.to_N r) else Raise UnicodeDecodeError.
Proof.
  induction r as [|x r IH]; [done|]. simpl.
  destruct (Byte.to_N x <? 128)%N; [|done]. rewrite IH. simpl.
  by destruct (forallb _ r).
Qed.

(** X22: [read_string] takes one report off the queue, cut to the report
    size, and decodes it: the text has one character for each byte when
    all the bytes are below 128, and [UnicodeDecodeError] is raised
    otherwise.  The report is gone in both cases. *)
Theorem read_string_outcomes (nt : bool) (t : Z) (w : world) (h : string) :
  _hid w = Some h ->
  read_string nt t w =
  (if forallb (fun b => (Byte.to_N b <? 128)%N)
             (take (MAX_INPUT_REPORT_SIZE nt) (hd [] (pending w)))
   then Return (map Byte.to_N (take (MAX_INPUT_REPORT_SIZE nt) (hd [] (pending w))))
   else Raise UnicodeDecodeError,
   after_read (MAX_INPUT_REPORT_SIZE nt) t w) /\
  pending (after_read (MAX_INPUT_REPORT_SIZE nt) t w) = tl (pending w).
Proof.
  intros Hh. split; [|apply pending_after_read].
  unfold read_string, read_chunk.
  rewrite (bind_read_bytes_raw _ _ _ w h Hh). unfold lift.
  by rewrite ascii_decode_forallb.
Qed.

Lemma read_string_outcomes_witness :
  _hid (listening_world [[Byte.x41; Byte.xe9]; [Byte.x42]]) = Some "hidraw0" /\
  read_string false 100 (listening_world [[Byte.x41; Byte.xe9]; [Byte.x42]]) =
  (if forallb (fun b => (Byte.to_N b <? 128)%N)
             (take (MAX_INPUT_REPORT_SIZE false)
                (hd [] (pending (listening_world [[Byte.x41; Byte.xe9]; [Byte.x42]]))))
   then Return (map Byte.to_N (take (MAX_INPUT_REPORT_SIZE false)
                (hd [] (pending (listening_world [[Byte.x41; Byte.xe9]; [Byte.x42]])))))
   else Raise UnicodeDecodeError,
   after_read (MAX_INPUT_REPORT_SIZE false) 100
     (listening_world [[Byte.x41; Byte.xe9]; [Byte.x42]])) /\
  pending (after_read (MAX_INPUT_REPORT_SIZE false) 100
             (listening_world [[Byte.x41; Byte.xe9]; [Byte.x42]])) =
  tl (pending (listening_world [[Byte.x41; Byte.xe9]; [Byte.x42]])).
Proof.
  split; [reflexivity|].
  apply (read_string_outcomes false 100
           (listening_world [[Byte.x41; Byte.xe9]; [Byte.x42]]) "hidraw0").
  reflexivity.
Defined.

Lemma map_to_N_inj (a b : bytes) : map Byte.to_N a = map Byte.to_N b -> a = b.
Proof.
  revert b. induction a as [|x a IH]; intros [|y b]; simpl; try done.
  intros [= Hxy Hab]. f_equal; [|by apply IH].
  pose proof (Byte.of_to_N x) as Hx. pose proof (Byte.of_to_N y) as Hy.
  rewrite Hxy in Hx. congruence.
Qed.

(** X23: [initialized] answers [True] exactly when the report it reads is
    the eleven bytes of [INITIALIZED] and nothing else: a report that
    carries them with padding after is answered [False]. *)
Theorem initialized_exact (nt : bool) (w : world) (h : string) :
  _hid w = Some h ->
  (initialized nt w).1 = Return true <->
  hd [] (pending w) =
    [Byte.x49; Byte.x4e; Byte.x49; Byte.x54; Byte.x49; Byte.x41; Byte.x4c;
     Byte.x49; Byte.x5a; Byte.x45; Byte.x44].
Proof.
  intros Hh. unfold initialized, read_string, read_chunk.
  rewrite bind_assoc, (bind_read_bytes_raw _ _ _ w h Hh).
  rewrite ascii_decode_forallb.
  set (r := hd [] (pending w)).
  set (word := [Byte.x49; Byte.x4e; Byte.x49; Byte.x54; Byte.x49; Byte.x41;
                Byte.x4c; Byte.x49; Byte.x5a; Byte.x45; Byte.x44]).
  assert (Hcut : take (MAX_INPUT_REPORT_SIZE nt) r = word <-> r = word).
  { split.
    - intros E. assert (Hl : length (take (MAX_INPUT_REPORT_SIZE nt) r) = 11)
        by (by rewrite E).
      rewrite length_take in Hl.
      assert (length r <= MAX_INPUT_REPORT_SIZE nt)
        by (destruct nt; unfold MAX_INPUT_REPORT_SIZE in *; lia).
      by rewrite take_ge in E.
    - intros ->. by destruct nt. }
  rewrite <- Hcut. clear Hcut.
  destruct (forallb _ (take (MAX_INPUT_REPORT_SIZE nt) r)) eqn:Ef.
  - rewrite bind_lift_Return. cbn [fst ret]. unfold mret, io_ret. cbn [fst].
    split.
    + intros [= Hb]. apply bool_decide_eq_true in Hb.
      apply map_to_N_inj. rewrite Hb. reflexivity.
    + intros E. f_equal. apply bool_decide_eq_true. rewrite E. reflexivity.
  - rewrite bind_lift_Raise. cbn [fst]. split; [discriminate|].
    intros E. rewrite E in Ef. discriminate Ef.
Qed.

Lemma initialized_exact_witness :
  _hid (listening_world
          [[Byte.x49; Byte.x4e; Byte.x49; Byte.x54; Byte.x49; Byte.x41; Byte.x4c;
            Byte.x49; Byte.x5a; Byte.x45; Byte.x44]]) = Some "hidraw0" /\
  ((initialized false (listening_world
          [[Byte.x49; Byte.x4e; Byte.x49; Byte.x54; Byte.x49; Byte.x41; Byte.x4c;
            Byte.x49; Byte.x5a; Byte.x45; Byte.x44]])).1 = Return true <->
   hd [] (pending (listening_world
          [[Byte.x49; Byte.x4e; Byte.x49; Byte.x54; Byte.x49; Byte.x41; Byte.x4c;
            Byte.x49; Byte.x5a; Byte.x45; Byte.x44]])) =
    [Byte.x49; Byte.x4e; Byte.x49; Byte.x54; Byte.x49; Byte.x41; Byte.x4c;
     Byte.x49; Byte.x5a; Byte.x45; Byte.x44]).
Proof.
  split; [reflexivity|].
  apply (initialized_exact false
           (listening_world
              [[Byte.x49; Byte.x4e; Byte.x49; Byte.x54; Byte.x49; Byte.x41; Byte.x4c;
                Byte.x49; Byte.x5a; Byte.x45; Byte.x44]]) "hidraw0").
  reflexivity.
Defined.

(** ** The further properties at concrete inputs *)

Lemma send_large_message3_last_chunk_witness :
  _hid idle_world = Some "hidraw0" /\
  payload_data (VBytes (replicate 57 Byte.x01 ++ [Byte.x02; Byte.x03])) =
    Some (replicate 57 Byte.x01 ++ [Byte.x02; Byte.x03]) /\
  (0 <= 101 < 256)%Z /\ (0 <= 1 < 256)%Z /\
  replicate 57 Byte.x01 ++ [Byte.x02; Byte.x03] <> [] /\
  send_large_message3 false (VBytes (replicate 57 Byte.x01 ++ [Byte.x02; Byte.x03]))
    (Some OKSETPRIV) 101 1 idle_world =
  (Return tt,
   log_event
     (EvWrite (zero_pad false
        (header_bytes false ++ [int_byte (Message_value OKSETPRIV)] ++
         [int_byte 101; int_byte 1] ++ [Byte.x02; Byte.x03]))) idle_world).
Proof.
  split; [reflexivity|]. split; [reflexivity|]. split; [lia|]. split; [lia|].
  split; [discriminate|].
  apply (send_large_message3_last_chunk false
           (VBytes (replicate 57 Byte.x01 ++ [Byte.x02; Byte.x03])) OKSETPRIV 101 1
           idle_world "hidraw0" (replicate 57 Byte.x01 ++ [Byte.x02; Byte.x03])).
  - reflexivity.
  - reflexivity.
  - lia.
  - lia.
  - discriminate.
Defined.

Lemma send_large_message3_empty_witness :
  py_len (VBytes []) = Return 0 /\
  send_large_message3 false (VBytes []) (Some OKSETPRIV) 101 1 idle_world =
  (Raise UnboundLocalError, idle_world).
Proof.
  split; [reflexivity|].
  apply (send_large_message3_empty false (VBytes []) OKSETPRIV 101 1 idle_world).
  reflexivity.
Defined.

Lemma connect_after_failures_witness :
  2 <= 4 /\
  (forall i, i < 2 ->
     enumerate_at plugging_world (enum_calls plugging_world + i) = None) /\
  enumerate_at plugging_world (enum_calls plugging_world + 2) =
    Some [mkInfo 0x046d 0xc31c "" 0 1 "/dev/hidraw0";
          mkInfo 0x1d50 0x60fc "1000000000" 2 0xffab "/dev/hidraw1";
          mkInfo 0x1d50 0x60fc "1000000000" 1 0xf1d0 "/dev/hidraw2";
          mkInfo 0x16C0 0x0486 "" 1 0xf1d0 "/dev/hidraw3"] /\
  exists w',
    OnlyKey_init true plugging_world = (Return tt, w') /\
    enum_calls w' = 3 /\
    trace w' = [EvEnumerate; EvSleep 1500; EvEnumerate; EvSleep 1500;
                EvEnumerate; EvOpen "/dev/hidraw1"; EvOpen "/dev/hidraw3"] /\
    _hid w' = Some "/dev/hidraw3".
Proof.
  split; [lia|].
  split; [intros i Hi; destruct i as [|[|i]]; [reflexivity | reflexivity | lia]|].
  split; [reflexivity|].
  apply (connect_after_failures 2 plugging_world
           [mkInfo 0x046d 0xc31c "" 0 1 "/dev/hidraw0";
            mkInfo 0x1d50 0x60fc "1000000000" 2 0xffab "/dev/hidraw1";
            mkInfo 0x1d50 0x60fc "1000000000" 1 0xf1d0 "/dev/hidraw2";
            mkInfo 0x16C0 0x0486 "" 1 0xf1d0 "/dev/hidraw3"]).
  - lia.
  - intros i Hi; destruct i as [|[|i]]; [reflexivity | reflexivity | lia].
  - reflexivity.
  - reflexivity.
Defined.

Lemma getpub_reassembles_witness :
  _hid (listening_world ([] :: eight_segments 64)) = Some "hidraw0" /\
  slotnum (listening_world ([] :: eight_segments 64)) = Some 1%Z /\
  (0 <= 1 < 128)%Z /\
  pending (listening_world ([] :: eight_segments 64)) =
    [] :: segment 64 Byte.x01 :: segment 64 Byte.x02 :: segment 64 Byte.x03 ::
    segment 64 Byte.x04 :: segment 64 Byte.x05 :: segment 64 Byte.x06 ::
    segment 64 Byte.x07 :: segment 64 Byte.x08 :: [] /\
  ascii_decode (take (MAX_INPUT_REPORT_SIZE false) []) = Return [] /\
  Forall (fun r : bytes => length r = 64)
    [segment 64 Byte.x02; segment 64 Byte.x03; segment 64 Byte.x04;
     segment 64 Byte.x05; segment 64 Byte.x06; segment 64 Byte.x07;
     segment 64 Byte.x08] /\
  exists w',
    getpub false (listening_world ([] :: eight_segments 64)) =
      (Return (VBytes (take 64 (segment 64 Byte.x01) ++ segment 64 Byte.x02 ++
                       segment 64 Byte.x03 ++ segment 64 Byte.x04 ++
                       segment 64 Byte.x05 ++ segment 64 Byte.x06 ++
                       segment 64 Byte.x07 ++ segment 64 Byte.x08)), w') /\
    pending w' = [] /\
    writes (trace w') =
      writes (trace (listening_world ([] :: eight_segments 64))) ++
      [zero_pad false (header_bytes false ++ [int_byte 236; int_byte 1])].
Proof.
  split; [reflexivity|]. split; [reflexivity|]. split; [lia|].
  split; [reflexivity|]. split; [reflexivity|].
  split; [repeat (apply Forall_cons; split; [reflexivity|]); by apply Forall_nil|].
  apply (getpub_reassembles false (listening_world ([] :: eight_segments 64))
           "hidraw0" 1 [] []).
  - reflexivity.
  - reflexivity.
  - lia.
  - reflexivity.
  - reflexivity.
  - repeat (apply Forall_cons; split; [reflexivity|]); by apply Forall_nil.
Defined.

Lemma getpub_silent_device_witness :
  _hid (listening_world []) = Some "hidraw0" /\
  slotnum (listening_world []) = Some 1%Z /\
  (0 <= 1 < 128)%Z /\
  ascii_decode (take (MAX_INPUT_REPORT_SIZE false)
                     (hd [] (pending (listening_world [])))) = Return [] /\
  Forall (fun r : bytes => r = []) (drop 2 (pending (listening_world []))) /\
  (getpub false (listening_world [])).1 =
  Raise (PyException "failed to read public RSA N from OnlyKey").
Proof.
  split; [reflexivity|]. split; [reflexivity|]. split; [lia|].
  split; [reflexivity|]. split; [by apply Forall_nil|].
  apply (getpub_silent_device false (listening_world []) "hidraw0" 1 []).
  - reflexivity.
  - reflexivity.
  - lia.
  - reflexivity.
  - by apply Forall_nil.
Defined.

Lemma getlabels_slots_witness :
  getlabels false (listening_world (replicate 12 [Byte.x01; Byte.x7c; Byte.x41])) =
    ((getlabels false
        (listening_world (replicate 12 [Byte.x01; Byte.x7c; Byte.x41]))).1,
     (getlabels false
        (listening_world (replicate 12 [Byte.x01; Byte.x7c; Byte.x41]))).2) /\
  match (getlabels false
           (listening_world (replicate 12 [Byte.x01; Byte.x7c; Byte.x41]))).1 with
  | Return slots =>
      Forall (fun s => (1 <= number s <= 12)%Z /\
                       SLOTS_NAME !! number s = Some (name s)) slots /\
      length slots <= 12 /\
      12 + length (pending (getlabels false
           (listening_world (replicate 12 [Byte.x01; Byte.x7c; Byte.x41]))).2)
        <= length (pending
             (listening_world (replicate 12 [Byte.x01; Byte.x7c; Byte.x41]))) /\
      length (writes (trace (getlabels false
           (listening_world (replicate 12 [Byte.x01; Byte.x7c; Byte.x41]))).2)) =
        S (length (writes (trace
             (listening_world (replicate 12 [Byte.x01; Byte.x7c; Byte.x41])))))
  | Raise e => forall k, e <> KeyError k
  | Hang => False
  end.
Proof.
  split; [apply surjective_pairing|].
  apply (getlabels_slots false
           (listening_world (replicate 12 [Byte.x01; Byte.x7c; Byte.x41]))).
  apply surjective_pairing.
Defined.

Lemma set_time_report_witness :
  _hid idle_world = Some "hidraw0" /\
  (0 <= 1700000000)%Z /\
  exists bs : bytes,
    set_time false 1700000000 idle_world =
      (Return tt,
       log_event (EvWrite (zero_pad false
          (header_bytes false ++ [int_byte 228] ++ bs))) idle_world) /\
    bs <> [] /\ big_endian bs = 1700000000%Z.
Proof.
  split; [reflexivity|]. split; [lia|].
  apply (set_time_report false 1700000000 idle_world "hidraw0").
  - reflexivity.
  - lia.
Defined.

Lemma slot_names_distinct_witness :
  Slot_init 29 [] = Return (mkSlot 29 [] "ECC Key 1") /\
  Slot_init 7 [65%N] = Return (mkSlot 7 [65%N] "1b") /\
  (((1 <= 29 <= 12)%Z \/ (25 <= 29 <= 60)%Z) /\
   number (mkSlot 29 [] "ECC Key 1") = 29%Z /\
   label (mkSlot 29 [] "ECC Key 1") = [] /\
   (name (mkSlot 29 [] "ECC Key 1") = name (mkSlot 7 [65%N] "1b") -> 29 = 7)%Z).
Proof.
  split; [reflexivity|]. split; [reflexivity|].
  apply (slot_names_distinct 29 7 [] [65%N]); reflexivity.
Defined.

(** ** Reports of full size in [sign] *)

(** On a queue no report of which has a text of 64 characters, each of
    the later loops of [sign] makes its ten reads. *)
Lemma later_segments_full_budget (ns : list nat) :
  forall q : list bytes,
  Forall (fun s : bytes => length (bytes_hex (take 64 s)) <> 64) q ->
  Forall2 (fun n s => 1 <= n <= 10 /\ (n < 10 -> length s = 64))
          ns (later_segments q ns) ->
  Forall (fun n => n = 10) ns.
Proof.
  induction ns as [|n ns IH]; intros q Hq H; [by apply Forall_nil|].
  cbn [later_segments] in H. apply Forall2_cons in H as [[Hn Hl] H].
  apply Forall_cons. split.
  - destruct (decide (n < 10)) as [Hlt|]; [|lia]. exfalso.
    specialize (Hl Hlt).
    destruct (decide (n - 1 < length q)) as [Hi|Hi].
    + rewrite Forall_forall in Hq. apply (Hq (nth (n - 1) q [])); [|exact Hl].
      apply list_elem_of_In, nth_In. exact Hi.
    + rewrite nth_overflow in Hl by lia. discriminate Hl.
  - apply (IH (drop n q)); [by apply Forall_drop | exact H].
Qed.

(** X24: When the reports that follow the first segment all have the
    full size of 64 bytes and fewer than ten of them arrive, the seven
    that are expected for instance, [sign]'s reading code raises its
    read failure although the segments arrived: the text of a full
    report has 128 characters, so the test that ends a loop never holds,
    the loop of the second segment goes through all the reports and
    ends on an empty read.  Every report is consumed, after 70 reads. *)
Theorem sign_full_reports_fail (w : world) (h : string) (k : nat) (r : bytes)
    (q : list bytes) :
  _hid w = Some h ->
  pending w = replicate k [] ++ r :: q ->
  r <> [] ->
  Forall (fun s : bytes => 64 <= length s) q ->
  length q < 10 ->
  exists w8 : world,
    sign_response w =
      (Raise (PyException "failed to read signature from OnlyKey"), w8) /\
    pending w8 = [] /\
    trace w8 = trace w ++
               concat (replicate k [EvSleep 500; EvRead 64 100 []]) ++
               [EvSleep 500; EvRead 64 100 (take 64 r)] ++
               read_events q 70.
Proof.
  intros Hh Hp Hr Hfull Hlen.
  destruct (read_first_part_trace w h k r q Hh Hp Hr) as (w1 & E1 & Hq & H1 & T1).
  destruct (sign_later_parts h (bytes_hex (take 64 r)) w1 H1)
    as (ns & w8 & Hl & Hns & Es & P8 & T8).
  rewrite Hq in Hns, Es, P8, T8.
  assert (Hten : Forall (fun n => n = 10) ns).
  { apply (later_segments_full_budget ns q); [|exact Hns].
    eapply Forall_impl; [exact Hfull|]. intros s Hs. simpl in Hs.
    rewrite bytes_hex_length, length_take. lia. }
  assert (ns = [10; 10; 10; 10; 10; 10; 10]) as ->.
  { do 7 (destruct ns as [|? ns]; [discriminate Hl|];
          apply Forall_cons in Hten as [-> Hten]).
    by destruct ns. }
  exists w8. split; [|split].
  - unfold sign_response. rewrite (bind_Return _ _ _ _ _ E1), Es.
    cbn [later_segments hd Nat.sub].
    rewrite nth_overflow by lia. reflexivity.
  - rewrite P8. apply drop_ge. simpl. lia.
  - rewrite T8, T1. by rewrite <- !app_assoc.
Qed.

Lemma sign_full_reports_fail_witness :
  _hid (listening_world ([] :: eight_segments 64)) = Some "hidraw0" /\
  pending (listening_world ([] :: eight_segments 64)) =
    replicate 1 [] ++ segment 64 Byte.x01 :: tl (eight_segments 64) /\
  segment 64 Byte.x01 <> [] /\
  Forall (fun s : bytes => 64 <= length s) (tl (eight_segments 64)) /\
  length (tl (eight_segments 64)) < 10 /\
  exists w8 : world,
    sign_response (listening_world ([] :: eight_segments 64)) =
      (Raise (PyException "failed to read signature from OnlyKey"), w8) /\
    pending w8 = [] /\
    trace w8 = trace (listening_world ([] :: eight_segments 64)) ++
               concat (replicate 1 [EvSleep 500; EvRead 64 100 []]) ++
               [EvSleep 500; EvRead 64 100 (take 64 (segment 64 Byte.x01))] ++
               read_events (tl (eight_segments 64)) 70.
Proof.
  split; [reflexivity|]. split; [reflexivity|]. split; [discriminate|].
  split; [repeat (apply Forall_cons; split; [simpl; lia|]); by apply Forall_nil|].
  split; [simpl; lia|].
  apply (sign_full_reports_fail (listening_world ([] :: eight_segments 64))
           "hidraw0" 1 (segment 64 Byte.x01) (tl (eight_segments 64))).
  - reflexivity.
  - reflexivity.
  - discriminate.
  - repeat (apply Forall_cons; split; [simpl; lia|]); by apply Forall_nil.
  - simpl. lia.
Defined.
